(** * A shallow embedding of the hyperswarm discovery module (src/index.js)

    The module keeps one [Discovery] session: a DHT handle, a multicast DNS
    socket and a domain index ([_domains], a Map from domain strings to Sets
    of Topics).  A [Topic] runs a DHT announce or lookup loop and a multicast
    query loop, and reports peers through EventEmitter events.

    The model is a single world record.  JavaScript objects living in the
    session (Topics, DHT streams) are addressed by handles, i.e. positions in
    the lists of the world; callbacks deferred with [process.nextTick] and
    callbacks of timers and I/O are tasks in two queues; every observable
    side effect (an emitted event, a callback, a packet sent) is recorded in
    a trace, newest first. *)

From Stdlib Require Import ZArith List String Ascii Bool Lia Permutation.
From Stdlib Require Import Floats.SpecFloat.
Import ListNotations.
Local Open Scope Z_scope.

(* ------------------------------------------------------------------ *)
(** ** Bytes, hex encoding and domains *)

Definition bytes := list Byte.byte.

(** One lower-case hexadecimal digit, as [Buffer#toString('hex')] prints it. *)
Definition hex_digit (n : N) : ascii :=
  ascii_of_N (if (n <? 10)%N then (48 + n)%N else (87 + n)%N).

Fixpoint to_hex (b : bytes) : string :=
  match b with
  | [] => EmptyString
  | x :: r =>
      let n := Byte.to_N x in
      String (hex_digit (n / 16)%N) (String (hex_digit (n mod 16)%N) (to_hex r))
  end.

(** [opts.domain || 'hyperswarm.local']: a missing or empty string is falsy. *)
Definition configured_domain (o : option string) : string :=
  match o with
  | Some s => if String.eqb s EmptyString then "hyperswarm.local"%string else s
  | None => "hyperswarm.local"%string
  end.

(** Discovery constructor: [this._tld = '.' + domain]. *)
Definition make_tld (o : option string) : string :=
  String.append "."%string (configured_domain o).

(** [Discovery#_domain]: [key.slice(0, 20).toString('hex') + this._tld]. *)
Definition _domain (tld : string) (key : bytes) : string :=
  String.append (to_hex (firstn 20 key)) tld.

(* ------------------------------------------------------------------ *)
(** ** Multicast DNS packets *)

(** A resource record of the packets the module builds and reads.  [AOther]
    stands for any record of another type (A, PTR, ...). *)
Inductive answer :=
| ASRV (name : string) (target : string) (port : Z)
| ATXT (name : string) (data : list bytes)
| AOther (type : string) (name : string).

Record question := mkQuestion { q_type : string; q_name : string }.

Record packet := mkPacket { p_questions : list question; p_answers : list answer }.

Fixpoint bytes_eqb (a b : bytes) : bool :=
  match a, b with
  | [], [] => true
  | x :: a', y :: b' => Byte.eqb x y && bytes_eqb a' b'
  | _, _ => false
  end.

(** [Discovery#_getId]: the first datum of the first TXT answer with the
    given name and a non-empty data array. *)
Fixpoint _getId (answers : list answer) (name : string) : option bytes :=
  match answers with
  | [] => None
  | ATXT n (d0 :: _) :: rest =>
      if String.eqb n name then Some d0 else _getId rest name
  | _ :: rest => _getId rest name
  end.

(* ------------------------------------------------------------------ *)
(** ** JavaScript numbers used as options *)

(** An optional numeric option: [None] is [undefined].  [a || b] keeps [a]
    when it is truthy, i.e. present and non-zero. *)
Definition js_or (a b : option Z) : option Z :=
  match a with
  | Some x => if Z.eqb x 0 then b else Some x
  | None => b
  end.

Definition truthy_num (a : option Z) : bool :=
  match a with Some x => negb (Z.eqb x 0) | None => false end.

Definition num_or_zero (a : option Z) : Z :=
  match js_or a (Some 0) with Some x => x | None => 0 end.

(** The announce descriptor [{ port, localAddress }]. *)
Record announce_desc := mkAnnounce { ad_port : Z; ad_localAddress : option string }.

(** The options object a Topic is constructed with. *)
Record topic_opts := mkTopicOpts {
  to_announce : option announce_desc;
  to_localPort : option Z;
  to_lookup : bool }.

Definition no_topic_opts := mkTopicOpts None None false.

(** The options of [Discovery#announce]. *)
Record announce_opts := mkAnnounceOpts {
  ao_port : option Z;
  ao_localPort : option Z;
  ao_localAddress : option string;
  ao_lookup : bool }.

(** [Discovery#announce] builds the Topic options from its own options. *)
Definition announce_topic_opts (o : announce_opts) : topic_opts :=
  mkTopicOpts
    (Some (mkAnnounce (num_or_zero (ao_port o)) (ao_localAddress o)))
    (js_or (ao_localPort o) (js_or (ao_port o) (Some 0)))
    (ao_lookup o).

(** Topic constructor: [port = opts.localPort || 0] and
    [_answer = port ? { type: 'SRV', name, data: { target: '0.0.0.0', port } } : null]. *)
Definition topic_answer (name : string) (o : topic_opts) : option answer :=
  let port := num_or_zero (to_localPort o) in
  if Z.eqb port 0 then None else Some (ASRV name "0.0.0.0"%string port).

(* ------------------------------------------------------------------ *)
(** ** Events, listeners, tasks and observations *)

(** A peer candidate, as emitted with the ['peer'] event. *)
Record peer := mkPeer {
  pr_host : string; pr_port : Z; pr_local : bool; pr_referrer : option bytes }.

Inductive evname := EvPeer | EvUpdate | EvClose.

Inductive event := EPeer (p : peer) | EUpdate (err : option string) | EClose.

Definition ev_name (e : event) : evname :=
  match e with EPeer _ => EvPeer | EUpdate _ => EvUpdate | EClose => EvClose end.

Definition evname_eqb (a b : evname) : bool :=
  match a, b with
  | EvPeer, EvPeer | EvUpdate, EvUpdate | EvClose, EvClose => true
  | _, _ => false
  end.

(** The listeners the module registers on a Topic: [done] of
    [Discovery#destroy], and [onclose] and [onpeer] of [Discovery#lookupOne].
    A [lookupOne] call is named by the handle of the Topic it creates, and so
    is the caller's callback of that call. *)
Inductive listener := LSessionDone | LLookupClose (cb : nat) | LLookupPeer (cb : nat).

Definition listener_eqb (a b : listener) : bool :=
  match a, b with
  | LSessionDone, LSessionDone => true
  | LLookupClose x, LLookupClose y => Nat.eqb x y
  | LLookupPeer x, LLookupPeer y => Nat.eqb x y
  | _, _ => false
  end.

(** One entry of an EventEmitter's listener array ([once] marks a wrapper
    installed by [.once]). *)
Record registration := mkReg { rg_event : evname; rg_fn : listener; rg_once : bool }.

Definition registration_eqb (a b : registration) : bool :=
  evname_eqb (rg_event a) (rg_event b) && listener_eqb (rg_fn a) (rg_fn b)
  && Bool.eqb (rg_once a) (rg_once b).

(** What a caller's callback receives. *)
Inductive cbresult := CErr (msg : string) | CPeer (p : peer).

(** A deferred callback: the close of a Topic (after [process.nextTick] or
    after [dht.unannounce]), the [done] scheduled by [Discovery#destroy], and
    the retry loops of a Topic run by its timers. *)
Inductive task := TTopicClose (t : nat) | TSessionDone | TDhtLoop (t : nat) | TMdnsLoop (t : nat).

(** Observable effects.  [OEmit None] is an event of the session itself. *)
Inductive obs :=
| OEmit (src : option nat) (e : event)
| OCallback (cb : nat) (r : cbresult)
| OThrow (msg : string)
| OMdnsQuery (p : packet)
| OMdnsResponse (p : packet)
| OMdnsDestroy
| ODhtAnnounce (t : nat)
| ODhtLookup (t : nat)
| ODhtUnannounce (t : nat)
| OStreamDestroy (s : nat)
| ODhtDestroy
| ODestroy (t : nat).
(** [ODestroy t] is a ghost observation: it marks the moment [Topic#destroy]
    sets [destroyed] on Topic [t]; the code itself prints nothing there. *)

(* ------------------------------------------------------------------ *)
(** ** Topics, streams and the world *)

Record topic := mkTopic {
  t_key : bytes;
  t_announce : option announce_desc;
  t_destroyed : bool;
  t_id : bytes;
  t_timeoutDht : option nat;
  t_timeoutMdns : option nat;
  t_stream : option nat;
  t_domain : string;
  t_answer : option answer;
  t_listeners : list registration }.

Definition t_set_destroyed (t : topic) (b : bool) : topic :=
  mkTopic (t_key t) (t_announce t) b (t_id t) (t_timeoutDht t) (t_timeoutMdns t)
    (t_stream t) (t_domain t) (t_answer t) (t_listeners t).
Definition t_set_timeoutDht (t : topic) (h : option nat) : topic :=
  mkTopic (t_key t) (t_announce t) (t_destroyed t) (t_id t) h (t_timeoutMdns t)
    (t_stream t) (t_domain t) (t_answer t) (t_listeners t).
Definition t_set_timeoutMdns (t : topic) (h : option nat) : topic :=
  mkTopic (t_key t) (t_announce t) (t_destroyed t) (t_id t) (t_timeoutDht t) h
    (t_stream t) (t_domain t) (t_answer t) (t_listeners t).
Definition t_set_stream (t : topic) (s : option nat) : topic :=
  mkTopic (t_key t) (t_announce t) (t_destroyed t) (t_id t) (t_timeoutDht t)
    (t_timeoutMdns t) s (t_domain t) (t_answer t) (t_listeners t).
Definition t_set_listeners (t : topic) (l : list registration) : topic :=
  mkTopic (t_key t) (t_announce t) (t_destroyed t) (t_id t) (t_timeoutDht t)
    (t_timeoutMdns t) (t_stream t) (t_domain t) (t_answer t) l.

(** The fields of a Topic other than its timers and its current stream. *)
Definition tproj (t : topic) :=
  (t_key t, t_announce t, t_destroyed t, t_id t, t_domain t, t_answer t, t_listeners t).

(** A DHT announce or lookup stream; [s_called] is the [called] flag of the
    [loop] closure that opened it. *)
Record stream := mkStream { s_topic : nat; s_called : bool }.

Record world := mkWorld {
  w_destroyed : bool;
  w_missing : Z;
  w_tld : string;
  w_topics : list topic;
  w_domains : list (string * list nat);
  w_streams : list stream;
  w_ticks : list task;
  w_io : list (nat * task);
  w_next : nat;
  w_trace : list obs }.

Definition w_set_destroyed (w : world) (b : bool) : world :=
  mkWorld b (w_missing w) (w_tld w) (w_topics w) (w_domains w) (w_streams w)
    (w_ticks w) (w_io w) (w_next w) (w_trace w).
Definition w_set_missing (w : world) (m : Z) : world :=
  mkWorld (w_destroyed w) m (w_tld w) (w_topics w) (w_domains w) (w_streams w)
    (w_ticks w) (w_io w) (w_next w) (w_trace w).
Definition w_set_topics (w : world) (l : list topic) : world :=
  mkWorld (w_destroyed w) (w_missing w) (w_tld w) l (w_domains w) (w_streams w)
    (w_ticks w) (w_io w) (w_next w) (w_trace w).
Definition w_set_domains (w : world) (d : list (string * list nat)) : world :=
  mkWorld (w_destroyed w) (w_missing w) (w_tld w) (w_topics w) d (w_streams w)
    (w_ticks w) (w_io w) (w_next w) (w_trace w).
Definition w_set_streams (w : world) (s : list stream) : world :=
  mkWorld (w_destroyed w) (w_missing w) (w_tld w) (w_topics w) (w_domains w) s
    (w_ticks w) (w_io w) (w_next w) (w_trace w).
Definition w_set_ticks (w : world) (q : list task) : world :=
  mkWorld (w_destroyed w) (w_missing w) (w_tld w) (w_topics w) (w_domains w)
    (w_streams w) q (w_io w) (w_next w) (w_trace w).
Definition w_set_io (w : world) (q : list (nat * task)) : world :=
  mkWorld (w_destroyed w) (w_missing w) (w_tld w) (w_topics w) (w_domains w)
    (w_streams w) (w_ticks w) q (w_next w) (w_trace w).
Definition w_set_next (w : world) (n : nat) : world :=
  mkWorld (w_destroyed w) (w_missing w) (w_tld w) (w_topics w) (w_domains w)
    (w_streams w) (w_ticks w) (w_io w) n (w_trace w).
Definition w_set_trace (w : world) (tr : list obs) : world :=
  mkWorld (w_destroyed w) (w_missing w) (w_tld w) (w_topics w) (w_domains w)
    (w_streams w) (w_ticks w) (w_io w) (w_next w) tr.

(** The world right after [new Discovery(opts)]. *)
Definition init_world (domain : option string) : world :=
  mkWorld false 0 (make_tld domain) [] [] [] [] [] 0%nat [].

(** Replace the [n]-th element; out of range the list is unchanged. *)
Fixpoint set_nth {A} (l : list A) (n : nat) (x : A) : list A :=
  match l, n with
  | [], _ => []
  | _ :: r, O => x :: r
  | y :: r, S n' => y :: set_nth r n' x
  end.

Fixpoint remove_nth {A} (l : list A) (n : nat) : list A :=
  match l, n with
  | [], _ => []
  | _ :: r, O => r
  | y :: r, S n' => y :: remove_nth r n'
  end.

Definition trace_obs (o : obs) (w : world) : world := w_set_trace w (o :: w_trace w).

Definition get_topic (w : world) (n : nat) : option topic := nth_error (w_topics w) n.

Definition put_topic (w : world) (n : nat) (t : topic) : world :=
  w_set_topics w (set_nth (w_topics w) n t).

(* ------------------------------------------------------------------ *)
(** ** The domain index [_domains]: a Map of Sets, in insertion order *)

Fixpoint dom_get (d : list (string * list nat)) (k : string) : option (list nat) :=
  match d with
  | [] => None
  | (k', s) :: r => if String.eqb k k' then Some s else dom_get r k
  end.

(** [Set#add]. *)
Definition set_add (s : list nat) (n : nat) : list nat :=
  if existsb (Nat.eqb n) s then s else s ++ [n].

(** [if (!_domains.has(k)) _domains.set(k, new Set()); _domains.get(k).add(n)]. *)
Fixpoint dom_add (d : list (string * list nat)) (k : string) (n : nat)
  : list (string * list nat) :=
  match d with
  | [] => [(k, [n])]
  | (k', s) :: r =>
      if String.eqb k k' then (k', set_add s n) :: r else (k', s) :: dom_add r k n
  end.

(** [set.delete(n); if (!set.size) _domains.delete(k)], with [set] the entry
    of [k].  (The code would throw on a missing entry; the index invariant
    rules that case out, and the model leaves the index unchanged there.) *)
Fixpoint dom_remove (d : list (string * list nat)) (k : string) (n : nat)
  : list (string * list nat) :=
  match d with
  | [] => []
  | (k', s) :: r =>
      if String.eqb k k' then
        match filter (fun m => negb (Nat.eqb m n)) s with
        | [] => r
        | s' => (k', s') :: r
        end
      else (k', s) :: dom_remove r k n
  end.

(* ------------------------------------------------------------------ *)
(** ** Timers and listener arrays *)

(** [_notify(fn, eager)]: arm a timer running [tk]; returns its handle.
    Timers and I/O callbacks may run in any order, so the delay does not
    appear here (see [notify_delay] below). *)
Definition notify (w : world) (tk : task) : world * nat :=
  let h := w_next w in
  (w_set_next (w_set_io w (w_io w ++ [(h, tk)])) (S h), h).

Definition is_timer_task (tk : task) : bool :=
  match tk with TDhtLoop _ | TMdnsLoop _ => true | _ => false end.

(** [clearTimeout(h)] cancels the timer with handle [h] (a pending I/O
    callback is not a timer and is left alone); [clearTimeout(null)] does
    nothing. *)
Definition clear_timer (io : list (nat * task)) (h : option nat) : list (nat * task) :=
  match h with
  | Some i => filter (fun p => negb (Nat.eqb (fst p) i && is_timer_task (snd p))) io
  | None => io
  end.

Definition add_listener (w : world) (n : nat) (r : registration) : world :=
  match get_topic w n with
  | Some t => put_topic w n (t_set_listeners t (t_listeners t ++ [r]))
  | None => w
  end.

Fixpoint remove_first (r : registration) (l : list registration) : list registration :=
  match l with
  | [] => []
  | x :: l' => if registration_eqb x r then l' else x :: remove_first r l'
  end.

(** [removeListener] takes out the most recently added matching entry. *)
Definition remove_listener (w : world) (n : nat) (r : registration) : world :=
  match get_topic w n with
  | Some t => put_topic w n (t_set_listeners t (rev (remove_first r (rev (t_listeners t)))))
  | None => w
  end.

(* ------------------------------------------------------------------ *)
(** ** Topic loops, construction and destruction *)

(** The [loop] of [Topic#_startDht]: open an announce or lookup stream. *)
Definition dht_loop (w : world) (n : nat) : world :=
  match get_topic w n with
  | None => w
  | Some t =>
      let s := List.length (w_streams w) in
      let w := trace_obs (match t_announce t with
                          | Some _ => ODhtAnnounce n
                          | None => ODhtLookup n end) w in
      let w := w_set_streams w (w_streams w ++ [mkStream n false]) in
      put_topic w n (t_set_stream (t_set_timeoutDht t None) (Some s))
  end.

(** The query of [Topic#_startMdns]. *)
Definition topic_query (t : topic) : packet :=
  mkPacket [mkQuestion "SRV"%string (t_domain t)] [ATXT (t_domain t) [t_id t]].

(** The [loop] of [Topic#_startMdns]: send the query and re-arm the timer. *)
Definition mdns_loop (w : world) (n : nat) : world :=
  match get_topic w n with
  | None => w
  | Some t =>
      let w := trace_obs (OMdnsQuery (topic_query t)) w in
      let '(w, h) := notify w (TMdnsLoop n) in
      put_topic w n (t_set_timeoutMdns t (Some h))
  end.

(** [Buffer.from('id=')]. *)
Definition id_prefix : bytes := [Byte.x69; Byte.x64; Byte.x3d].

(** [Discovery#_topic]: [new Topic(this, key, ann)] (whose constructor starts
    the DHT loop, and the multicast loop when [!announce || opts.lookup]),
    then insertion into the domain index.  [rid] is [crypto.randomBytes(32)]. *)
Definition _topic (w : world) (key : bytes) (o : topic_opts) (rid : bytes) : world * nat :=
  let n := List.length (w_topics w) in
  let name := _domain (w_tld w) key in
  let t := mkTopic key (to_announce o) false (id_prefix ++ rid) None None None
             name (topic_answer name o) [] in
  let w := w_set_topics w (w_topics w ++ [t]) in
  let w := dht_loop w n in
  let w := if negb (match to_announce o with Some _ => true | None => false end)
              || to_lookup o then mdns_loop w n else w in
  (w_set_domains w (dom_add (w_domains w) (_domain (w_tld w) key) n), n).

(** [Topic#destroy]. *)
Definition topic_destroy (w : world) (n : nat) : world :=
  match get_topic w n with
  | None => w
  | Some t =>
      if t_destroyed t then w else
      let w := trace_obs (ODestroy n)
                 (put_topic w n (t_set_timeoutDht (t_set_destroyed t true) None)) in
      (* _stopDht *)
      let w := w_set_io w (clear_timer (w_io w) (t_timeoutDht t)) in
      let w := match t_stream t with
               | Some s => trace_obs (OStreamDestroy s) w
               | None => w end in
      (* clearTimeout(this._timeoutMdns) *)
      let w := w_set_io w (clear_timer (w_io w) (t_timeoutMdns t)) in
      let w := w_set_domains w (dom_remove (w_domains w) (t_domain t) n) in
      match t_announce t with
      | None => w_set_ticks w (w_ticks w ++ [TTopicClose n])
      | Some _ => fst (notify (trace_obs (ODhtUnannounce n) w) (TTopicClose n))
      end
  end.

(** The [done] closure of [Discovery#destroy]. *)
Definition session_done (w : world) : world :=
  let m := w_missing w - 1 in
  let w := w_set_missing w m in
  if Z.eqb m 0 then trace_obs (OEmit None EClose) (trace_obs ODhtDestroy w) else w.

(** Run one listener of Topic [n] for event [e]; a [.once] wrapper first
    removes itself.  [onpeer] of [lookupOne] runs with [this] the Topic. *)
Definition call_listener (n : nat) (e : event) (w : world) (r : registration) : world :=
  let w := if rg_once r then remove_listener w n r else w in
  match rg_fn r with
  | LSessionDone => session_done w
  | LLookupClose c => trace_obs (OCallback c (CErr "Lookup failed"%string)) w
  | LLookupPeer c =>
      match e with
      | EPeer p =>
          let w := remove_listener w n (mkReg EvClose (LLookupClose c) false) in
          let w := topic_destroy w n in
          trace_obs (OCallback c (CPeer p)) w
      | _ => w
      end
  end.

(** [topic.emit(e)]: the listeners registered for [e] when the emit starts
    run in order. *)
Definition emit_topic (w : world) (n : nat) (e : event) : world :=
  let w := trace_obs (OEmit (Some n) e) w in
  match get_topic w n with
  | None => w
  | Some t =>
      fold_left (call_listener n e)
        (filter (fun r => evname_eqb (rg_event r) (ev_name e)) (t_listeners t)) w
  end.

(** A [data] chunk of a DHT stream. *)
Record dht_data := mkDhtData {
  dd_node : bytes;
  dd_localPeers : list (string * Z);
  dd_peers : list (string * Z) }.

(** [Topic#_ondhtdata]. *)
Definition _ondhtdata (w : world) (n : nat) (d : dht_data) : world :=
  match get_topic w n with
  | None => w
  | Some t =>
      if t_destroyed t then w else
      let w := fold_left (fun w hp =>
                 emit_topic w n (EPeer (mkPeer (fst hp) (snd hp) true None)))
                 (dd_localPeers d) w in
      fold_left (fun w hp =>
        emit_topic w n (EPeer (mkPeer (fst hp) (snd hp) false (Some (dd_node d)))))
        (dd_peers d) w
  end.

(** The [done] closure of the DHT [loop], run on [end] ([err = None]) or
    [error] of stream [s]. *)
Definition dht_done (w : world) (s : nat) (err : option string) : world :=
  match nth_error (w_streams w) s with
  | None => w
  | Some st =>
      let n := s_topic st in
      match get_topic w n with
      | None => w
      | Some t =>
          if s_called st || t_destroyed t then w else
          let w := put_topic w n (t_set_stream t None) in
          let w := w_set_streams w (set_nth (w_streams w) s (mkStream n true)) in
          let w := emit_topic w n (EUpdate err) in
          let '(w, h) := notify w (TDhtLoop n) in
          match get_topic w n with
          | Some t => put_topic w n (t_set_timeoutDht t (Some h))
          | None => w
          end
      end
  end.

(** [Topic#update]. *)
Definition topic_update (w : world) (n : nat) : world :=
  match get_topic w n with
  | None => w
  | Some t =>
      if t_destroyed t then w else
      let w := match t_timeoutDht t with
               | Some h =>
                   dht_loop (put_topic (w_set_io w (clear_timer (w_io w) (Some h))) n
                               (t_set_timeoutDht t None)) n
               | None => w
               end in
      let w := w_set_io w (clear_timer (w_io w) (t_timeoutMdns t)) in
      mdns_loop w n
  end.

(* ------------------------------------------------------------------ *)
(** ** Multicast handlers *)

(** The answers the Topics of one domain Set give to a question, skipping a
    Topic whose id is the querier's id. *)
Definition topic_answers_for (w : world) (id : option bytes) (set : list nat) : list answer :=
  flat_map (fun n =>
    match get_topic w n with
    | None => []
    | Some t =>
        if match id with Some i => bytes_eqb (t_id t) i | None => false end then []
        else match t_answer t with Some a => [a] | None => [] end
    end) set.

(** The packet [r] built by [Discovery#_onmdnsquery]. *)
Definition query_response (w : world) (res : packet) : packet :=
  mkPacket []
    (flat_map (fun q =>
       if String.eqb (q_type q) "SRV"%string then
         match dom_get (w_domains w) (q_name q) with
         | None => []
         | Some set => topic_answers_for w (_getId (p_answers res) (q_name q)) set
         end
       else []) (p_questions res)).

(** [Discovery#_onmdnsquery]: one [mdns.response(r)]. *)
Definition _onmdnsquery (w : world) (res : packet) : world :=
  trace_obs (OMdnsResponse (query_response w res)) w.

(** [Discovery#_onmdnsresponse].  Its listeners only ever delete the Topic
    being visited from a Set, so iterating the Set as it was when the answer
    is reached visits the same Topics as the live iteration. *)
Definition _onmdnsresponse (w : world) (res : packet) (address : string) : world :=
  fold_left (fun w a =>
    match a with
    | ASRV name target port =>
        match dom_get (w_domains w) name with
        | None => w
        | Some set =>
            let host := if String.eqb target "0.0.0.0"%string then address else target in
            fold_left (fun w n => emit_topic w n (EPeer (mkPeer host port true None))) set w
        end
    | _ => w
    end) (p_answers res) w.

(* ------------------------------------------------------------------ *)
(** ** Session operations *)

(** [Discovery#destroy].  Each [topic.destroy()] deletes only the Topic and
    Set being visited, so the Map and Sets are walked as they were at the
    start. *)
Definition session_destroy (w : world) : world :=
  if w_destroyed w then w else
  let w0 := trace_obs OMdnsDestroy (w_set_missing (w_set_destroyed w true) 1) in
  let w1 := fold_left (fun w n =>
              add_listener (topic_destroy (w_set_missing w (w_missing w + 1)) n) n
                (mkReg EvClose LSessionDone false))
              (List.concat (map snd (w_domains w0))) w0 in
  w_set_ticks w1 (w_ticks w1 ++ [TSessionDone]).

Definition destroyed_error : string := "Discovery instance is destroyed".

(** [Discovery#lookup]; [None] when it throws. *)
Definition lookup (w : world) (key : bytes) (rid : bytes) : world * option nat :=
  if w_destroyed w then (trace_obs (OThrow destroyed_error) w, None) else
  let '(w, n) := _topic w key no_topic_opts rid in (w, Some n).

(** [Discovery#announce]; [None] when it throws. *)
Definition announce (w : world) (key : bytes) (o : announce_opts) (rid : bytes)
  : world * option nat :=
  if w_destroyed w then (trace_obs (OThrow destroyed_error) w, None) else
  let '(w, n) := _topic w key (announce_topic_opts o) rid in (w, Some n).

(** [Discovery#lookupOne]; the callback of the call is named by the handle
    of the Topic it creates. *)
Definition lookupOne (w : world) (key : bytes) (rid : bytes) : world :=
  match lookup w key rid with
  | (w, None) => w
  | (w, Some n) =>
      add_listener (add_listener w n (mkReg EvClose (LLookupClose n) false)) n
        (mkReg EvPeer (LLookupPeer n) true)
  end.

Definition run_task (w : world) (tk : task) : world :=
  match tk with
  | TTopicClose n => emit_topic w n EClose
  | TSessionDone => session_done w
  | TDhtLoop n => dht_loop w n
  | TMdnsLoop n => mdns_loop w n
  end.

(** One step of the event loop: a call of the public API, the next
    [process.nextTick] callback, or, once that queue is empty, any pending
    timer or I/O callback, a stream event, or a multicast packet (until the
    socket is destroyed). *)
Inductive step : world -> world -> Prop :=
| st_lookup w key rid : step w (fst (lookup w key rid))
| st_announce w key o rid : step w (fst (announce w key o rid))
| st_lookupOne w key rid : step w (lookupOne w key rid)
| st_topic_destroy w n : step w (topic_destroy w n)
| st_topic_update w n : step w (topic_update w n)
| st_session_destroy w : step w (session_destroy w)
| st_tick w tk rest : w_ticks w = tk :: rest -> step w (run_task (w_set_ticks w rest) tk)
| st_io w i h tk : w_ticks w = [] -> nth_error (w_io w) i = Some (h, tk) ->
    step w (run_task (w_set_io w (remove_nth (w_io w) i)) tk)
| st_stream_data w s st d : nth_error (w_streams w) s = Some st ->
    step w (_ondhtdata w (s_topic st) d)
| st_stream_end w s : step w (dht_done w s None)
| st_stream_error w s err : step w (dht_done w s (Some err))
| st_mdns_query w p : w_destroyed w = false -> step w (_onmdnsquery w p)
| st_mdns_response w p addr : w_destroyed w = false -> step w (_onmdnsresponse w p addr).

Inductive steps : world -> world -> Prop :=
| steps_refl w : steps w w
| steps_cons w1 w2 w3 : step w1 w2 -> steps w2 w3 -> steps w1 w3.

Definition reachable (w : world) : Prop := exists dom, steps (init_world dom) w.

(* ------------------------------------------------------------------ *)
(** ** [Discovery#holepunch] *)

(** The values handed to [process.nextTick]. *)
Inductive jsval := JCallback (cb : nat) | JError (msg : string).

(** What a call does synchronously: throw, defer a callback with
    [process.nextTick], or call the DHT's [holepunch]. *)
Inductive hp_effect :=
| HThrow (code : string)
| HNextTick (fn : nat) (args : list jsval)
| HDhtHolepunch (p : peer) (referrer : bytes) (cb : nat).

(** [process.nextTick(fn, ...args)] checks that [fn] is a function
    ([validateFunction]) and throws [ERR_INVALID_ARG_TYPE] otherwise. *)
Definition process_nextTick (fn : jsval) (args : list jsval) : hp_effect :=
  match fn with
  | JCallback f => HNextTick f args
  | JError _ => HThrow "ERR_INVALID_ARG_TYPE"%string
  end.

Definition referrer_error : string := "Referrer needed to holepunch".

(** [Discovery#holepunch(peer, cb)]: a [null] referrer is falsy, a Buffer is
    truthy. *)
Definition holepunch (p : peer) (cb : nat) : hp_effect :=
  match pr_referrer p with
  | None => process_nextTick (JError referrer_error) []
  | Some r => HDhtHolepunch p r cb
  end.

(* ------------------------------------------------------------------ *)
(** ** [Discovery#ping] *)

Record ping_entry := mkPingEntry { pe_bootstrap : string; pe_rtt : Z; pe_pong : bytes }.

Inductive ping_result := PingErr (msg : string) | PingOk (l : list ping_entry).

(** The variables shared by the reply handlers: [missing], [res], [start]. *)
Record ping_state := mkPingState { ps_missing : Z; ps_res : list ping_entry; ps_start : Z }.

(** The synchronous part of [ping(cb)] at time [now]: the bootstrap nodes it
    sends [dht.ping] to, the result it defers to [cb] with
    [process.nextTick] (if any), and the shared state. *)
Definition ping_start (bootstrap : list string) (now : Z)
  : list string * option ping_result * ping_state :=
  let len := List.length bootstrap in
  match len with
  | O => ([], Some (PingErr "No bootstrap nodes available"%string), mkPingState 0 [] 0)
  | _ => (bootstrap, None, mkPingState (Z.of_nat len) [] now)
  end.

(** The reply handler [function (_, pong)] of the ping of bootstrap node [b],
    run at time [now]: the new state and the call of [cb] it makes, if any. *)
Definition ping_reply (st : ping_state) (b : string) (pong : option bytes) (now : Z)
  : ping_state * option ping_result :=
  let res := match pong with
             | Some p => ps_res st ++ [mkPingEntry b (now - ps_start st) p]
             | None => ps_res st
             end in
  let m := ps_missing st - 1 in
  (mkPingState m res (ps_start st),
   if Z.eqb m 0 then
     Some (match res with
           | [] => PingErr "All bootstrap nodes failed"%string
           | _ => PingOk res
           end)
   else None).

(** Replies arriving in the given order: (node, pong, arrival time). *)
Fixpoint ping_replies (st : ping_state) (rs : list (string * option bytes * Z))
  : ping_state * list ping_result :=
  match rs with
  | [] => (st, [])
  | (b, pong, now) :: rs' =>
      let '(st1, out) := ping_reply st b pong now in
      let '(st2, outs) := ping_replies st1 rs' in
      (st2, match out with Some r => r :: outs | None => outs end)
  end.

(** What the last reply hands to [cb]. *)
Definition ping_final (res : list ping_entry) : ping_result :=
  match res with
  | [] => PingErr "All bootstrap nodes failed"%string
  | _ => PingOk res
  end.

(** The entries the handlers push for the replies [rs], in arrival order. *)
Definition ping_entries (start : Z) (rs : list (string * option bytes * Z)) : list ping_entry :=
  flat_map (fun r => match r with
                     | (b, Some p, now) => [mkPingEntry b (now - start) p]
                     | _ => []
                     end) rs.

(* ------------------------------------------------------------------ *)
(** ** The retry delay of [Discovery#_notify]

    JavaScript numbers are IEEE-754 binary64 values: [spec_float] with 53
    bits of precision and maximal exponent 1024, with the rounding to
    nearest, ties to even, of [SFmul] and [SFadd]. *)

Definition js_mul : spec_float -> spec_float -> spec_float := SFmul 53 1024.
Definition js_add : spec_float -> spec_float -> spec_float := SFadd 53 1024.

(** An integer literal as a number. *)
Definition js_int (z : Z) : spec_float := binary_normalize 53 1024 z 0 false.

(** [Math.floor] of a finite number ([None] for NaN and the infinities). *)
Definition math_floor (x : spec_float) : option Z :=
  match x with
  | S754_zero _ => Some 0
  | S754_finite s m e =>
      let z := if s then Zneg m else Zpos m in
      Some (if Z.leb 0 e then z * 2 ^ e else z / 2 ^ (- e))
  | _ => None
  end.

(** A value [Math.random()] may return: a binary64 number in [[0, 1)]. *)
Definition random_draw (r : spec_float) : bool :=
  valid_binary 53 1024 r && SFleb (S754_zero false) r && SFltb r (SFone 53 1024).

(** The delay handed to [setTimeout] by [_notify(fn, eager)] when
    [Math.random()] returned [random]:
    [Math.floor(wait + Math.random() * wait)]. *)
Definition notify_delay (eager : bool) (random : spec_float) : option Z :=
  let wait := js_int (if eager then 30000 else 300000) in
  math_floor (js_add wait (js_mul random wait)).

(** What [shr] keeps of a mantissa [M] after shifting [k] bits out of
    it: the quotient, and whether the bits shifted out are all zero. *)
Definition shr_inv (M k : Z) (x : shr_record) : Prop :=
  0 <= shr_m x /\ exists rest, 0 <= rest < 2 ^ k /\ M = shr_m x * 2 ^ k + rest /\
    (rest = 0 <-> shr_r x = false /\ shr_s x = false).

(** A non-negative binary64 number with an exponent at most 0 whose value
    lies in [[L, U]]. *)
Definition float_between (L U : Z) (x : spec_float) : Prop :=
  match x with
  | S754_zero _ => L <= 0
  | S754_finite false m e => e <= 0 /\ L * 2 ^ (- e) <= Zpos m <= U * 2 ^ (- e)
  | _ => False
  end.

(* ------------------------------------------------------------------ *)
(** ** The event-level view of the world

    The safety properties of closes and callbacks depend on a small part of
    the world: the [destroyed] flags, domains, kinds and listener arrays of
    the Topics, the domain index, the pending tasks that emit events, and the
    observations about events, callbacks and destroys.  [rproj] projects the
    world onto that part; the [r_] functions below replay the operations of
    the module on it, and the lemmas [rproj_*] show they agree. *)

Record rtop := mkRTop {
  rt_destroyed : bool;
  rt_domain : string;
  rt_announce : bool;
  rt_listeners : list registration }.

Definition rtopic (t : topic) : rtop :=
  mkRTop (t_destroyed t) (t_domain t)
    (match t_announce t with Some _ => true | None => false end) (t_listeners t).

Definition rt_set_listeners (t : rtop) (l : list registration) : rtop :=
  mkRTop (rt_destroyed t) (rt_domain t) (rt_announce t) l.

(** Tasks that emit events when they run. *)
Definition is_rel_task (tk : task) : bool :=
  match tk with TTopicClose _ | TSessionDone => true | _ => false end.

(** Emitted events, callbacks and destroy marks. *)
Definition is_rel_obs (o : obs) : bool :=
  match o with OEmit _ _ | OCallback _ _ | ODestroy _ => true | _ => false end.

Record rview := mkRView {
  rv_destroyed : bool;
  rv_missing : Z;
  rv_topics : list rtop;
  rv_domains : list (string * list nat);
  rv_ticks : list task;
  rv_io : list task;
  rv_trace : list obs }.

Definition rproj (w : world) : rview :=
  mkRView (w_destroyed w) (w_missing w) (map rtopic (w_topics w)) (w_domains w)
    (filter is_rel_task (w_ticks w)) (filter is_rel_task (map snd (w_io w)))
    (filter is_rel_obs (w_trace w)).

Definition rv_set_destroyed (v : rview) (b : bool) : rview :=
  mkRView b (rv_missing v) (rv_topics v) (rv_domains v) (rv_ticks v) (rv_io v) (rv_trace v).
Definition rv_set_missing (v : rview) (m : Z) : rview :=
  mkRView (rv_destroyed v) m (rv_topics v) (rv_domains v) (rv_ticks v) (rv_io v) (rv_trace v).
Definition rv_set_topics (v : rview) (l : list rtop) : rview :=
  mkRView (rv_destroyed v) (rv_missing v) l (rv_domains v) (rv_ticks v) (rv_io v) (rv_trace v).
Definition rv_set_domains (v : rview) (d : list (string * list nat)) : rview :=
  mkRView (rv_destroyed v) (rv_missing v) (rv_topics v) d (rv_ticks v) (rv_io v) (rv_trace v).
Definition rv_set_ticks (v : rview) (q : list task) : rview :=
  mkRView (rv_destroyed v) (rv_missing v) (rv_topics v) (rv_domains v) q (rv_io v) (rv_trace v).
Definition rv_set_io (v : rview) (q : list task) : rview :=
  mkRView (rv_destroyed v) (rv_missing v) (rv_topics v) (rv_domains v) (rv_ticks v) q (rv_trace v).

Definition r_obs (o : obs) (v : rview) : rview :=
  mkRView (rv_destroyed v) (rv_missing v) (rv_topics v) (rv_domains v) (rv_ticks v)
    (rv_io v) (o :: rv_trace v).

Definition rt_at (v : rview) (n : nat) : option rtop := nth_error (rv_topics v) n.

Definition r_put (v : rview) (n : nat) (t : rtop) : rview :=
  rv_set_topics v (set_nth (rv_topics v) n t).

Definition reg_session_done : registration := mkReg EvClose LSessionDone false.
Definition reg_lookup_close (c : nat) : registration := mkReg EvClose (LLookupClose c) false.
Definition reg_lookup_peer (c : nat) : registration := mkReg EvPeer (LLookupPeer c) true.

Definition r_topic_destroy (v : rview) (n : nat) : rview :=
  match rt_at v n with
  | None => v
  | Some t =>
      if rt_destroyed t then v else
      let v := r_obs (ODestroy n)
                 (r_put v n (mkRTop true (rt_domain t) (rt_announce t) (rt_listeners t))) in
      let v := rv_set_domains v (dom_remove (rv_domains v) (rt_domain t) n) in
      if rt_announce t then rv_set_io v (rv_io v ++ [TTopicClose n])
      else rv_set_ticks v (rv_ticks v ++ [TTopicClose n])
  end.

Definition r_add_listener (v : rview) (n : nat) (r : registration) : rview :=
  match rt_at v n with
  | Some t => r_put v n (rt_set_listeners t (rt_listeners t ++ [r]))
  | None => v
  end.

Definition r_remove_listener (v : rview) (n : nat) (r : registration) : rview :=
  match rt_at v n with
  | Some t => r_put v n (rt_set_listeners t (rev (remove_first r (rev (rt_listeners t)))))
  | None => v
  end.

Definition r_session_done (v : rview) : rview :=
  let m := rv_missing v - 1 in
  let v := rv_set_missing v m in
  if Z.eqb m 0 then r_obs (OEmit None EClose) v else v.

Definition r_call (n : nat) (e : event) (v : rview) (r : registration) : rview :=
  let v := if rg_once r then r_remove_listener v n r else v in
  match rg_fn r with
  | LSessionDone => r_session_done v
  | LLookupClose c => r_obs (OCallback c (CErr "Lookup failed"%string)) v
  | LLookupPeer c =>
      match e with
      | EPeer p =>
          let v := r_remove_listener v n (mkReg EvClose (LLookupClose c) false) in
          let v := r_topic_destroy v n in
          r_obs (OCallback c (CPeer p)) v
      | _ => v
      end
  end.

Definition r_emit (v : rview) (n : nat) (e : event) : rview :=
  let v := r_obs (OEmit (Some n) e) v in
  match rt_at v n with
  | None => v
  | Some t =>
      fold_left (r_call n e)
        (filter (fun r => evname_eqb (rg_event r) (ev_name e)) (rt_listeners t)) v
  end.

Definition r_ondhtdata (v : rview) (n : nat) (d : dht_data) : rview :=
  match rt_at v n with
  | None => v
  | Some t =>
      if rt_destroyed t then v else
      let v := fold_left (fun v hp =>
                 r_emit v n (EPeer (mkPeer (fst hp) (snd hp) true None)))
                 (dd_localPeers d) v in
      fold_left (fun v hp =>
        r_emit v n (EPeer (mkPeer (fst hp) (snd hp) false (Some (dd_node d)))))
        (dd_peers d) v
  end.

Definition r_onmdnsresponse (v : rview) (res : packet) (address : string) : rview :=
  fold_left (fun v a =>
    match a with
    | ASRV name target port =>
        match dom_get (rv_domains v) name with
        | None => v
        | Some set =>
            let host := if String.eqb target "0.0.0.0"%string then address else target in
            fold_left (fun v n => r_emit v n (EPeer (mkPeer host port true None))) set v
        end
    | _ => v
    end) (p_answers res) v.

Definition members (d : list (string * list nat)) : list nat := List.concat (map snd d).

Definition r_session_destroy (v : rview) : rview :=
  if rv_destroyed v then v else
  let v0 := rv_set_missing (rv_set_destroyed v true) 1 in
  let v1 := fold_left (fun v n =>
              r_add_listener (r_topic_destroy (rv_set_missing v (rv_missing v + 1)) n) n
                reg_session_done)
              (members (rv_domains v0)) v0 in
  rv_set_ticks v1 (rv_ticks v1 ++ [TSessionDone]).

Definition r_new_topic (v : rview) (name : string) (ann : bool) : rview :=
  let n := List.length (rv_topics v) in
  rv_set_domains (rv_set_topics v (rv_topics v ++ [mkRTop false name ann []]))
    (dom_add (rv_domains v) name n).

Definition r_lookupOne (v : rview) (name : string) : rview :=
  let n := List.length (rv_topics v) in
  r_add_listener (r_add_listener (r_new_topic v name false) n (reg_lookup_close n)) n
    (reg_lookup_peer n).

Definition r_run (v : rview) (tk : task) : rview :=
  match tk with
  | TTopicClose n => r_emit v n EClose
  | TSessionDone => r_session_done v
  | _ => v
  end.

Definition rv_live (v : rview) (n : nat) : bool :=
  match rt_at v n with Some t => negb (rt_destroyed t) | None => false end.

(** The steps of the world, seen through [rproj]. *)
Inductive rstep : rview -> rview -> Prop :=
| rs_same v : rstep v v
| rs_new v name ann : rv_destroyed v = false -> rstep v (r_new_topic v name ann)
| rs_lookupOne v name : rv_destroyed v = false -> rstep v (r_lookupOne v name)
| rs_topic_destroy v n : rstep v (r_topic_destroy v n)
| rs_session_destroy v : rstep v (r_session_destroy v)
| rs_tick v tk rest : rv_ticks v = tk :: rest -> rstep v (r_run (rv_set_ticks v rest) tk)
| rs_io v l1 tk l2 : rv_io v = l1 ++ tk :: l2 -> rstep v (r_run (rv_set_io v (l1 ++ l2)) tk)
| rs_data v n d : rstep v (r_ondhtdata v n d)
| rs_update v n err : rv_live v n = true -> rstep v (r_emit v n (EUpdate err))
| rs_mdns v p addr : rv_destroyed v = false -> rstep v (r_onmdnsresponse v p addr).

Inductive rsteps : rview -> rview -> Prop :=
| rsteps_refl v : rsteps v v
| rsteps_cons v1 v2 v3 : rstep v1 v2 -> rsteps v2 v3 -> rsteps v1 v3.

(* ------------------------------------------------------------------ *)
(** ** Counting and the session invariant *)

Definition countb {A} (f : A -> bool) (l : list A) : nat := List.length (filter f l).

Definition rv_tasks (v : rview) : list task := rv_ticks v ++ rv_io v.

Definition rv_destroyed_at (v : rview) (n : nat) : bool :=
  match rt_at v n with Some t => rt_destroyed t | None => false end.

Definition is_close_task (n : nat) (tk : task) : bool :=
  match tk with TTopicClose m => Nat.eqb m n | _ => false end.
Definition is_session_task (tk : task) : bool :=
  match tk with TSessionDone => true | _ => false end.

Definition is_topic_close (n : nat) (o : obs) : bool :=
  match o with OEmit (Some m) EClose => Nat.eqb m n | _ => false end.
Definition is_session_close (o : obs) : bool :=
  match o with OEmit None EClose => true | _ => false end.
Definition is_callback (c : nat) (o : obs) : bool :=
  match o with OCallback m _ => Nat.eqb m c | _ => false end.
Definition is_peer_emit (n : nat) (o : obs) : bool :=
  match o with OEmit (Some m) (EPeer _) => Nat.eqb m n | _ => false end.

(** The Topic an observation is about. *)
Definition obs_handle (o : obs) : option nat :=
  match o with OEmit (Some n) _ | OCallback n _ | ODestroy n => Some n | _ => None end.

(** What holds of every reachable session: the index holds live Topics
    under their own domains, without empty Sets and without repetitions; a
    Topic has one close pending or emitted exactly when it is destroyed; the
    listeners are the ones [lookupOne] and [destroy] install; before the
    session is destroyed nothing of its own close is under way. *)
Record wf (v : rview) : Prop := {
  wf_nonempty : forall k s, In (k, s) (rv_domains v) -> s <> [];
  wf_keys : NoDup (map fst (rv_domains v));
  wf_members : forall k s n, In (k, s) (rv_domains v) -> In n s ->
    exists a ls, rt_at v n = Some (mkRTop false k a ls);
  wf_nodup : NoDup (members (rv_domains v));
  wf_close : forall n, (countb (is_close_task n) (rv_tasks v)
                        + countb (is_topic_close n) (rv_trace v))%nat
                       = if rv_destroyed_at v n then 1%nat else 0%nat;
  wf_regs : forall n t r, rt_at v n = Some t -> In r (rt_listeners t) ->
    r = reg_session_done \/ r = reg_lookup_close n \/ r = reg_lookup_peer n;
  wf_pre : rv_destroyed v = false ->
    (forall n t, rt_at v n = Some t -> ~ In reg_session_done (rt_listeners t)) /\
    countb is_session_task (rv_tasks v) = 0%nat /\
    countb is_session_close (rv_trace v) = 0%nat;
  wf_handles : forall o n, In o (rv_trace v) -> obs_handle o = Some n ->
    (n < List.length (rv_topics v))%nat }.

(** The listeners a Topic [n] may carry. *)
Definition allowed_reg (n : nat) (r : registration) : Prop :=
  r = reg_session_done \/ r = reg_lookup_close n \/ r = reg_lookup_peer n.

(** [v'] has the same session flag and the same number of Topics as [v]. *)
Definition rv_frame (v v' : rview) : Prop :=
  rv_destroyed v' = rv_destroyed v /\ List.length (rv_topics v') = List.length (rv_topics v).

(* ------------------------------------------------------------------ *)
(** ** The phases of a [lookupOne] call *)

(** The listeners [Discovery#destroy] leaves on a Topic: [done] only. *)
Definition only_sd (L : list registration) : Prop := forall r, In r L -> r = reg_session_done.

(** The observations the caller of the [lookupOne] call of Topic [c] cares
    about: its callback, and the [peer] and [close] events of [c]. *)
Definition is_c_obs (c : nat) (o : obs) : bool :=
  is_callback c o || is_peer_emit c o || is_topic_close c o.

Definition c_free (c : nat) (ext : list obs) : Prop := forall o, In o ext -> is_c_obs c o = false.

(** [v'] follows [v] without touching Topic [c] or observing its call. *)
Definition c_frame (c : nat) (v v' : rview) : Prop :=
  rt_at v' c = rt_at v c /\ exists ext, rv_trace v' = ext ++ rv_trace v /\ c_free c ext.

(** Waiting: [onclose] and [onpeer] are installed and nothing happened yet. *)
Definition lk_waiting (c : nat) (t : rtop) (tr : list obs) : Prop :=
  (exists L, rt_listeners t = reg_lookup_close c :: reg_lookup_peer c :: L /\ only_sd L) /\
  countb (is_callback c) tr = 0%nat /\ countb (is_peer_emit c) tr = 0%nat /\
  countb (is_topic_close c) tr = 0%nat.

(** Found: the first [peer] event [p] ran [onpeer], which destroyed the
    Topic and called [cb(null, p)]. *)
Definition lk_found (c : nat) (t : rtop) (tr : list obs) : Prop :=
  rt_destroyed t = true /\ only_sd (rt_listeners t) /\
  exists p post pre,
    tr = post ++ OCallback c (CPeer p) :: ODestroy c :: OEmit (Some c) (EPeer p) :: pre /\
    countb (is_callback c) post = 0%nat /\ countb (is_callback c) pre = 0%nat /\
    countb (is_peer_emit c) pre = 0%nat.

(** Failed: the Topic emitted [close] before any [peer] event, and
    [onclose] called [cb(new Error('Lookup failed'))]. *)
Definition lk_failed (c : nat) (t : rtop) (tr : list obs) : Prop :=
  rt_destroyed t = true /\
  (exists L, rt_listeners t = reg_lookup_close c :: reg_lookup_peer c :: L /\ only_sd L) /\
  exists post pre,
    tr = post ++ OCallback c (CErr "Lookup failed"%string) :: OEmit (Some c) EClose :: pre /\
    countb (is_callback c) (post ++ pre) = 0%nat /\ countb (is_peer_emit c) (post ++ pre) = 0%nat.

Definition lk (c : nat) (v : rview) : Prop :=
  exists t, rt_at v c = Some t /\
    (lk_waiting c t (rv_trace v) \/ lk_found c t (rv_trace v) \/ lk_failed c t (rv_trace v)).

Definition lk_fd (c : nat) (v : rview) : Prop :=
  exists t, rt_at v c = Some t /\ lk_found c t (rv_trace v).

(** A [peer] event of Topic [c] may come: [c] is live, or already found. *)
Definition lk_ready (c : nat) (v : rview) : Prop := rv_live v c = true \/ lk_fd c v.

(* ------------------------------------------------------------------ *)
(** ** The state of a session after [Discovery#destroy] *)

(** A registration of [done]. *)
Definition is_sd (r : registration) : bool := registration_eqb r reg_session_done.

(** How many times Topic [n] carries [done]. *)
Definition sdc (v : rview) (n : nat) : nat :=
  match rt_at v n with Some t => countb is_sd (rt_listeners t) | None => 0%nat end.

Definition in_ms (ms : list nat) (n : nat) : bool := existsb (Nat.eqb n) ms.

(** The tasks that will call [done]: the session's own tick, and the
    'close' of a Topic [destroy] registered [done] on. *)
Definition is_pending (ms : list nat) (tk : task) : bool :=
  match tk with TSessionDone => true | TTopicClose m => in_ms ms m | _ => false end.

(** Observations that are neither the session's 'close' nor the 'close' of
    a Topic of [ms]. *)
Definition s_free (ms : list nat) (ext : list obs) : Prop :=
  forall o, In o ext -> is_session_close o = false /\
    forall m, In m ms -> is_topic_close m o = false.

(** Every live Topic is in the domain index: [_topic] adds each new Topic to
    it, and only [Topic#destroy] takes one out. *)
Definition live_indexed (v : rview) : Prop :=
  forall n, rv_live v n = true -> In n (members (rv_domains v)).

(** [v'] follows [v] without creating a Topic: a Topic live in [v'] was live
    in [v], and stays in the index if it was there. *)
Definition l_frame (v v' : rview) : Prop :=
  forall n, rv_live v' n = true -> rv_live v n = true /\
    (In n (members (rv_domains v)) -> In n (members (rv_domains v'))).

(** [v'] follows [v] without calling [done] and without touching what the
    count of [destroy] depends on. *)
Definition s_frame (ms : list nat) (v v' : rview) : Prop :=
  rv_destroyed v' = rv_destroyed v /\ rv_missing v' = rv_missing v /\
  (forall n, rv_destroyed_at v n = true -> rv_destroyed_at v' n = true) /\
  (forall n, sdc v' n = sdc v n) /\
  (exists add, Permutation (rv_tasks v') (add ++ rv_tasks v) /\
     forall tk, In tk add -> is_pending ms tk = false) /\
  (exists ext, rv_trace v' = ext ++ rv_trace v /\ s_free ms ext).

(** After [destroy] with the Topics [ms] in the index: [missing] counts the
    pending [done] calls (plus [k] under way); the session has emitted
    'close' exactly when [missing] is 0, and every Topic of [ms] emitted its
    'close' before. *)
Record sinv (ms : list nat) (k : nat) (v : rview) : Prop := {
  si_destroyed : rv_destroyed v = true;
  si_ms : forall m, In m ms -> rv_destroyed_at v m = true;
  si_sd : forall n, sdc v n = if in_ms ms n then 1%nat else 0%nat;
  si_wfc : forall m, In m ms ->
    (countb (is_close_task m) (rv_tasks v) + countb (is_topic_close m) (rv_trace v))%nat = 1%nat;
  si_missing : rv_missing v = Z.of_nat (countb (is_pending ms) (rv_tasks v) + k);
  si_close : countb is_session_close (rv_trace v) = if Z.eqb (rv_missing v) 0 then 1%nat else 0%nat;
  si_order : forall post pre, rv_trace v = post ++ OEmit None EClose :: pre ->
    forall m, In m ms -> In (OEmit (Some m) EClose) pre }.

(** Inside the loop of [destroy], after the Topics [ds] of [ms = ds ++ rs]. *)
Definition sd_loop (v : rview) (ms ds rs : list nat) (u : rview) : Prop :=
  rv_destroyed u = true /\
  rv_missing u = Z.of_nat (1 + List.length ds) /\
  (forall m, In m ds -> rv_destroyed_at u m = true) /\
  (forall m, In m rs -> rt_at u m = rt_at v m) /\
  (forall n, sdc u n = if in_ms ds n then 1%nat else 0%nat) /\
  countb (is_pending ms) (rv_tasks u) = List.length ds /\
  (forall m, In m ms -> (countb (is_close_task m) (rv_tasks u)
                         + countb (is_topic_close m) (rv_trace u))%nat
                        = if in_ms ds m then 1%nat else 0%nat) /\
  countb is_session_close (rv_trace u) = 0%nat.

(* ------------------------------------------------------------------ *)
(** ** Concrete inputs of the examples below *)

Definition key20 : bytes := repeat Byte.xaa 20.
Definition rid_a : bytes := [Byte.x01].
Definition rid_b : bytes := [Byte.x02].
Definition dom20 : string := _domain (make_tld None) key20.

(** A session with two Topics on [key20]: one announcing port 4000, one
    announcing with neither [port] nor [localPort]. *)
Definition w_two_announce : world :=
  let w := fst (announce (init_world None) key20 (mkAnnounceOpts (Some 4000) None None false) rid_a) in
  fst (announce w key20 (mkAnnounceOpts None None None false) rid_b).

(** A session right after [lookupOne(key20, cb)]: Topic 0 with its DHT
    lookup stream 0. *)
Definition w_lookupOne : world := lookupOne (init_world None) key20 rid_a.

(** A [data] chunk of stream 0 with two local peers. *)
Definition peer_1 : peer := mkPeer "10.0.0.1"%string 4001 true None.
Definition peer_2 : peer := mkPeer "10.0.0.2"%string 4002 true None.
Definition two_peers : dht_data :=
  mkDhtData [Byte.x05] [("10.0.0.1"%string, 4001); ("10.0.0.2"%string, 4002)] [].

(** The session after stream 0 delivered [two_peers]. *)
Definition w_lookupOne_found : world := _ondhtdata (lookupOne (init_world None) key20 rid_a) 0 two_peers.

(** A session with Topic 0 announcing [key20] on port 4000. *)
Definition w_c1_ann : world :=
  fst (announce (init_world None) key20 (mkAnnounceOpts (Some 4000) None None false) rid_a).

(** Topic 0 destroyed: its 'close' waits for the DHT [unannounce] callback. *)
Definition w_c1_gone : world := topic_destroy w_c1_ann 0.

(** Then [destroy()] of the session, and its [process.nextTick(done)]. *)
Definition w_c1_closing : world := session_destroy w_c1_gone.
Definition w_c1_closed : world := run_task (w_set_ticks w_c1_closing []) TSessionDone.

(** [destroy()] with Topic 0 live, and its [process.nextTick(done)]. *)
Definition w_c1_live_tick : world :=
  run_task (w_set_ticks (session_destroy w_c1_ann) []) TSessionDone.

(** The largest binary64 number below 1, [1 - 2^-53]. *)
Definition r_top : spec_float := S754_finite false 9007199254740991 (-53).

(** A candidate found on the local network: it carries no referrer. *)
Definition local_peer : peer := mkPeer "192.168.1.7"%string 4000 true None.

(** Three bootstrap nodes, of which the second does not answer. *)
Definition three_nodes : list string :=
  ["bootstrap1.hyperdht.org"; "bootstrap2.hyperdht.org"; "bootstrap3.hyperdht.org"]%string.
Definition three_replies : list (string * option bytes * Z) :=
  [("bootstrap3.hyperdht.org"%string, Some [Byte.x01], 1040);
   ("bootstrap2.hyperdht.org"%string, None, 1100);
   ("bootstrap1.hyperdht.org"%string, Some [Byte.x02], 1200)].

(** A query for [dom20] from a Topic of another process. *)
Definition foreign_query : packet :=
  mkPacket [mkQuestion "SRV"%string dom20] [ATXT dom20 [[Byte.x03]]].

(* ------------------------------------------------------------------ *)
(** ** Predicates of the further properties *)

(** A TXT answer for [name] that carries at least one string: the answer
    [_getId] takes its id from. *)
Definition txt_with_data (name : string) (a : answer) : bool :=
  match a with ATXT n (_ :: _) => String.eqb n name | _ => false end.

(** A 'peer' event of a Topic. *)
Definition is_peer_obs (o : obs) : bool :=
  match o with OEmit _ (EPeer _) => true | _ => false end.

(** [w'] extends the trace of [w] by events none of which is a 'peer'. *)
Definition np_ext (w w' : world) : Prop :=
  exists ext, w_trace w' = ext ++ w_trace w /\ forall o, In o ext -> is_peer_obs o = false.

(** [w'] has the streams of [w], and every Topic of [w] keeps its stream. *)
Definition sf (w w' : world) : Prop :=
  w_streams w' = w_streams w /\
  forall m t, get_topic w m = Some t -> exists t', get_topic w' m = Some t' /\ t_stream t' = t_stream t.

(* ================================================================== *)
(** * Properties *)

(* ------------------------------------------------------------------ *)
(** ** List and record helpers *)

Lemma nth_error_set_nth {A} (l : list A) n m x :
  nth_error (set_nth l n x) m =
  if Nat.eqb n m then (if Nat.ltb n (List.length l) then Some x else None)
  else nth_error l m.
Proof.
  revert n m; induction l as [|y l IH]; intros n m.
  - simpl. destruct (Nat.eqb n m), m; reflexivity.
  - destruct n as [|n], m as [|m]; simpl; try reflexivity.
    rewrite IH. reflexivity.
Qed.

Lemma length_set_nth {A} (l : list A) n x : List.length (set_nth l n x) = List.length l.
Proof. revert n; induction l; intros [|n]; simpl; auto. Qed.

Lemma nth_error_app_last {A} (l : list A) x :
  nth_error (l ++ [x]) (List.length l) = Some x.
Proof. induction l; simpl; auto. Qed.

Example to_hex_example : to_hex [Byte.x01; Byte.xab; Byte.x7f] = "01ab7f"%string.
Proof. reflexivity. Qed.

Lemma to_hex_length (b : bytes) : String.length (to_hex b) = (2 * List.length b)%nat.
Proof. induction b; simpl; [reflexivity|]. rewrite IHb. lia. Qed.

(* ------------------------------------------------------------------ *)
(** ** Domains *)

(** C2: the domain of a key is the hex encoding of its first 20 bytes,
    followed by ['.'] and the suffix configured for the session
    ([opts.domain], by default ["hyperswarm.local"]); two keys that agree on
    their first 20 bytes get the same domain. *)
Theorem C2_domain_first_20_bytes (dom : option string) (k1 k2 : bytes) :
  _domain (make_tld dom) k1
    = String.append (to_hex (firstn 20 k1))
        (String.append "."%string (configured_domain dom)) /\
  (firstn 20 k1 = firstn 20 k2 -> _domain (make_tld dom) k1 = _domain (make_tld dom) k2).
Proof.
  split.
  - reflexivity.
  - intros H. unfold _domain. rewrite H. reflexivity.
Qed.

Lemma C2_domain_first_20_bytes_witness :
  firstn 20 (key20 ++ [Byte.x01]) = firstn 20 (key20 ++ [Byte.x02; Byte.x03]) /\
  _domain (make_tld (Some "test.local"%string)) (key20 ++ [Byte.x01])
    = String.append (to_hex key20) ".test.local"%string /\
  _domain (make_tld (Some "test.local"%string)) (key20 ++ [Byte.x01])
    = _domain (make_tld (Some "test.local"%string)) (key20 ++ [Byte.x02; Byte.x03]).
Proof.
  split; [reflexivity|]. split; [reflexivity|].
  apply (proj2 (C2_domain_first_20_bytes (Some "test.local"%string)
                  (key20 ++ [Byte.x01]) (key20 ++ [Byte.x02; Byte.x03]))).
  reflexivity.
Defined.

(* ------------------------------------------------------------------ *)
(** ** Fields of a Topic that the loops leave alone *)

Lemma map_set_nth {A B} (f : A -> B) (l : list A) n x :
  map f (set_nth l n x) = set_nth (map f l) n (f x).
Proof. revert n; induction l; intros [|n]; simpl; f_equal; auto. Qed.

Lemma set_nth_nth_error {A} (l : list A) n x : nth_error l n = Some x -> set_nth l n x = l.
Proof.
  revert n; induction l; intros [|n] H; simpl in *; try discriminate.
  - injection H as ->. reflexivity.
  - f_equal. auto.
Qed.

Lemma put_topic_tproj w n t t' :
  get_topic w n = Some t -> tproj t' = tproj t ->
  map tproj (w_topics (put_topic w n t')) = map tproj (w_topics w).
Proof.
  unfold get_topic, put_topic. intros H1 H2. simpl.
  rewrite map_set_nth, H2. apply set_nth_nth_error.
  rewrite nth_error_map, H1. reflexivity.
Qed.

Lemma dht_loop_tproj w n : map tproj (w_topics (dht_loop w n)) = map tproj (w_topics w).
Proof.
  unfold dht_loop. destruct (get_topic w n) as [t|] eqn:E; [|reflexivity].
  erewrite put_topic_tproj with (t := t); [reflexivity|exact E|reflexivity].
Qed.

Lemma mdns_loop_tproj w n : map tproj (w_topics (mdns_loop w n)) = map tproj (w_topics w).
Proof.
  unfold mdns_loop. destruct (get_topic w n) as [t|] eqn:E; [|reflexivity].
  unfold notify. cbv beta iota zeta.
  erewrite put_topic_tproj with (t := t); [reflexivity|exact E|reflexivity].
Qed.

Lemma get_topic_tproj w w' n t :
  map tproj (w_topics w') = map tproj (w_topics w) -> get_topic w n = Some t ->
  exists t', get_topic w' n = Some t' /\ tproj t' = tproj t.
Proof.
  unfold get_topic. intros H E.
  assert (E' : nth_error (map tproj (w_topics w')) n = Some (tproj t))
    by (rewrite H, nth_error_map, E; reflexivity).
  rewrite nth_error_map in E'.
  destruct (nth_error (w_topics w') n) as [t'|]; [|discriminate].
  simpl in E'. exists t'. split; [reflexivity|congruence].
Qed.

(** The Topic [_topic] creates sits at the next handle, with the fields its
    constructor gave it. *)
Lemma _topic_new w key o rid :
  let n := List.length (w_topics w) in
  let name := _domain (w_tld w) key in
  exists t, snd (_topic w key o rid) = n /\ get_topic (fst (_topic w key o rid)) n = Some t /\
    tproj t = tproj (mkTopic key (to_announce o) false (id_prefix ++ rid) None None None
                       name (topic_answer name o) []).
Proof.
  intros n name. unfold _topic; simpl.
  set (t0 := mkTopic key (to_announce o) false (id_prefix ++ rid) None None None
               name (topic_answer name o) []).
  set (w1 := w_set_topics w (w_topics w ++ [t0])).
  assert (E1 : get_topic w1 n = Some t0) by apply nth_error_app_last.
  assert (H2 : map tproj (w_topics (dht_loop w1 n)) = map tproj (w_topics w1))
    by apply dht_loop_tproj.
  assert (H3 : map tproj (w_topics (if negb match to_announce o with Some _ => true | None => false end
                                  || to_lookup o then mdns_loop (dht_loop w1 n) n else dht_loop w1 n))
               = map tproj (w_topics w1)).
  { destruct (_ || _); [rewrite mdns_loop_tproj|]; exact H2. }
  destruct (get_topic_tproj _ _ _ _ H3 E1) as [t [Ht Hp]].
  exists t. split; [reflexivity|]. split; [exact Ht|exact Hp].
Qed.

Lemma tproj_answer t t' : tproj t' = tproj t -> t_answer t' = t_answer t.
Proof. unfold tproj. intros H. congruence. Qed.

Lemma tproj_domain t t' : tproj t' = tproj t -> t_domain t' = t_domain t.
Proof. unfold tproj. intros H. congruence. Qed.

Lemma tproj_announce t t' : tproj t' = tproj t -> t_announce t' = t_announce t.
Proof. unfold tproj. intros H. congruence. Qed.

(* ------------------------------------------------------------------ *)
(** ** Announce options *)

Lemma announce_topic_answer name (o : announce_opts) :
  (truthy_num (ao_localPort o) = false -> truthy_num (ao_port o) = true ->
     topic_answer name (announce_topic_opts o)
     = Some (ASRV name "0.0.0.0"%string (num_or_zero (ao_port o)))) /\
  (topic_answer name (announce_topic_opts o) = None <->
     truthy_num (ao_localPort o) = false /\ truthy_num (ao_port o) = false).
Proof.
  unfold topic_answer, announce_topic_opts, num_or_zero, truthy_num, js_or; simpl.
  destruct (ao_localPort o) as [lp|]; [destruct (Z.eqb_spec lp 0)|];
    (destruct (ao_port o) as [p|]; [destruct (Z.eqb_spec p 0)|]); subst; cbn;
    repeat match goal with H : ?x <> 0 |- _ => rewrite (proj2 (Z.eqb_neq x 0) H) end; cbn;
    repeat split; intros; try reflexivity; intuition discriminate.
Qed.

(** C10: when [opts.localPort] is absent or zero and [opts.port] is not, the
    Topic [announce] creates has the local port [opts.port] and publishes an
    SRV answer carrying it; the Topic has no SRV answer exactly when both are
    absent or zero. *)
Theorem C10_announce_local_port (w : world) (key rid : bytes) (o : announce_opts) :
  w_destroyed w = false ->
  exists w' n t,
    announce w key o rid = (w', Some n) /\ get_topic w' n = Some t /\
    t_announce t = Some (mkAnnounce (num_or_zero (ao_port o)) (ao_localAddress o)) /\
    (truthy_num (ao_localPort o) = false -> truthy_num (ao_port o) = true ->
       t_answer t = Some (ASRV (t_domain t) "0.0.0.0"%string (num_or_zero (ao_port o)))) /\
    (t_answer t = None <->
       truthy_num (ao_localPort o) = false /\ truthy_num (ao_port o) = false).
Proof.
  intros Hd. unfold announce. rewrite Hd.
  destruct (_topic_new w key (announce_topic_opts o) rid) as [t [Hn [Ht Hp]]].
  destruct (_topic w key (announce_topic_opts o) rid) as [w' n] eqn:E. simpl in Hn, Ht.
  subst n. exists w', (List.length (w_topics w)), t.
  split; [reflexivity|]. split; [exact Ht|].
  rewrite (tproj_announce _ _ Hp), (tproj_answer _ _ Hp), (tproj_domain _ _ Hp). simpl.
  split; [reflexivity|].
  apply announce_topic_answer.
Qed.

Lemma C10_announce_local_port_witness :
  w_destroyed (init_world None) = false /\
  exists w' n t,
    announce (init_world None) key20 (mkAnnounceOpts (Some 4000) None None false) [] = (w', Some n) /\
    get_topic w' n = Some t /\
    t_answer t = Some (ASRV (t_domain t) "0.0.0.0"%string 4000).
Proof.
  split; [reflexivity|].
  destruct (C10_announce_local_port (init_world None) key20 []
              (mkAnnounceOpts (Some 4000) None None false) eq_refl)
    as [w' [n [t [H1 [H2 [_ [H4 _]]]]]]].
  exists w', n, t. split; [exact H1|]. split; [exact H2|].
  apply H4; reflexivity.
Defined.

(* ------------------------------------------------------------------ *)
(** ** Answering multicast queries *)

Lemma _getId_topic_query t : _getId (p_answers (topic_query t)) (t_domain t) = Some (t_id t).
Proof. simpl. rewrite String.eqb_refl. reflexivity. Qed.

(** C3 (as the code has it): every query gets exactly one response packet;
    its answers are the answer records of the Topics registered under an SRV
    domain the query asks for that have an answer record (a non-zero local
    port), except the Topics whose id is the one the query carries for that
    domain; in particular the response to a Topic's own query holds no answer
    of a Topic with that Topic's id. *)
Theorem C3_onmdnsquery_answers (w : world) (res : packet) :
  w_trace (_onmdnsquery w res) = OMdnsResponse (query_response w res) :: w_trace w /\
  (forall a, In a (p_answers (query_response w res)) <->
     exists q set n t,
       In q (p_questions res) /\ q_type q = "SRV"%string /\
       dom_get (w_domains w) (q_name q) = Some set /\ In n set /\
       get_topic w n = Some t /\ t_answer t = Some a /\
       (forall i, _getId (p_answers res) (q_name q) = Some i -> bytes_eqb (t_id t) i = false)) /\
  (forall t a, In a (p_answers (query_response w (topic_query t))) ->
     exists n' t', get_topic w n' = Some t' /\ t_answer t' = Some a /\
                   bytes_eqb (t_id t') (t_id t) = false).
Proof.
  assert (Hc : forall a, In a (p_answers (query_response w res)) <->
     exists q set n t,
       In q (p_questions res) /\ q_type q = "SRV"%string /\
       dom_get (w_domains w) (q_name q) = Some set /\ In n set /\
       get_topic w n = Some t /\ t_answer t = Some a /\
       (forall i, _getId (p_answers res) (q_name q) = Some i -> bytes_eqb (t_id t) i = false)).
  { intros a. unfold query_response; simpl. rewrite in_flat_map. split.
    - intros [q [Hq Ha]].
      destruct (String.eqb_spec (q_type q) "SRV"%string) as [Ht|Ht]; [|contradiction].
      destruct (dom_get (w_domains w) (q_name q)) as [set|] eqn:Hs; [|contradiction].
      unfold topic_answers_for in Ha. rewrite in_flat_map in Ha.
      destruct Ha as [n [Hn Ha]].
      destruct (get_topic w n) as [t|] eqn:Hg; [|contradiction].
      exists q, set, n, t. repeat split; auto.
      + destruct (_getId (p_answers res) (q_name q)) as [i|];
          [destruct (bytes_eqb (t_id t) i); [contradiction|]|];
          (destruct (t_answer t) as [a'|]; [|contradiction]);
          destruct Ha as [->|[]]; reflexivity.
      + intros i Hi. rewrite Hi in Ha.
        destruct (bytes_eqb (t_id t) i); [contradiction|reflexivity].
    - intros [q [set [n [t [Hq [Ht [Hs [Hn [Hg [Ha Hi]]]]]]]]]].
      exists q. split; [exact Hq|]. rewrite Ht, String.eqb_refl, Hs.
      unfold topic_answers_for. apply in_flat_map. exists n. split; [exact Hn|].
      rewrite Hg.
      destruct (_getId (p_answers res) (q_name q)) as [i|] eqn:E.
      + rewrite (Hi i eq_refl), Ha. left; reflexivity.
      + rewrite Ha. left; reflexivity. }
  split; [reflexivity|]. split; [exact Hc|].
  intros t a Ha.
  unfold query_response in Ha; simpl in Ha. rewrite ?String.eqb_refl, ?app_nil_r in Ha.
  destruct (dom_get (w_domains w) (t_domain t)) as [set|]; [|contradiction].
  unfold topic_answers_for in Ha. rewrite in_flat_map in Ha.
  destruct Ha as [n [_ Ha]].
  destruct (get_topic w n) as [t'|] eqn:Hg; [|contradiction].
  exists n, t'. split; [exact Hg|].
  destruct (bytes_eqb (t_id t') (t_id t)); [contradiction|].
  destruct (t_answer t') as [a'|]; [|contradiction].
  destruct Ha as [->|[]]. split; reflexivity.
Qed.

Lemma w_two_announce_reachable : reachable w_two_announce.
Proof.
  exists None. unfold w_two_announce.
  eapply steps_cons; [apply st_announce|].
  eapply steps_cons; [apply st_announce|]. apply steps_refl.
Qed.

Lemma C3_onmdnsquery_answers_witness :
  dom_get (w_domains w_two_announce) dom20 = Some [0%nat; 1%nat] /\
  In (ASRV dom20 "0.0.0.0"%string 4000) (p_answers (query_response w_two_announce foreign_query)) /\
  (forall t a, get_topic w_two_announce 0 = Some t ->
     In a (p_answers (query_response w_two_announce (topic_query t))) ->
     exists n' t', get_topic w_two_announce n' = Some t' /\ t_answer t' = Some a /\
                   bytes_eqb (t_id t') (t_id t) = false).
Proof.
  split; [vm_compute; reflexivity|]. split.
  - apply (proj1 (proj2 (C3_onmdnsquery_answers w_two_announce foreign_query))).
    exists (mkQuestion "SRV"%string dom20), [0%nat; 1%nat], 0%nat.
    eexists. split; [left; reflexivity|]. split; [reflexivity|].
    split; [vm_compute; reflexivity|]. split; [left; reflexivity|].
    split; [vm_compute; reflexivity|]. split; [vm_compute; reflexivity|].
    intros i Hi. vm_compute in Hi. injection Hi as <-. vm_compute. reflexivity.
  - intros t a _ Ha.
    exact (proj2 (proj2 (C3_onmdnsquery_answers w_two_announce foreign_query)) t a Ha).
Defined.

(** C3 as stated fails: the second Topic of [w_two_announce] has its
    announce descriptor set, is not the querier, and sits in the queried
    domain, yet it has no answer record and the response carries only the
    first Topic's record. *)
Lemma C3_announce_without_port_gives_no_answer :
  reachable w_two_announce /\
  dom_get (w_domains w_two_announce) dom20 = Some [0%nat; 1%nat] /\
  (exists t, get_topic w_two_announce 1 = Some t /\ t_announce t <> None /\
     _getId (p_answers foreign_query) dom20 <> Some (t_id t) /\ t_answer t = None) /\
  p_answers (query_response w_two_announce foreign_query) = [ASRV dom20 "0.0.0.0"%string 4000].
Proof.
  split; [exact w_two_announce_reachable|].
  split; [vm_compute; reflexivity|]. split.
  - eexists. split; [vm_compute; reflexivity|].
    split; [discriminate|]. split; [vm_compute; discriminate|]. reflexivity.
  - vm_compute. reflexivity.
Qed.

(* ------------------------------------------------------------------ *)
(** ** Hole punching *)

(** C5 (what the code does): without a referrer, [holepunch] hands the
    Error itself to [process.nextTick] as the function to run, which throws
    [ERR_INVALID_ARG_TYPE] at once: the callback is never called and the
    DHT's [holepunch] is not reached.  With a referrer it delegates. *)
Theorem C5_holepunch_without_referrer_throws (p : peer) (cb : nat) :
  (pr_referrer p = None -> holepunch p cb = HThrow "ERR_INVALID_ARG_TYPE"%string) /\
  (forall r, pr_referrer p = Some r -> holepunch p cb = HDhtHolepunch p r cb).
Proof.
  unfold holepunch. split.
  - intros ->. reflexivity.
  - intros r ->. reflexivity.
Qed.

Lemma C5_holepunch_without_referrer_throws_witness :
  pr_referrer local_peer = None /\
  holepunch local_peer 1 = HThrow "ERR_INVALID_ARG_TYPE"%string /\
  holepunch local_peer 1 <> process_nextTick (JCallback 1) [JError referrer_error].
Proof.
  split; [reflexivity|].
  split; [apply (proj1 (C5_holepunch_without_referrer_throws local_peer 1)); reflexivity|].
  rewrite (proj1 (C5_holepunch_without_referrer_throws local_peer 1) eq_refl). discriminate.
Defined.

(* ------------------------------------------------------------------ *)
(** ** Pinging the bootstrap nodes *)

Lemma ping_replies_pending st rs :
  Z.of_nat (List.length rs) < ps_missing st -> snd (ping_replies st rs) = [].
Proof.
  revert st; induction rs as [|[[b pong] now] rs IH]; intros st H; [reflexivity|].
  simpl in H |- *.
  destruct (ping_reply st b pong now) as [st1 out] eqn:E.
  destruct (ping_replies st1 rs) as [st2 outs] eqn:E2.
  unfold ping_reply in E. injection E as <- <-. rewrite E2.
  replace (Z.eqb (ps_missing st - 1) 0) with false by (symmetry; apply Z.eqb_neq; lia).
  specialize (IH (mkPingState (ps_missing st - 1)
                    (match pong with
                     | Some p => ps_res st ++ [mkPingEntry b (now - ps_start st) p]
                     | None => ps_res st end) (ps_start st))).
  rewrite E2 in IH. simpl. apply IH. simpl. lia.
Qed.

Lemma ping_replies_last st rs :
  rs <> [] -> ps_missing st = Z.of_nat (List.length rs) ->
  snd (ping_replies st rs) = [ping_final (ps_res st ++ ping_entries (ps_start st) rs)].
Proof.
  revert st; induction rs as [|[[b pong] now] rs IH]; intros st Hne H; [contradiction|].
  simpl in H |- *.
  destruct (ping_reply st b pong now) as [st1 out] eqn:E.
  destruct (ping_replies st1 rs) as [st2 outs] eqn:E2.
  unfold ping_reply in E. injection E as <- <-. rewrite E2.
  destruct rs as [|r rs'].
  - simpl in E2. injection E2 as <- <-. simpl in H.
    replace (Z.eqb (ps_missing st - 1) 0) with true by (symmetry; apply Z.eqb_eq; lia).
    destruct pong; simpl; unfold ping_final; rewrite ?app_nil_r; reflexivity.
  - replace (Z.eqb (ps_missing st - 1) 0) with false
      by (symmetry; apply Z.eqb_neq; simpl in H; lia).
    match type of E2 with ping_replies ?s1 _ = _ =>
      assert (IH' := IH s1 ltac:(discriminate) ltac:(simpl in H |- *; lia)) end.
    rewrite E2 in IH'. simpl in IH' |- *. rewrite IH'.
    destruct pong; simpl; rewrite <- ?app_assoc; reflexivity.
Qed.

(** C6: with no bootstrap node, [ping] sends nothing and fails (on the next
    tick); otherwise it pings every node, all measured from one start time,
    and its callback runs exactly once, after the last reply, with the list
    of the nodes that answered when there is one, and with an error only
    when none answered. *)
Theorem C6_ping (bootstrap : list string) (now : Z) (rs : list (string * option bytes * Z)) :
  (bootstrap = [] ->
     ping_start bootstrap now
     = ([], Some (PingErr "No bootstrap nodes available"%string), mkPingState 0 [] 0)) /\
  (bootstrap <> [] -> Permutation (map (fun r => fst (fst r)) rs) bootstrap ->
     let '(sent, early, st) := ping_start bootstrap now in
     sent = bootstrap /\ early = None /\ ps_start st = now /\
     snd (ping_replies st (removelast rs)) = [] /\
     snd (ping_replies st rs) = [ping_final (ping_entries now rs)] /\
     (forall l, ping_final (ping_entries now rs) = PingOk l -> l <> [])).
Proof.
  split.
  - intros ->. reflexivity.
  - intros Hne Hp.
    assert (Hl : List.length rs = List.length bootstrap)
      by (rewrite <- (Permutation_length Hp), length_map; reflexivity).
    assert (Hrs : rs <> []) by (intros ->; destruct bootstrap; [contradiction|discriminate]).
    unfold ping_start.
    destruct (List.length bootstrap) as [|k] eqn:Eb;
      [destruct bootstrap; [contradiction|discriminate]|].
    split; [reflexivity|]. split; [reflexivity|]. split; [reflexivity|].
    split; [|split].
    + apply ping_replies_pending. simpl.
      destruct (exists_last Hrs) as [rs' [r ->]].
      rewrite removelast_last. rewrite length_app in Hl. simpl in Hl. lia.
    + rewrite ping_replies_last; [reflexivity|exact Hrs|simpl; lia].
    + unfold ping_final. intros l. destruct (ping_entries now rs); [discriminate|].
      intros H; injection H as <-. discriminate.
Qed.

Lemma C6_ping_witness :
  snd (ping_replies (snd (ping_start three_nodes 1000)) three_replies)
  = [PingOk [mkPingEntry "bootstrap3.hyperdht.org"%string 40 [Byte.x01];
             mkPingEntry "bootstrap1.hyperdht.org"%string 200 [Byte.x02]]] /\
  ping_start [] 1000 = ([], Some (PingErr "No bootstrap nodes available"%string), mkPingState 0 [] 0).
Proof.
  split.
  - pose proof (proj2 (C6_ping three_nodes 1000 three_replies)) as H.
    assert (Hp : Permutation (map (fun r => fst (fst r)) three_replies) three_nodes).
    { exact (Permutation_rev (map (fun r => fst (fst r)) three_replies)). }
    specialize (H ltac:(unfold three_nodes; discriminate) Hp).
    change (ping_start three_nodes 1000) with (three_nodes, @None ping_result, mkPingState 3 [] 1000) in H |- *.
    hnf in H. destruct H as [_ [_ [_ [_ [H _]]]]].
    transitivity (snd (ping_replies (mkPingState 3 [] 1000) three_replies)); [reflexivity|].
    rewrite H. reflexivity.
  - apply (proj1 (C6_ping [] 1000 [])). reflexivity.
Defined.

(* ------------------------------------------------------------------ *)
(** ** The event-level view agrees with the world *)

Lemma rproj_trace_obs o w :
  rproj (trace_obs o w) = if is_rel_obs o then r_obs o (rproj w) else rproj w.
Proof. unfold rproj, trace_obs, r_obs; simpl. destruct (is_rel_obs o); reflexivity. Qed.

Lemma rproj_put_topic w n t : rproj (put_topic w n t) = r_put (rproj w) n (rtopic t).
Proof. unfold rproj, put_topic, r_put, rv_set_topics; simpl. rewrite map_set_nth. reflexivity. Qed.

Lemma rt_at_rproj w n : rt_at (rproj w) n = option_map rtopic (get_topic w n).
Proof. unfold rt_at, rproj, get_topic; simpl. apply nth_error_map. Qed.

Lemma r_put_same v n t : rt_at v n = Some t -> r_put v n t = v.
Proof.
  unfold r_put, rt_at, rv_set_topics. intros H.
  rewrite (set_nth_nth_error _ _ _ H). destruct v; reflexivity.
Qed.

Lemma rproj_put_same w n t t' :
  get_topic w n = Some t -> rtopic t' = rtopic t -> rproj (put_topic w n t') = rproj w.
Proof.
  intros E H. rewrite rproj_put_topic, H. apply r_put_same.
  rewrite rt_at_rproj, E. reflexivity.
Qed.

Lemma filter_rel_irrel (io : list (nat * task)) (g : nat * task -> bool) :
  (forall p, g p = false -> is_rel_task (snd p) = false) ->
  filter is_rel_task (map snd (filter g io)) = filter is_rel_task (map snd io).
Proof.
  intros Hg. induction io as [|p io IH]; [reflexivity|]. simpl.
  destruct (g p) eqn:E; simpl.
  - rewrite IH. reflexivity.
  - rewrite (Hg p E), IH. reflexivity.
Qed.

Lemma rproj_clear w h : rproj (w_set_io w (clear_timer (w_io w) h)) = rproj w.
Proof.
  unfold rproj; simpl. f_equal. destruct h as [i|]; [|reflexivity]. simpl.
  apply filter_rel_irrel. intros [j tk]; simpl.
  destruct tk; simpl; rewrite ?andb_false_r; simpl; congruence.
Qed.

Lemma rproj_notify w tk :
  rproj (fst (notify w tk))
  = if is_rel_task tk then rv_set_io (rproj w) (rv_io (rproj w) ++ [tk]) else rproj w.
Proof.
  unfold notify, rproj, rv_set_io; simpl. rewrite map_app, filter_app. simpl.
  destruct (is_rel_task tk); rewrite ?app_nil_r; reflexivity.
Qed.

Lemma rproj_append_tick w tk :
  rproj (w_set_ticks w (w_ticks w ++ [tk]))
  = if is_rel_task tk then rv_set_ticks (rproj w) (rv_ticks (rproj w) ++ [tk]) else rproj w.
Proof.
  unfold rproj, rv_set_ticks; simpl. rewrite filter_app. simpl.
  destruct (is_rel_task tk); rewrite ?app_nil_r; reflexivity.
Qed.

Lemma rproj_set_domains w d : rproj (w_set_domains w d) = rv_set_domains (rproj w) d.
Proof. reflexivity. Qed.

Lemma rproj_set_streams w s : rproj (w_set_streams w s) = rproj w.
Proof. reflexivity. Qed.

Lemma rproj_dht_loop w n : rproj (dht_loop w n) = rproj w.
Proof.
  unfold dht_loop. destruct (get_topic w n) as [t|] eqn:E; [|reflexivity].
  rewrite (rproj_put_same _ n t); [|exact E|reflexivity].
  rewrite rproj_set_streams, rproj_trace_obs. destruct (t_announce t); reflexivity.
Qed.

Lemma rproj_mdns_loop w n : rproj (mdns_loop w n) = rproj w.
Proof.
  unfold mdns_loop. destruct (get_topic w n) as [t|] eqn:E; [|reflexivity].
  change (rproj (put_topic (fst (notify (trace_obs (OMdnsQuery (topic_query t)) w) (TMdnsLoop n))) n
            (t_set_timeoutMdns t (Some (snd (notify (trace_obs (OMdnsQuery (topic_query t)) w) (TMdnsLoop n))))))
          = rproj w).
  rewrite (rproj_put_same _ n t); [|exact E|reflexivity].
  rewrite rproj_notify, rproj_trace_obs. reflexivity.
Qed.

Lemma rproj_topic_destroy w n : rproj (topic_destroy w n) = r_topic_destroy (rproj w) n.
Proof.
  unfold topic_destroy, r_topic_destroy. rewrite rt_at_rproj.
  destruct (get_topic w n) as [t|] eqn:E; [|reflexivity].
  cbn [option_map rtopic rt_destroyed rt_domain rt_announce rt_listeners].
  destruct (t_destroyed t); [reflexivity|]. cbv zeta.
  destruct (t_announce t) as [a|] eqn:Ea.
  - rewrite rproj_notify, rproj_trace_obs, rproj_set_domains.
    cbn [is_rel_task is_rel_obs]. rewrite rproj_clear.
    destruct (t_stream t) as [s|]; [rewrite rproj_trace_obs; cbn [is_rel_obs]|];
      rewrite rproj_clear, rproj_trace_obs, rproj_put_topic;
      unfold rtopic; cbn [t_announce t_set_timeoutDht t_set_destroyed]; rewrite Ea; reflexivity.
  - rewrite rproj_append_tick, rproj_set_domains.
    cbn [is_rel_task]. rewrite rproj_clear.
    destruct (t_stream t) as [s|]; [rewrite rproj_trace_obs; cbn [is_rel_obs]|];
      rewrite rproj_clear, rproj_trace_obs, rproj_put_topic;
      unfold rtopic; cbn [t_announce t_set_timeoutDht t_set_destroyed]; rewrite Ea; reflexivity.
Qed.

Lemma rproj_remove_listener w n r :
  rproj (remove_listener w n r) = r_remove_listener (rproj w) n r.
Proof.
  unfold remove_listener, r_remove_listener. rewrite rt_at_rproj.
  destruct (get_topic w n); [|reflexivity]. apply rproj_put_topic.
Qed.

Lemma rproj_add_listener w n r :
  rproj (add_listener w n r) = r_add_listener (rproj w) n r.
Proof.
  unfold add_listener, r_add_listener. rewrite rt_at_rproj.
  destruct (get_topic w n); [|reflexivity]. apply rproj_put_topic.
Qed.

Lemma rproj_session_done w : rproj (session_done w) = r_session_done (rproj w).
Proof.
  unfold session_done, r_session_done. destruct (Z.eqb _ 0); [|reflexivity].
  rewrite !rproj_trace_obs. reflexivity.
Qed.

Lemma rproj_call_listener n e w r :
  rproj (call_listener n e w r) = r_call n e (rproj w) r.
Proof.
  unfold call_listener, r_call.
  assert (H : rproj (if rg_once r then remove_listener w n r else w)
              = if rg_once r then r_remove_listener (rproj w) n r else rproj w)
    by (destruct (rg_once r); [apply rproj_remove_listener|reflexivity]).
  destruct (rg_fn r) as [|c|c].
  - rewrite rproj_session_done, H. reflexivity.
  - rewrite rproj_trace_obs, H. reflexivity.
  - destruct e; [|exact H|exact H].
    rewrite rproj_trace_obs, rproj_topic_destroy, rproj_remove_listener, H. reflexivity.
Qed.

Lemma rproj_fold_call n e l w :
  rproj (fold_left (call_listener n e) l w) = fold_left (r_call n e) l (rproj w).
Proof.
  revert w; induction l as [|r l IH]; intros w; [reflexivity|].
  simpl. rewrite IH, rproj_call_listener. reflexivity.
Qed.

Lemma rproj_emit_topic w n e : rproj (emit_topic w n e) = r_emit (rproj w) n e.
Proof.
  unfold emit_topic, r_emit.
  change (rt_at (r_obs (OEmit (Some n) e) (rproj w)) n) with (rt_at (rproj w) n).
  rewrite rt_at_rproj.
  change (get_topic (trace_obs (OEmit (Some n) e) w) n) with (get_topic w n).
  destruct (get_topic w n) as [t|]; simpl.
  - rewrite rproj_fold_call, rproj_trace_obs. reflexivity.
  - rewrite rproj_trace_obs. reflexivity.
Qed.

Lemma rproj_fold_emit {A} (f : A -> nat) (g : A -> event) l w :
  rproj (fold_left (fun w x => emit_topic w (f x) (g x)) l w)
  = fold_left (fun v x => r_emit v (f x) (g x)) l (rproj w).
Proof.
  revert w; induction l as [|x l IH]; intros w; [reflexivity|].
  simpl. rewrite IH, rproj_emit_topic. reflexivity.
Qed.

Lemma rproj_ondhtdata w n d : rproj (_ondhtdata w n d) = r_ondhtdata (rproj w) n d.
Proof.
  unfold _ondhtdata, r_ondhtdata. rewrite rt_at_rproj.
  destruct (get_topic w n) as [t|]; [|reflexivity]. simpl.
  destruct (t_destroyed t); [reflexivity|].
  rewrite (rproj_fold_emit (fun _ => n)
             (fun hp => EPeer (mkPeer (fst hp) (snd hp) false (Some (dd_node d))))).
  rewrite (rproj_fold_emit (fun _ => n) (fun hp => EPeer (mkPeer (fst hp) (snd hp) true None))).
  reflexivity.
Qed.

Lemma rproj_onmdnsresponse w res addr :
  rproj (_onmdnsresponse w res addr) = r_onmdnsresponse (rproj w) res addr.
Proof.
  unfold _onmdnsresponse, r_onmdnsresponse.
  generalize (p_answers res) as l. intros l. revert w.
  induction l as [|a l IH]; intros w; [reflexivity|]. simpl. rewrite IH. f_equal.
  destruct a as [name target port| |]; try reflexivity.
  change (dom_get (rv_domains (rproj w)) name) with (dom_get (w_domains w) name).
  destruct (dom_get (w_domains w) name) as [set|]; [|reflexivity].
  apply (rproj_fold_emit (fun n => n)).
Qed.

Lemma rproj_session_destroy w : rproj (session_destroy w) = r_session_destroy (rproj w).
Proof.
  unfold session_destroy, r_session_destroy.
  change (rv_destroyed (rproj w)) with (w_destroyed w).
  destruct (w_destroyed w); [reflexivity|].
  assert (Hf : forall l w', rproj (fold_left (fun w n =>
              add_listener (topic_destroy (w_set_missing w (w_missing w + 1)) n) n
                (mkReg EvClose LSessionDone false)) l w')
            = fold_left (fun v n =>
              r_add_listener (r_topic_destroy (rv_set_missing v (rv_missing v + 1)) n) n
                reg_session_done) l (rproj w')).
  { induction l as [|n l IH]; intros w'; [reflexivity|]. simpl.
    rewrite IH, rproj_add_listener, rproj_topic_destroy. reflexivity. }
  cbv zeta.
  set (w1 := fold_left _ _ _).
  rewrite rproj_append_tick. cbn [is_rel_task]. unfold w1. rewrite Hf.
  rewrite rproj_trace_obs. reflexivity.
Qed.

Lemma rproj_topic w key o rid :
  rproj (fst (_topic w key o rid))
  = r_new_topic (rproj w) (_domain (w_tld w) key)
      (match to_announce o with Some _ => true | None => false end).
Proof.
  unfold _topic, r_new_topic. cbv zeta. unfold fst at 1. rewrite rproj_set_domains.
  set (t := mkTopic _ _ _ _ _ _ _ _ _ _).
  set (w1 := w_set_topics w (w_topics w ++ [t])).
  assert (H : rproj (if negb match to_announce o with Some _ => true | None => false end
                       || to_lookup o
                     then mdns_loop (dht_loop w1 (List.length (w_topics w)))
                            (List.length (w_topics w))
                     else dht_loop w1 (List.length (w_topics w))) = rproj w1).
  { destruct (_ || _); rewrite ?rproj_mdns_loop, rproj_dht_loop; reflexivity. }
  assert (HX : forall X, X = w1 \/ (exists m, X = dht_loop w1 m)
                 \/ (exists m m', X = mdns_loop (dht_loop w1 m) m') ->
               w_domains X = w_domains w /\ w_tld X = w_tld w).
  { intros X [->|[[m ->]|[m [m' ->]]]]; [split; reflexivity| |].
    - unfold dht_loop. destruct (get_topic w1 m); split; reflexivity.
    - unfold mdns_loop, dht_loop. destruct (get_topic w1 m);
        destruct (get_topic _ m'); split; reflexivity. }
  destruct (HX (if negb match to_announce o with Some _ => true | None => false end
                       || to_lookup o
                then mdns_loop (dht_loop w1 (List.length (w_topics w)))
                       (List.length (w_topics w))
                else dht_loop w1 (List.length (w_topics w)))) as [HD HT].
  { destruct (_ || _); eauto. }
  rewrite H, HD, HT. unfold rproj, rv_set_domains, rv_set_topics, w1, w_set_topics.
  cbn [w_destroyed w_missing w_topics w_domains w_ticks w_io w_trace rv_topics rv_domains].
  rewrite map_app, length_map. reflexivity.
Qed.

Lemma rproj_lookupOne w key rid :
  w_destroyed w = false ->
  rproj (lookupOne w key rid) = r_lookupOne (rproj w) (_domain (w_tld w) key).
Proof.
  intros D. unfold lookupOne, lookup, r_lookupOne. rewrite D.
  destruct (_topic w key no_topic_opts rid) as [w1 n] eqn:E.
  assert (Hn : n = List.length (rv_topics (rproj w))).
  { pose proof (f_equal snd E) as E'. simpl in E'. unfold rproj; simpl.
    rewrite length_map. rewrite <- E'. reflexivity. }
  pose proof (rproj_topic w key no_topic_opts rid) as H. rewrite E in H. simpl in H.
  subst n. rewrite !rproj_add_listener, H. reflexivity.
Qed.

Lemma rproj_run_task w tk : rproj (run_task w tk) = r_run (rproj w) tk.
Proof.
  destruct tk; simpl.
  - apply rproj_emit_topic.
  - apply rproj_session_done.
  - apply rproj_dht_loop.
  - apply rproj_mdns_loop.
Qed.

Lemma rproj_topic_update w n : rproj (topic_update w n) = rproj w.
Proof.
  unfold topic_update. destruct (get_topic w n) as [t|] eqn:E; [|reflexivity].
  destruct (t_destroyed t); [reflexivity|].
  cbv zeta. rewrite rproj_mdns_loop, rproj_clear.
  destruct (t_timeoutDht t) as [h|]; [|reflexivity].
  rewrite rproj_dht_loop, (rproj_put_same _ n t); [apply (rproj_clear w (Some h))|exact E|reflexivity].
Qed.

Lemma rproj_dht_done w s err :
  rproj (dht_done w s err) = rproj w \/
  exists n, rv_live (rproj w) n = true /\
            rproj (dht_done w s err) = r_emit (rproj w) n (EUpdate err).
Proof.
  unfold dht_done. destruct (nth_error (w_streams w) s) as [st|]; [|left; reflexivity].
  destruct (get_topic w (s_topic st)) as [t|] eqn:E; [|left; reflexivity].
  destruct (s_called st || t_destroyed t) eqn:D; [left; reflexivity|].
  right. exists (s_topic st). split.
  - unfold rv_live. rewrite rt_at_rproj, E. simpl.
    apply orb_false_iff in D. rewrite (proj2 D). reflexivity.
  - cbv zeta.
    set (w3 := emit_topic _ _ _).
    assert (H3 : rproj w3 = r_emit (rproj w) (s_topic st) (EUpdate err)).
    { unfold w3. rewrite rproj_emit_topic, rproj_set_streams, (rproj_put_same _ _ t);
        [reflexivity|exact E|reflexivity]. }
    change (rproj (match get_topic (fst (notify w3 (TDhtLoop (s_topic st)))) (s_topic st) with
                   | Some t0 => put_topic (fst (notify w3 (TDhtLoop (s_topic st)))) (s_topic st)
                                  (t_set_timeoutDht t0 (Some (snd (notify w3 (TDhtLoop (s_topic st))))))
                   | None => fst (notify w3 (TDhtLoop (s_topic st)))
                   end) = r_emit (rproj w) (s_topic st) (EUpdate err)).
    destruct (get_topic (fst (notify w3 (TDhtLoop (s_topic st)))) (s_topic st)) as [t0|] eqn:E0.
    + rewrite (rproj_put_same _ _ t0); [|exact E0|reflexivity].
      rewrite rproj_notify. exact H3.
    + rewrite rproj_notify. exact H3.
Qed.

Lemma r_run_irrel v tk : is_rel_task tk = false -> r_run v tk = v.
Proof. destruct tk; simpl; congruence. Qed.

Lemma filter_remove_nth (io : list (nat * task)) i h tk :
  nth_error io i = Some (h, tk) ->
  (is_rel_task tk = true ->
   exists l1 l2, filter is_rel_task (map snd io) = l1 ++ tk :: l2 /\
                 filter is_rel_task (map snd (remove_nth io i)) = l1 ++ l2) /\
  (is_rel_task tk = false ->
   filter is_rel_task (map snd (remove_nth io i)) = filter is_rel_task (map snd io)).
Proof.
  revert i; induction io as [|[h' tk'] io IH]; intros [|i] H; simpl in H; try discriminate.
  - injection H as -> ->. simpl. split.
    + intros R. rewrite R. exists [], (filter is_rel_task (map snd io)). split; reflexivity.
    + intros R. rewrite R. reflexivity.
  - destruct (IH i H) as [H1 H2]. simpl. split.
    + intros R. destruct (H1 R) as [l1 [l2 [E1 E2]]].
      destruct (is_rel_task tk').
      * exists (tk' :: l1), l2. rewrite E1, E2. split; reflexivity.
      * exists l1, l2. split; assumption.
    + intros R. rewrite (H2 R). reflexivity.
Qed.

Lemma step_rstep w w' : step w w' -> rstep (rproj w) (rproj w').
Proof.
  intros Hs. destruct Hs as [w key rid|w key o rid|w key rid|w n|w n|w
                            |w tk rest Ht|w i h tk Ht Hi|w s st d Hst|w s|w s err
                            |w p Hd|w p addr Hd].
  - unfold lookup. destruct (w_destroyed w) eqn:D.
    + simpl. rewrite rproj_trace_obs. apply rs_same.
    + pose proof (rproj_topic w key no_topic_opts rid) as H.
      destruct (_topic w key no_topic_opts rid). simpl in *. rewrite H. apply rs_new. exact D.
  - unfold announce. destruct (w_destroyed w) eqn:D.
    + simpl. rewrite rproj_trace_obs. apply rs_same.
    + pose proof (rproj_topic w key (announce_topic_opts o) rid) as H.
      destruct (_topic w key (announce_topic_opts o) rid). simpl in *. rewrite H.
      apply rs_new. exact D.
  - destruct (w_destroyed w) eqn:D.
    + unfold lookupOne, lookup. rewrite D. simpl. rewrite rproj_trace_obs. apply rs_same.
    + rewrite rproj_lookupOne by exact D. apply rs_lookupOne. exact D.
  - rewrite rproj_topic_destroy. apply rs_topic_destroy.
  - rewrite rproj_topic_update. apply rs_same.
  - rewrite rproj_session_destroy. apply rs_session_destroy.
  - rewrite rproj_run_task.
    change (rproj (w_set_ticks w rest)) with (rv_set_ticks (rproj w) (filter is_rel_task rest)).
    destruct (is_rel_task tk) eqn:R.
    + apply rs_tick. unfold rproj; simpl. rewrite Ht. simpl. rewrite R. reflexivity.
    + rewrite r_run_irrel by exact R.
      replace (rv_set_ticks (rproj w) (filter is_rel_task rest)) with (rproj w); [apply rs_same|].
      unfold rproj, rv_set_ticks; simpl. rewrite Ht. simpl. rewrite R. reflexivity.
  - rewrite rproj_run_task. destruct (filter_remove_nth _ _ _ _ Hi) as [H1 H2].
    destruct (is_rel_task tk) eqn:R.
    + destruct (H1 eq_refl) as [l1 [l2 [E1 E2]]].
      replace (rproj (w_set_io w (remove_nth (w_io w) i))) with (rv_set_io (rproj w) (l1 ++ l2))
        by (unfold rproj, rv_set_io; simpl; rewrite E2; reflexivity).
      apply (rs_io _ l1 tk l2). exact E1.
    + rewrite r_run_irrel by exact R.
      replace (rproj (w_set_io w (remove_nth (w_io w) i))) with (rproj w); [apply rs_same|].
      unfold rproj; simpl. rewrite (H2 eq_refl). reflexivity.
  - rewrite rproj_ondhtdata. apply rs_data.
  - destruct (rproj_dht_done w s None) as [->|[n [L ->]]]; [apply rs_same|apply rs_update; exact L].
  - destruct (rproj_dht_done w s (Some err)) as [->|[n [L ->]]];
      [apply rs_same|apply rs_update; exact L].
  - unfold _onmdnsquery. rewrite rproj_trace_obs. apply rs_same.
  - rewrite rproj_onmdnsresponse. apply rs_mdns. exact Hd.
Qed.

Lemma steps_rsteps w w' : steps w w' -> rsteps (rproj w) (rproj w').
Proof.
  induction 1 as [w|w1 w2 w3 H _ IH]; [apply rsteps_refl|].
  apply rsteps_cons with (rproj w2); [apply step_rstep; exact H|exact IH].
Qed.

(* ------------------------------------------------------------------ *)
(** ** The domain index under insertion and removal *)

Lemma nodup_app_disj {A} (l1 l2 : list A) a : NoDup (l1 ++ l2) -> In a l1 -> ~ In a l2.
Proof.
  induction l1 as [|x l1 IH]; simpl; [tauto|]. intros H [->|Ha].
  - inversion H as [|? ? Hn _]. intros H2. apply Hn, in_or_app. right. exact H2.
  - inversion H. auto.
Qed.

Lemma dom_remove_nonempty d k n :
  (forall k' s, In (k', s) d -> s <> []) ->
  forall k' s', In (k', s') (dom_remove d k n) -> s' <> [].
Proof.
  induction d as [|[k0 s0] r IH]; simpl; [tauto|]. intros H k' s' Hin.
  destruct (String.eqb k k0).
  - destruct (filter _ s0) as [|x l] eqn:E.
    + eapply H. right. exact Hin.
    + destruct Hin as [Hin|Hin]; [injection Hin as <- <-; discriminate|].
      eapply H. right. exact Hin.
  - destruct Hin as [Hin|Hin]; [injection Hin as <- <-; eapply H; left; reflexivity|].
    eapply IH; [|exact Hin]. intros. eapply H. right. eassumption.
Qed.

Lemma dom_remove_keys_in d k n k' :
  In k' (map fst (dom_remove d k n)) -> In k' (map fst d).
Proof.
  induction d as [|[k0 s0] r IH]; simpl; [tauto|].
  destruct (String.eqb k k0).
  - destruct (filter _ s0); simpl; tauto.
  - simpl. intros [H|H]; [left; exact H|right; exact (IH H)].
Qed.

Lemma dom_remove_keys d k n : NoDup (map fst d) -> NoDup (map fst (dom_remove d k n)).
Proof.
  induction d as [|[k0 s0] r IH]; simpl; [tauto|]. intros H.
  inversion H as [|? ? Hn Hr]; subst.
  destruct (String.eqb k k0).
  - destruct (filter _ s0); simpl; [exact Hr|constructor; assumption].
  - simpl. constructor; [|exact (IH Hr)].
    intros Hin. apply Hn. exact (dom_remove_keys_in _ _ _ _ Hin).
Qed.

Lemma dom_remove_in d k n k' s' m :
  NoDup (map fst d) -> In (k', s') (dom_remove d k n) -> In m s' ->
  exists s, In (k', s) d /\ In m s /\ (k' = k -> m <> n).
Proof.
  induction d as [|[k0 s0] r IH]; simpl; [tauto|]. intros Hd Hin Hm.
  inversion Hd as [|? ? Hn Hr]; subst.
  destruct (String.eqb k k0) eqn:Ek.
  - apply String.eqb_eq in Ek. subst k0.
    assert (Hr' : In (k', s') r -> exists s, ((k, s0) = (k', s) \/ In (k', s) r) /\ In m s /\
                                       (k' = k -> m <> n)).
    { intros Hin'. exists s'. split; [right; exact Hin'|]. split; [exact Hm|].
      intros ->. exfalso. apply Hn. apply (in_map fst) in Hin'. exact Hin'. }
    destruct (filter _ s0) as [|x l] eqn:E; [exact (Hr' Hin)|].
    destruct Hin as [Hin|Hin]; [|exact (Hr' Hin)].
    injection Hin as <- <-. rewrite <- E in Hm. apply filter_In in Hm as [Hm Hne].
    exists s0. split; [left; reflexivity|]. split; [exact Hm|].
    intros _ ->. rewrite Nat.eqb_refl in Hne. discriminate.
  - destruct Hin as [Hin|Hin].
    + injection Hin as <- <-. exists s0. split; [left; reflexivity|]. split; [exact Hm|].
      intros ->. rewrite String.eqb_refl in Ek. discriminate.
    + destruct (IH Hr Hin Hm) as [s [H1 H2]]. exists s. split; [right; exact H1|exact H2].
Qed.

Lemma members_cons k s r : members ((k, s) :: r) = s ++ members r.
Proof. reflexivity. Qed.

Lemma dom_remove_members_in d k n m :
  In m (members (dom_remove d k n)) -> In m (members d).
Proof.
  induction d as [|[k0 s0] r IH]; [simpl; tauto|].
  cbn [dom_remove]. rewrite members_cons.
  destruct (String.eqb k k0).
  - destruct (filter _ s0) as [|x l] eqn:E; intros H; apply in_or_app; [right; exact H|].
    rewrite members_cons, <- E in H.
    apply in_app_or in H as [H|H]; [left; apply filter_In in H; apply H|].
    right; exact H.
  - rewrite members_cons. intros H.
    apply in_app_or in H as [H|H]; apply in_or_app; [left; exact H|right; exact (IH H)].
Qed.

Lemma dom_remove_members d k n : NoDup (members d) -> NoDup (members (dom_remove d k n)).
Proof.
  induction d as [|[k0 s0] r IH]; [simpl; tauto|].
  cbn [dom_remove]. rewrite members_cons. intros H.
  destruct (String.eqb k k0).
  - destruct (filter _ s0) as [|x l] eqn:E.
    + exact (NoDup_app_remove_l _ _ H).
    + rewrite members_cons, <- E. apply NoDup_app.
      * apply NoDup_filter. exact (NoDup_app_remove_r _ _ H).
      * exact (NoDup_app_remove_l _ _ H).
      * intros a Ha. apply filter_In in Ha. exact (nodup_app_disj _ _ _ H (proj1 Ha)).
  - rewrite members_cons. apply NoDup_app.
    + exact (NoDup_app_remove_r _ _ H).
    + exact (IH (NoDup_app_remove_l _ _ H)).
    + intros a Ha Hb. apply (nodup_app_disj _ _ _ H Ha).
      exact (dom_remove_members_in _ _ _ _ Hb).
Qed.

Lemma dom_add_in d k n k' s' m :
  In (k', s') (dom_add d k n) -> In m s' ->
  (m = n /\ k' = k) \/ exists s, In (k', s) d /\ In m s.
Proof.
  induction d as [|[k0 s0] r IH]; simpl.
  - intros [H|[]] Hm. injection H as <- <-. destruct Hm as [<-|[]]. left; split; reflexivity.
  - destruct (String.eqb k k0) eqn:Ek.
    + apply String.eqb_eq in Ek. subst k0. intros [H|H] Hm.
      * injection H as <- <-. unfold set_add in Hm.
        destruct (existsb _ s0); [right; exists s0; split; [left; reflexivity|exact Hm]|].
        apply in_app_or in Hm as [Hm|[<-|[]]]; [right; exists s0; split; [left; reflexivity|exact Hm]|].
        left; split; reflexivity.
      * right. exists s'. split; [right; exact H|exact Hm].
    + intros [H|H] Hm.
      * injection H as <- <-. right. exists s0. split; [left; reflexivity|exact Hm].
      * destruct (IH H Hm) as [Hx|[s [H1 H2]]]; [left; exact Hx|].
        right. exists s. split; [right; exact H1|exact H2].
Qed.

Lemma dom_add_nonempty d k n k' s' :
  In (k', s') (dom_add d k n) -> In (k', s') d \/ In n s'.
Proof.
  induction d as [|[k0 s0] r IH]; simpl.
  - intros [H|[]]. injection H as <- <-. right. left. reflexivity.
  - destruct (String.eqb k k0).
    + intros [H|H]; [|left; right; exact H].
      injection H as <- <-. unfold set_add.
      destruct (existsb (Nat.eqb n) s0) eqn:E.
      * right. apply existsb_exists in E as [x [Hx Ex]]. apply Nat.eqb_eq in Ex. subst. exact Hx.
      * right. apply in_or_app. right. left. reflexivity.
    + intros [H|H]; [left; left; exact H|]. destruct (IH H) as [H'|H']; [|right; exact H'].
      left; right; exact H'.
Qed.

Lemma dom_add_keys_in d k n k' : In k' (map fst (dom_add d k n)) -> k' = k \/ In k' (map fst d).
Proof.
  induction d as [|[k0 s0] r IH]; simpl.
  - intros [H|[]]. left. symmetry. exact H.
  - destruct (String.eqb k k0); simpl; [tauto|].
    intros [H|H]; [right; left; exact H|]. destruct (IH H); tauto.
Qed.

Lemma dom_add_keys d k n : NoDup (map fst d) -> NoDup (map fst (dom_add d k n)).
Proof.
  induction d as [|[k0 s0] r IH]; simpl.
  - intros _. constructor; [intros []|constructor].
  - intros H. inversion H as [|? ? Hn Hr]; subst.
    destruct (String.eqb k k0) eqn:Ek; simpl; [exact H|].
    constructor; [|exact (IH Hr)].
    intros Hin. destruct (dom_add_keys_in _ _ _ _ Hin) as [->|Hin'].
    + rewrite String.eqb_refl in Ek. discriminate.
    + exact (Hn Hin').
Qed.

Lemma dom_add_members d k n :
  ~ In n (members d) -> Permutation (members (dom_add d k n)) (n :: members d).
Proof.
  induction d as [|[k0 s0] r IH]; [intros _; reflexivity|].
  cbn [dom_add]. rewrite members_cons. intros Hn.
  destruct (String.eqb k k0).
  - rewrite members_cons. unfold set_add.
    destruct (existsb (Nat.eqb n) s0) eqn:E.
    + exfalso. apply Hn. apply in_or_app. left.
      apply existsb_exists in E as [x [Hx Ex]]. apply Nat.eqb_eq in Ex. subst. exact Hx.
    + rewrite <- app_assoc. simpl. apply Permutation_sym, Permutation_middle.
  - rewrite members_cons.
    apply Permutation_trans with (s0 ++ n :: members r).
    + apply Permutation_app_head. apply IH. intros H. apply Hn. apply in_or_app. right. exact H.
    + apply Permutation_sym, Permutation_middle.
Qed.

(* ------------------------------------------------------------------ *)
(** ** The session invariant is preserved *)

Lemma countb_app {A} (f : A -> bool) l1 l2 : countb f (l1 ++ l2) = (countb f l1 + countb f l2)%nat.
Proof. unfold countb. rewrite filter_app, length_app. reflexivity. Qed.

Lemma countb_cons {A} (f : A -> bool) x l :
  countb f (x :: l) = ((if f x then 1 else 0) + countb f l)%nat.
Proof. unfold countb. simpl. destruct (f x); reflexivity. Qed.

Lemma countb_nil {A} (f : A -> bool) : countb f [] = 0%nat.
Proof. reflexivity. Qed.

Lemma countb_zero {A} (f : A -> bool) l : countb f l = 0%nat <-> forall x, In x l -> f x = false.
Proof.
  unfold countb. induction l as [|y l IH]; simpl; [split; [tauto|reflexivity]|].
  destruct (f y) eqn:E; simpl.
  - split; [discriminate|]. intros H. rewrite (H y (or_introl eq_refl)) in E. discriminate.
  - rewrite IH. split; [intros H x [<-|Hx]; auto|intros H x Hx; auto].
Qed.

Lemma countb_pos {A} (f : A -> bool) l x : In x l -> f x = true -> (0 < countb f l)%nat.
Proof.
  intros Hx Hf. destruct (countb f l) eqn:E; [|lia].
  apply countb_zero with (x := x) in E; [congruence|exact Hx].
Qed.

Lemma rt_at_upd v v' n t t' m :
  rv_topics v' = set_nth (rv_topics v) n t' -> rt_at v n = Some t ->
  rt_at v' m = if Nat.eqb n m then Some t' else rt_at v m.
Proof.
  unfold rt_at. intros -> E. rewrite nth_error_set_nth.
  destruct (Nat.eqb n m); [|reflexivity].
  assert (L : (n < List.length (rv_topics v))%nat) by (apply nth_error_Some; congruence).
  apply Nat.ltb_lt in L. rewrite L. reflexivity.
Qed.

Lemma rt_at_lt v n t : rt_at v n = Some t -> (n < List.length (rv_topics v))%nat.
Proof. unfold rt_at. intros E. apply nth_error_Some. congruence. Qed.

Lemma wf_destroy_shape v v' n t :
  wf v -> rt_at v n = Some t -> rt_destroyed t = false ->
  rv_destroyed v' = rv_destroyed v ->
  rv_topics v' = set_nth (rv_topics v) n
                   (mkRTop true (rt_domain t) (rt_announce t) (rt_listeners t)) ->
  rv_domains v' = dom_remove (rv_domains v) (rt_domain t) n ->
  (forall f, countb f (rv_tasks v') = (countb f (rv_tasks v) + countb f [TTopicClose n])%nat) ->
  rv_trace v' = ODestroy n :: rv_trace v ->
  wf v'.
Proof.
  intros W E D Hd Ht Hdom Hq Htr.
  pose proof (fun m => rt_at_upd v v' n t _ m Ht E) as R.
  assert (Hlen : List.length (rv_topics v') = List.length (rv_topics v))
    by (rewrite Ht; apply length_set_nth).
  constructor.
  - rewrite Hdom. apply dom_remove_nonempty, (wf_nonempty _ W).
  - rewrite Hdom. apply dom_remove_keys, (wf_keys _ W).
  - intros k' s' m Hin Hm. rewrite Hdom in Hin.
    destruct (dom_remove_in _ _ _ _ _ _ (wf_keys _ W) Hin Hm) as [s [Hs [Hms Hne]]].
    destruct (wf_members _ W _ _ _ Hs Hms) as [a [ls Ha]].
    rewrite R. destruct (Nat.eqb n m) eqn:Enm.
    + apply Nat.eqb_eq in Enm. subst m. rewrite E in Ha. injection Ha as Ht0. subst t.
      exfalso. exact (Hne eq_refl eq_refl).
    + exists a, ls. exact Ha.
  - rewrite Hdom. apply dom_remove_members, (wf_nodup _ W).
  - intros m. rewrite Hq, Htr, countb_cons. pose proof (wf_close _ W m) as C.
    unfold rv_destroyed_at in *. rewrite R. rewrite !countb_cons, countb_nil.
    destruct (Nat.eqb n m) eqn:Enm; simpl.
    + apply Nat.eqb_eq in Enm. subst m. rewrite E, D in C. rewrite ?Nat.eqb_refl. lia.
    + rewrite ?Enm. lia.
  - intros m t' r Ht' Hr. rewrite R in Ht'. destruct (Nat.eqb n m) eqn:Enm.
    + apply Nat.eqb_eq in Enm. subst m. injection Ht' as <-. exact (wf_regs _ W _ _ _ E Hr).
    + exact (wf_regs _ W _ _ _ Ht' Hr).
  - intros Hd'. rewrite Hd in Hd'. destruct (wf_pre _ W Hd') as [P1 [P2 P3]]. split; [|split].
    + intros m t' Ht'. rewrite R in Ht'. destruct (Nat.eqb n m) eqn:Enm.
      * apply Nat.eqb_eq in Enm. subst m. injection Ht' as <-. exact (P1 _ _ E).
      * exact (P1 _ _ Ht').
    + rewrite Hq, P2. reflexivity.
    + rewrite Htr, countb_cons, P3. reflexivity.
  - intros o m Ho Hh. rewrite Hlen. rewrite Htr in Ho. destruct Ho as [<-|Ho].
    + injection Hh as <-. exact (rt_at_lt _ _ _ E).
    + exact (wf_handles _ W _ _ Ho Hh).
Qed.

Lemma wf_topic_destroy v n : wf v -> wf (r_topic_destroy v n).
Proof.
  intros W. unfold r_topic_destroy. destruct (rt_at v n) as [t|] eqn:E; [|exact W].
  destruct (rt_destroyed t) eqn:D; [exact W|].
  apply (wf_destroy_shape v _ n t W E D); destruct (rt_announce t); try reflexivity;
    intros f; unfold rv_tasks;
    cbn [rv_ticks rv_io rv_set_io rv_set_ticks rv_set_domains r_obs r_put rv_set_topics];
    rewrite !countb_app; lia.
Qed.

Lemma rv_frame_refl v : rv_frame v v.
Proof. split; reflexivity. Qed.

Lemma rv_frame_trans v1 v2 v3 : rv_frame v1 v2 -> rv_frame v2 v3 -> rv_frame v1 v3.
Proof. unfold rv_frame. intros [A B] [C D]. split; congruence. Qed.

Lemma rv_frame_put v n t : rv_frame v (r_put v n t).
Proof. split; [reflexivity|apply length_set_nth]. Qed.

Lemma rv_frame_obs v o : rv_frame v (r_obs o v).
Proof. split; reflexivity. Qed.

Lemma rv_frame_topic_destroy v n : rv_frame v (r_topic_destroy v n).
Proof.
  unfold r_topic_destroy. destruct (rt_at v n) as [t|]; [|apply rv_frame_refl].
  destruct (rt_destroyed t); [apply rv_frame_refl|].
  destruct (rt_announce t); split; try reflexivity; apply length_set_nth.
Qed.

Lemma rv_frame_add_listener v n r : rv_frame v (r_add_listener v n r).
Proof. unfold r_add_listener. destruct (rt_at v n); [apply rv_frame_put|apply rv_frame_refl]. Qed.

Lemma rv_frame_remove_listener v n r : rv_frame v (r_remove_listener v n r).
Proof. unfold r_remove_listener. destruct (rt_at v n); [apply rv_frame_put|apply rv_frame_refl]. Qed.

Lemma rv_frame_session_done v : rv_frame v (r_session_done v).
Proof. unfold r_session_done. destruct (Z.eqb _ 0); split; reflexivity. Qed.

Lemma in_remove_first r x l : In r (remove_first x l) -> In r l.
Proof.
  induction l as [|y l IH]; simpl; [tauto|].
  destruct (registration_eqb y x); simpl; [tauto|]. intros [H|H]; [left; exact H|right; auto].
Qed.

Lemma in_remove_last r x l : In r (rev (remove_first x (rev l))) -> In r l.
Proof. intros H. apply in_rev, in_remove_first, in_rev in H. exact H. Qed.

Lemma wf_put_listeners v n t ls' :
  wf v -> rt_at v n = Some t ->
  (forall r, In r ls' -> In r (rt_listeners t) \/
                         (allowed_reg n r /\ (r = reg_session_done -> rv_destroyed v = true))) ->
  wf (r_put v n (rt_set_listeners t ls')).
Proof.
  intros W E Hl.
  pose proof (fun m => rt_at_upd v (r_put v n (rt_set_listeners t ls')) n t _ m eq_refl E) as R.
  constructor.
  - exact (wf_nonempty _ W).
  - exact (wf_keys _ W).
  - intros k s m Hin Hm. destruct (wf_members _ W _ _ _ Hin Hm) as [a [ls Ha]].
    rewrite R. destruct (Nat.eqb n m) eqn:Enm; [|exists a, ls; exact Ha].
    apply Nat.eqb_eq in Enm. subst m. rewrite E in Ha. injection Ha as ->.
    exists a, ls'. reflexivity.
  - exact (wf_nodup _ W).
  - intros m. pose proof (wf_close _ W m) as C. unfold rv_destroyed_at in *. rewrite R.
    destruct (Nat.eqb n m) eqn:Enm; [|exact C].
    apply Nat.eqb_eq in Enm. subst m. rewrite E in C. exact C.
  - intros m t' r Ht' Hr. rewrite R in Ht'. destruct (Nat.eqb n m) eqn:Enm.
    + apply Nat.eqb_eq in Enm. subst m. injection Ht' as <-.
      destruct (Hl r Hr) as [H|[H _]]; [exact (wf_regs _ W _ _ _ E H)|exact H].
    + exact (wf_regs _ W _ _ _ Ht' Hr).
  - intros Hd. change (rv_destroyed v = false) in Hd.
    destruct (wf_pre _ W Hd) as [P1 P23]. split; [|exact P23].
    intros m t' Ht'. rewrite R in Ht'. destruct (Nat.eqb n m) eqn:Enm; [|exact (P1 _ _ Ht')].
    apply Nat.eqb_eq in Enm. subst m. injection Ht' as <-. intros Hr.
    destruct (Hl _ Hr) as [H|[_ H]]; [exact (P1 _ _ E H)|]. rewrite (H eq_refl) in Hd. discriminate.
  - intros o m Ho Hh. unfold r_put, rv_set_topics. simpl. rewrite length_set_nth.
    exact (wf_handles _ W _ _ Ho Hh).
Qed.

Lemma wf_add_listener v n r :
  wf v -> allowed_reg n r -> (r = reg_session_done -> rv_destroyed v = true) ->
  wf (r_add_listener v n r).
Proof.
  intros W A S. unfold r_add_listener. destruct (rt_at v n) as [t|] eqn:E; [|exact W].
  apply wf_put_listeners; [exact W|exact E|]. intros r' Hr'.
  apply in_app_or in Hr' as [H|[<-|[]]]; [left; exact H|right; split; assumption].
Qed.

Lemma wf_remove_listener v n r : wf v -> wf (r_remove_listener v n r).
Proof.
  intros W. unfold r_remove_listener. destruct (rt_at v n) as [t|] eqn:E; [|exact W].
  apply wf_put_listeners; [exact W|exact E|]. intros r' Hr'. left.
  exact (in_remove_last _ _ _ Hr').
Qed.

Lemma wf_obs v o :
  wf v -> (forall m, obs_handle o = Some m -> (m < List.length (rv_topics v))%nat) ->
  (forall m, is_topic_close m o = false) ->
  (rv_destroyed v = false -> is_session_close o = false) ->
  wf (r_obs o v).
Proof.
  intros W Hh Hc Hs. constructor; try apply W.
  - intros m. pose proof (wf_close _ W m) as C. unfold rv_destroyed_at, rt_at in *. simpl.
    rewrite countb_cons, Hc. exact C.
  - intros Hd. destruct (wf_pre _ W Hd) as [P1 [P2 P3]]. split; [exact P1|]. split; [exact P2|].
    simpl. rewrite countb_cons, (Hs Hd). exact P3.
  - intros o' m [<-|Ho] Hm; [exact (Hh _ Hm)|exact (wf_handles _ W _ _ Ho Hm)].
Qed.

Lemma wf_session_done v : wf v -> rv_destroyed v = true -> wf (r_session_done v).
Proof.
  intros W D. unfold r_session_done.
  assert (W1 : wf (rv_set_missing v (rv_missing v - 1))) by (destruct W; constructor; assumption).
  destruct (Z.eqb _ 0); [|exact W1].
  apply wf_obs; [exact W1|discriminate|reflexivity|]. simpl. congruence.
Qed.

Lemma wf_call n e v r :
  wf v -> (n < List.length (rv_topics v))%nat -> allowed_reg n r ->
  (r = reg_session_done -> rv_destroyed v = true) ->
  wf (r_call n e v r) /\ rv_frame v (r_call n e v r).
Proof.
  intros W L A S. destruct A as [ -> | [ -> | -> ] ]; unfold r_call;
    cbn [rg_fn rg_once reg_session_done reg_lookup_close reg_lookup_peer].
  - split; [apply wf_session_done; [exact W|exact (S eq_refl)]|apply rv_frame_session_done].
  - split; [|apply rv_frame_obs].
    apply wf_obs; [exact W| |reflexivity|reflexivity]. intros m Hm. injection Hm as <-. exact L.
  - pose proof (rv_frame_remove_listener v n (mkReg EvPeer (LLookupPeer n) true)) as F1.
    pose proof (wf_remove_listener v n (mkReg EvPeer (LLookupPeer n) true) W) as W1.
    destruct e as [p| |]; [|split; assumption|split; assumption].
    set (v1 := r_remove_listener v n _) in *.
    pose proof (rv_frame_remove_listener v1 n (mkReg EvClose (LLookupClose n) false)) as F2.
    pose proof (wf_remove_listener v1 n (mkReg EvClose (LLookupClose n) false) W1) as W2.
    set (v2 := r_remove_listener v1 n _) in *.
    pose proof (rv_frame_topic_destroy v2 n) as F3.
    pose proof (wf_topic_destroy v2 n W2) as W3.
    set (v3 := r_topic_destroy v2 n) in *.
    assert (F : rv_frame v v3) by (eapply rv_frame_trans; [eapply rv_frame_trans; eassumption|exact F3]).
    split; [|eapply rv_frame_trans; [exact F|apply rv_frame_obs]].
    apply wf_obs; [exact W3| |reflexivity|reflexivity].
    intros m Hm. injection Hm as <-. destruct F as [_ ->]. exact L.
Qed.

Lemma wf_fold_call n e l v :
  wf v -> (n < List.length (rv_topics v))%nat ->
  (forall r, In r l -> allowed_reg n r /\ (r = reg_session_done -> rv_destroyed v = true)) ->
  wf (fold_left (r_call n e) l v) /\ rv_frame v (fold_left (r_call n e) l v).
Proof.
  revert v; induction l as [|r l IH]; intros v W L A; [split; [exact W|apply rv_frame_refl]|].
  simpl. destruct (A r (or_introl eq_refl)) as [A1 A2].
  destruct (wf_call n e v r W L A1 A2) as [W1 [F1 F2]].
  destruct (IH (r_call n e v r) W1) as [W2 F3].
  - rewrite F2. exact L.
  - intros r' Hr'. destruct (A r' (or_intror Hr')) as [B1 B2]. split; [exact B1|].
    rewrite F1. exact B2.
  - split; [exact W2|]. eapply rv_frame_trans; [split; eassumption|exact F3].
Qed.

(** An emit on Topic [n] keeps the invariant once its own observation does. *)
Lemma wf_emit v n e :
  wf (r_obs (OEmit (Some n) e) v) -> (n < List.length (rv_topics v))%nat ->
  wf (r_emit v n e) /\ rv_frame v (r_emit v n e).
Proof.
  intros W L. unfold r_emit.
  change (rt_at (r_obs (OEmit (Some n) e) v) n) with (rt_at v n).
  destruct (rt_at v n) as [t|] eqn:E; [|split; [exact W|apply rv_frame_obs]].
  destruct (wf_fold_call n e (filter (fun r => evname_eqb (rg_event r) (ev_name e)) (rt_listeners t))
              (r_obs (OEmit (Some n) e) v) W L) as [W1 F1].
  - intros r Hr. apply filter_In in Hr as [Hr _].
    split; [exact (wf_regs _ W n t r E Hr)|].
    intros ->. change (rv_destroyed v = true). destruct (rv_destroyed v) eqn:D; [reflexivity|].
    exfalso. exact (proj1 (wf_pre _ W D) n t E Hr).
  - split; [exact W1|]. eapply rv_frame_trans; [apply rv_frame_obs|exact F1].
Qed.

Lemma wf_obs_emit v n e :
  wf v -> (n < List.length (rv_topics v))%nat -> e <> EClose ->
  wf (r_obs (OEmit (Some n) e) v).
Proof.
  intros W L H. apply wf_obs; [exact W| |intros m|intros _].
  - intros m Hm. injection Hm as <-. exact L.
  - destruct e; [reflexivity|reflexivity|congruence].
  - destruct e; [reflexivity|reflexivity|congruence].
Qed.

Lemma wf_fold_emit {A} (f : A -> nat) (g : A -> event) l v :
  wf v -> (forall x, In x l -> (f x < List.length (rv_topics v))%nat /\ g x <> EClose) ->
  wf (fold_left (fun v x => r_emit v (f x) (g x)) l v)
  /\ rv_frame v (fold_left (fun v x => r_emit v (f x) (g x)) l v).
Proof.
  revert v; induction l as [|x l IH]; intros v W H; [split; [exact W|apply rv_frame_refl]|].
  simpl. destruct (H x (or_introl eq_refl)) as [L N].
  destruct (wf_emit v (f x) (g x) (wf_obs_emit v _ _ W L N) L) as [W1 F1].
  destruct (IH _ W1) as [W2 F2].
  - intros y Hy. destruct (H y (or_intror Hy)) as [L' N']. destruct F1 as [_ ->]. split; assumption.
  - split; [exact W2|]. eapply rv_frame_trans; eassumption.
Qed.

Lemma wf_ondhtdata v n d : wf v -> wf (r_ondhtdata v n d).
Proof.
  intros W. unfold r_ondhtdata. destruct (rt_at v n) as [t|] eqn:E; [|exact W].
  destruct (rt_destroyed t); [exact W|].
  pose proof (rt_at_lt _ _ _ E) as L.
  destruct (wf_fold_emit (fun _ => n) (fun hp => EPeer (mkPeer (fst hp) (snd hp) true None))
              (dd_localPeers d) v W) as [W1 [_ F1]]; [intros; split; [exact L|discriminate]|].
  apply (wf_fold_emit (fun _ => n)
           (fun hp => EPeer (mkPeer (fst hp) (snd hp) false (Some (dd_node d))))
           (dd_peers d) _ W1).
  intros; split; [rewrite F1; exact L|discriminate].
Qed.

Lemma dom_get_in d k s : dom_get d k = Some s -> In (k, s) d.
Proof.
  induction d as [|[k0 s0] r IH]; simpl; [discriminate|].
  destruct (String.eqb k k0) eqn:E; [|intros H; right; exact (IH H)].
  apply String.eqb_eq in E. subst. intros H. injection H as <-. left. reflexivity.
Qed.

Lemma wf_onmdnsresponse v res addr : wf v -> wf (r_onmdnsresponse v res addr).
Proof.
  unfold r_onmdnsresponse. generalize (p_answers res) as l. intros l. revert v.
  induction l as [|a l IH]; intros v W; [exact W|]. simpl. apply IH.
  destruct a as [name target port| |]; try exact W.
  destruct (dom_get (rv_domains v) name) as [set|] eqn:E; [|exact W].
  apply (wf_fold_emit (fun n => n) (fun _ => EPeer _) set v W).
  intros m Hm. split; [|discriminate].
  destruct (wf_members _ W _ _ _ (dom_get_in _ _ _ E) Hm) as [a' [ls Ha]].
  exact (rt_at_lt _ _ _ Ha).
Qed.

Lemma wf_session_destroy v : wf v -> wf (r_session_destroy v).
Proof.
  intros W. unfold r_session_destroy. destruct (rv_destroyed v) eqn:D; [exact W|].
  set (v0 := rv_set_missing (rv_set_destroyed v true) 1).
  assert (W0 : wf v0) by (destruct W; constructor; try assumption; discriminate).
  assert (Hf : forall l u, wf u -> rv_destroyed u = true ->
            wf (fold_left (fun v n =>
                  r_add_listener (r_topic_destroy (rv_set_missing v (rv_missing v + 1)) n) n
                    reg_session_done) l u) /\
            rv_destroyed (fold_left (fun v n =>
                  r_add_listener (r_topic_destroy (rv_set_missing v (rv_missing v + 1)) n) n
                    reg_session_done) l u) = true).
  { induction l as [|n l IH]; intros u Wu Du; [split; assumption|]. simpl. apply IH.
    - apply wf_add_listener; [|left; reflexivity|].
      + apply wf_topic_destroy. destruct Wu; constructor; assumption.
      + intros _. rewrite (proj1 (rv_frame_topic_destroy _ n)). exact Du.
    - rewrite (proj1 (rv_frame_add_listener _ n _)), (proj1 (rv_frame_topic_destroy _ n)).
      exact Du. }
  destruct (Hf (members (rv_domains v0)) v0 W0 eq_refl) as [W1 D1].
  set (v1 := fold_left _ _ v0) in *.
  destruct W1; constructor; try assumption.
  - intros m. unfold rv_tasks in *. cbn [rv_ticks rv_io rv_set_ticks].
    pose proof (wf_close0 m) as Cm. unfold rv_tasks in Cm.
    rewrite !countb_app, countb_cons, countb_nil in *. simpl.
    change (rv_destroyed_at (rv_set_ticks v1 (rv_ticks v1 ++ [TSessionDone])) m)
      with (rv_destroyed_at v1 m). lia.
  - intros H. change (rv_destroyed v1 = false) in H. congruence.
Qed.

Lemma members_lt v m : wf v -> In m (members (rv_domains v)) -> (m < List.length (rv_topics v))%nat.
Proof.
  intros W H. unfold members in H. apply in_concat in H as [s [Hs Hm]].
  apply in_map_iff in Hs as [[k s'] [Es Hin]]. simpl in Es. subst s'.
  destruct (wf_members _ W _ _ _ Hin Hm) as [a [ls Ha]]. exact (rt_at_lt _ _ _ Ha).
Qed.

Lemma rt_at_new v name ann m :
  rt_at (r_new_topic v name ann) m =
  if Nat.ltb m (List.length (rv_topics v)) then rt_at v m
  else if Nat.eqb m (List.length (rv_topics v)) then Some (mkRTop false name ann [])
  else None.
Proof.
  unfold rt_at, r_new_topic. cbn [rv_topics rv_set_domains rv_set_topics].
  destruct (Nat.ltb m (List.length (rv_topics v))) eqn:L.
  - apply Nat.ltb_lt in L. apply nth_error_app1. exact L.
  - apply Nat.ltb_ge in L. rewrite nth_error_app2 by exact L.
    destruct (Nat.eqb m (List.length (rv_topics v))) eqn:E.
    + apply Nat.eqb_eq in E. rewrite E, Nat.sub_diag. reflexivity.
    + apply Nat.eqb_neq in E. destruct (m - List.length (rv_topics v))%nat eqn:M; [lia|].
      simpl. destruct n; reflexivity.
Qed.

Lemma wf_new_topic v name ann : wf v -> wf (r_new_topic v name ann).
Proof.
  intros W. set (N := List.length (rv_topics v)).
  pose proof (rt_at_new v name ann) as R. fold N in R.
  assert (Hold : forall m t, rt_at v m = Some t -> rt_at (r_new_topic v name ann) m = Some t).
  { intros m t E. rewrite R. pose proof (rt_at_lt _ _ _ E) as L. fold N in L.
    apply Nat.ltb_lt in L. rewrite L. exact E. }
  assert (Hcase : forall m t, rt_at (r_new_topic v name ann) m = Some t ->
            rt_at v m = Some t \/ (m = N /\ t = mkRTop false name ann [])).
  { intros m t E. rewrite R in E. destruct (Nat.ltb m N); [left; exact E|].
    destruct (Nat.eqb m N) eqn:Em; [|discriminate]. apply Nat.eqb_eq in Em.
    injection E as <-. right. split; [exact Em|reflexivity]. }
  assert (HN : rt_at v N = None) by (apply nth_error_None; unfold N; lia).
  constructor.
  - intros k s Hin. destruct (dom_add_nonempty _ _ _ _ _ Hin) as [H|H];
      [exact (wf_nonempty _ W _ _ H)|destruct s; [destruct H|discriminate]].
  - apply dom_add_keys, (wf_keys _ W).
  - intros k s m Hin Hm. destruct (dom_add_in _ _ _ _ _ _ Hin Hm) as [[-> ->]|[s' [H1 H2]]].
    + exists ann, []. rewrite R. rewrite Nat.ltb_irrefl, Nat.eqb_refl. reflexivity.
    + destruct (wf_members _ W _ _ _ H1 H2) as [a [ls Ha]]. exists a, ls. exact (Hold _ _ Ha).
  - apply Permutation_NoDup with (N :: members (rv_domains v)).
    + apply Permutation_sym, dom_add_members. intros H. pose proof (members_lt _ _ W H). unfold N in *. lia.
    + constructor; [|exact (wf_nodup _ W)]. intros H. pose proof (members_lt _ _ W H). unfold N in *. lia.
  - intros m. pose proof (wf_close _ W m) as Cm.
    replace (rv_destroyed_at (r_new_topic v name ann) m) with (rv_destroyed_at v m); [exact Cm|].
    unfold rv_destroyed_at. destruct (rt_at v m) as [t|] eqn:E; [rewrite (Hold _ _ E); reflexivity|].
    destruct (rt_at (r_new_topic v name ann) m) as [t|] eqn:E'; [|reflexivity].
    destruct (Hcase _ _ E') as [H|[_ ->]]; [congruence|reflexivity].
  - intros m t r Ht Hr. destruct (Hcase _ _ Ht) as [H|[_ ->]]; [exact (wf_regs _ W _ _ _ H Hr)|destruct Hr].
  - intros Hd. destruct (wf_pre _ W Hd) as [P1 P23]. split; [|exact P23].
    intros m t Ht. destruct (Hcase _ _ Ht) as [H|[_ ->]]; [exact (P1 _ _ H)|intros []].
  - intros o m Ho Hh. unfold r_new_topic. cbn [rv_topics rv_set_domains rv_set_topics].
    rewrite length_app. pose proof (wf_handles _ W _ _ Ho Hh). lia.
Qed.

Lemma wf_lookupOne v name : wf v -> wf (r_lookupOne v name).
Proof.
  intros W. unfold r_lookupOne.
  apply wf_add_listener; [apply wf_add_listener; [apply wf_new_topic; exact W| |]| |];
    unfold allowed_reg, reg_session_done, reg_lookup_close, reg_lookup_peer; try tauto;
    intros H; discriminate.
Qed.

Lemma countb_perm {A} (f : A -> bool) l l' : Permutation l l' -> countb f l = countb f l'.
Proof.
  induction 1 as [|x l l' _ IH|x y l|l l' l'' _ IH1 _ IH2]; rewrite ?countb_cons; lia.
Qed.

Section TakeTask.
Variables (v v1 : rview) (tk : task).
Hypothesis W : wf v.
Hypothesis E_destroyed : rv_destroyed v1 = rv_destroyed v.
Hypothesis E_topics : rv_topics v1 = rv_topics v.
Hypothesis E_domains : rv_domains v1 = rv_domains v.
Hypothesis E_trace : rv_trace v1 = rv_trace v.
Hypothesis P : Permutation (rv_tasks v) (tk :: rv_tasks v1).

Lemma take_count f : countb f (rv_tasks v) = ((if f tk then 1 else 0) + countb f (rv_tasks v1))%nat.
Proof. rewrite (countb_perm f _ _ P), countb_cons. reflexivity. Qed.

Lemma take_at m : rt_at v1 m = rt_at v m.
Proof. unfold rt_at. rewrite E_topics. reflexivity. Qed.

Lemma take_destroyed_at m : rv_destroyed_at v1 m = rv_destroyed_at v m.
Proof. unfold rv_destroyed_at. rewrite take_at. reflexivity. Qed.

(** Taking a task that neither closes a Topic nor the session. *)
Lemma wf_take_other :
  (forall n, is_close_task n tk = false) ->
  (rv_destroyed v = false -> is_session_task tk = false) -> wf v1.
Proof.
  intros Hc Hs. constructor.
  - rewrite E_domains. exact (wf_nonempty _ W).
  - rewrite E_domains. exact (wf_keys _ W).
  - rewrite E_domains. intros k s n H1 H2. rewrite take_at. exact (wf_members _ W _ _ _ H1 H2).
  - rewrite E_domains. exact (wf_nodup _ W).
  - intros m. pose proof (wf_close _ W m) as C. rewrite take_count, Hc in C.
    rewrite take_destroyed_at, E_trace. exact C.
  - intros n t r H. rewrite take_at in H. exact (wf_regs _ W _ _ _ H).
  - rewrite E_destroyed. intros D. destruct (wf_pre _ W D) as [P1 [P2 P3]].
    split; [intros n t; rewrite take_at; exact (P1 n t)|].
    rewrite take_count, (Hs D) in P2. rewrite E_trace. split; [exact P2|exact P3].
  - intros o n. rewrite E_trace, E_topics. exact (wf_handles _ W o n).
Qed.

Lemma wf_take_close n :
  tk = TTopicClose n -> wf (r_obs (OEmit (Some n) EClose) v1) /\ (n < List.length (rv_topics v1))%nat.
Proof.
  intros Etk.
  assert (D : rv_destroyed_at v n = true).
  { pose proof (wf_close _ W n) as C. rewrite take_count, Etk in C. cbn [is_close_task] in C.
    rewrite Nat.eqb_refl in C. destruct (rv_destroyed_at v n); [reflexivity|lia]. }
  assert (L : (n < List.length (rv_topics v1))%nat).
  { unfold rv_destroyed_at in D. destruct (rt_at v n) eqn:E; [|discriminate].
    rewrite <- take_at in E. exact (rt_at_lt _ _ _ E). }
  split; [|exact L]. constructor;
    try change (rv_domains (r_obs (OEmit (Some n) EClose) v1)) with (rv_domains v1).
  - rewrite E_domains. exact (wf_nonempty _ W).
  - rewrite E_domains. exact (wf_keys _ W).
  - rewrite E_domains. intros k s m H1 H2. change (rt_at (r_obs (OEmit (Some n) EClose) v1) m) with (rt_at v1 m).
    rewrite take_at. exact (wf_members _ W _ _ _ H1 H2).
  - rewrite E_domains. exact (wf_nodup _ W).
  - intros m. pose proof (wf_close _ W m) as C. rewrite take_count, Etk in C.
    change (rv_destroyed_at (r_obs (OEmit (Some n) EClose) v1) m) with (rv_destroyed_at v1 m).
    rewrite take_destroyed_at. unfold rv_tasks in *. cbn [r_obs rv_ticks rv_io rv_trace] in *.
    rewrite countb_cons, E_trace. cbn [is_close_task is_topic_close] in *.
    destruct (Nat.eqb n m); lia.
  - intros m t r H. change (rt_at v1 m = Some t) in H. rewrite take_at in H.
    exact (wf_regs _ W _ _ _ H).
  - change (rv_destroyed (r_obs (OEmit (Some n) EClose) v1)) with (rv_destroyed v1).
    rewrite E_destroyed. intros Dv.
    destruct (wf_pre _ W Dv) as [P1 [P2 P3]].
    split; [intros m t H; change (rt_at v1 m = Some t) in H; rewrite take_at in H; exact (P1 m t H)|].
    rewrite take_count, Etk in P2. cbn [is_session_task] in P2.
    unfold rv_tasks in *. cbn [r_obs rv_ticks rv_io rv_trace]. rewrite countb_cons, E_trace.
    split; [exact P2|exact P3].
  - intros o m Ho Hm. cbn [r_obs rv_trace rv_topics] in *. destruct Ho as [<-|Ho].
    + injection Hm as <-. exact L.
    + rewrite E_trace in Ho. rewrite E_topics. exact (wf_handles _ W _ _ Ho Hm).
Qed.

Lemma wf_take_session :
  tk = TSessionDone -> wf v1 /\ rv_destroyed v1 = true.
Proof.
  intros Etk. assert (D : rv_destroyed v = true).
  { destruct (rv_destroyed v) eqn:D; [reflexivity|].
    destruct (wf_pre _ W D) as [_ [P2 _]]. rewrite take_count, Etk in P2. cbn [is_session_task] in P2. lia. }
  split; [|rewrite E_destroyed; exact D].
  apply wf_take_other; rewrite Etk; [reflexivity|congruence].
Qed.

Lemma wf_take_run : wf (r_run v1 tk).
Proof.
  case_eq tk; [intros n Etk|intros Etk|intros n Etk|intros n Etk]; cbn [r_run].
  - destruct (wf_take_close n Etk) as [W1 L]. exact (proj1 (wf_emit v1 n EClose W1 L)).
  - destruct (wf_take_session Etk) as [W1 D]. exact (wf_session_done _ W1 D).
  - apply wf_take_other; rewrite Etk; reflexivity.
  - apply wf_take_other; rewrite Etk; reflexivity.
Qed.
End TakeTask.

Lemma wf_rstep v v' : wf v -> rstep v v' -> wf v'.
Proof.
  intros W S. destruct S as [v|v name ann _|v name _|v n|v|v tk rest E|v l1 tk l2 E|v n d|v n err Hl|v p addr _].
  - exact W.
  - apply wf_new_topic; exact W.
  - apply wf_lookupOne; exact W.
  - apply wf_topic_destroy; exact W.
  - apply wf_session_destroy; exact W.
  - apply (wf_take_run v); try reflexivity; [exact W|].
    unfold rv_tasks. cbn [rv_set_ticks rv_ticks rv_io]. rewrite E. reflexivity.
  - apply (wf_take_run v); try reflexivity; [exact W|].
    unfold rv_tasks. cbn [rv_set_io rv_ticks rv_io]. rewrite E.
    rewrite !app_assoc. apply Permutation_sym, Permutation_middle.
  - apply wf_ondhtdata; exact W.
  - assert (L : (n < List.length (rv_topics v))%nat).
    { unfold rv_live in Hl. destruct (rt_at v n) eqn:Et; [exact (rt_at_lt _ _ _ Et)|discriminate]. }
    refine (proj1 (wf_emit v n (EUpdate err) _ L)).
    apply wf_obs_emit; [exact W|exact L|discriminate].
  - apply wf_onmdnsresponse; exact W.
Qed.

Lemma wf_rsteps v v' : wf v -> rsteps v v' -> wf v'.
Proof.
  intros W S. induction S as [v|v1 v2 v3 H _ IH]; [exact W|].
  apply IH. exact (wf_rstep _ _ W H).
Qed.

Lemma wf_init dom : wf (rproj (init_world dom)).
Proof.
  assert (Hnil : forall n, rt_at (rproj (init_world dom)) n = None) by (intros [|n]; reflexivity).
  constructor; cbn.
  - intros k s [].
  - constructor.
  - intros k s n [].
  - constructor.
  - intros n. unfold rv_destroyed_at. rewrite Hnil. reflexivity.
  - intros n t r H. rewrite Hnil in H. discriminate.
  - intros _. split; [intros n t H; rewrite Hnil in H; discriminate|split; reflexivity].
  - intros o n [].
Qed.

Lemma reachable_wf w : reachable w -> wf (rproj w).
Proof.
  intros [dom H]. apply (wf_rsteps _ _ (wf_init dom)). exact (steps_rsteps _ _ H).
Qed.

(* ------------------------------------------------------------------ *)
(** ** The domain index *)

(** C9: in every reachable session the domain index ([_domains]) holds no
    domain with an empty Set: [Topic#destroy] deletes an entry as soon as
    its Set is empty. Each Topic in the Set of a domain is a live Topic of
    that domain, and a domain appears at most once. *)
Theorem C9_domain_index_nonempty w k s :
  reachable w -> In (k, s) (w_domains w) ->
  s <> [] /\ NoDup (map fst (w_domains w)) /\
  forall n, In n s -> exists t, get_topic w n = Some t /\ t_destroyed t = false /\ t_domain t = k.
Proof.
  intros R Hin. pose proof (reachable_wf w R) as W.
  split; [exact (wf_nonempty _ W k s Hin)|]. split; [exact (wf_keys _ W)|].
  intros n Hn. destruct (wf_members _ W k s n Hin Hn) as [a [ls E]].
  rewrite rt_at_rproj in E. destruct (get_topic w n) as [t|]; [|discriminate].
  injection E as Ed Ek _ _. exists t. split; [reflexivity|split; assumption].
Qed.

Lemma C9_domain_index_nonempty_witness :
  reachable w_two_announce /\ In (dom20, [0%nat; 1%nat]) (w_domains w_two_announce) /\
  ([0%nat; 1%nat] <> [] /\ NoDup (map fst (w_domains w_two_announce)) /\
   forall n, In n [0%nat; 1%nat] -> exists t, get_topic w_two_announce n = Some t /\
     t_destroyed t = false /\ t_domain t = dom20).
Proof.
  split; [exact w_two_announce_reachable|]. split; [left; vm_compute; reflexivity|].
  apply C9_domain_index_nonempty; [exact w_two_announce_reachable|left; vm_compute; reflexivity].
Defined.

(* ------------------------------------------------------------------ *)
(** ** Events after [Topic#destroy] *)

(** C8: [Topic#_ondhtdata] checks [destroyed] once, before its loops. When
    a [peer] listener destroys the Topic (here [onpeer] of [lookupOne]),
    the remaining peers of the same chunk are still emitted as [peer]
    events of the destroyed Topic. *)
Theorem C8_peer_emitted_after_destroy :
  reachable w_lookupOne /\
  step w_lookupOne (_ondhtdata w_lookupOne 0 two_peers) /\
  w_trace (_ondhtdata w_lookupOne 0 two_peers) =
    OEmit (Some 0%nat) (EPeer peer_2) :: OCallback 0 (CPeer peer_1) :: OStreamDestroy 0
    :: ODestroy 0 :: OEmit (Some 0%nat) (EPeer peer_1) :: w_trace w_lookupOne /\
  option_map t_destroyed (get_topic (_ondhtdata w_lookupOne 0 two_peers) 0) = Some true.
Proof.
  split; [exists None; apply steps_cons with w_lookupOne; [apply st_lookupOne|apply steps_refl]|].
  split; [exact (st_stream_data w_lookupOne 0 (mkStream 0 false) two_peers
                   ltac:(vm_compute; reflexivity))|].
  split; vm_compute; reflexivity.
Qed.

(* ------------------------------------------------------------------ *)
(** ** The phases of a [lookupOne] call are preserved by every step *)
(* ------------------------------------------------------------------ *)
(** ** The callback of [lookupOne] *)

Lemma c_obs_handle c o : is_c_obs c o = true -> obs_handle o = Some c.
Proof.
  unfold is_c_obs. intros H.
  destruct o as [[m|] e|m r| | | | | | | | | |]; cbn in H; try discriminate;
    try (destruct e; cbn in H; try discriminate);
    destruct (Nat.eqb m c) eqn:E; cbn in H; try discriminate;
    apply Nat.eqb_eq in E; subst; reflexivity.
Qed.

Lemma c_free_nil c : c_free c [].
Proof. intros o []. Qed.

Lemma c_free_app c l1 l2 : c_free c l1 -> c_free c l2 -> c_free c (l1 ++ l2).
Proof. intros H1 H2 o Ho. apply in_app_or in Ho as [Ho|Ho]; auto. Qed.

Lemma c_free_one c o : obs_handle o <> Some c -> c_free c [o].
Proof.
  intros H o' [<-|[]]. destruct (is_c_obs c o) eqn:X; [|reflexivity].
  exfalso. exact (H (c_obs_handle _ _ X)).
Qed.

Lemma cb_c c o : is_callback c o = true -> is_c_obs c o = true.
Proof. intros E. unfold is_c_obs. rewrite E. reflexivity. Qed.

Lemma pe_c c o : is_peer_emit c o = true -> is_c_obs c o = true.
Proof. intros E. unfold is_c_obs. rewrite E, orb_true_r. reflexivity. Qed.

Lemma tc_c c o : is_topic_close c o = true -> is_c_obs c o = true.
Proof. intros E. unfold is_c_obs. rewrite E, orb_true_r. reflexivity. Qed.

Lemma c_free_count c ext f :
  c_free c ext -> (forall o, f o = true -> is_c_obs c o = true) -> countb f ext = 0%nat.
Proof.
  intros H Hf. apply countb_zero. intros o Ho. destruct (f o) eqn:E; [|reflexivity].
  specialize (Hf o E). rewrite (H o Ho) in Hf. discriminate.
Qed.

Lemma found_ext c t ext tr :
  lk_found c t tr -> countb (is_callback c) ext = 0%nat -> lk_found c t (ext ++ tr).
Proof.
  intros [D [S [p [post [pre [-> [H1 H2]]]]]]] He. split; [exact D|]. split; [exact S|].
  exists p, (ext ++ post), pre. rewrite <- app_assoc. split; [reflexivity|].
  split; [rewrite countb_app; lia|exact H2].
Qed.

Lemma lk_frame c v v' : lk c v -> c_frame c v v' -> lk c v'.
Proof.
  intros [t [E H]] [E' [ext [Tr F]]]. exists t. split; [congruence|]. rewrite Tr.
  pose proof (c_free_count c ext _ F (cb_c c)) as F1.
  pose proof (c_free_count c ext _ F (pe_c c)) as F2.
  pose proof (c_free_count c ext _ F (tc_c c)) as F3.
  destruct H as [[HL [H1 [H2 H3]]]|[Hf|[D [HL [post [pre [-> [H1 H2]]]]]]]].
  - left. split; [exact HL|]. rewrite !countb_app. lia.
  - right; left. apply found_ext; assumption.
  - right; right. split; [exact D|]. split; [exact HL|]. exists (ext ++ post), pre.
    rewrite <- app_assoc. split; [reflexivity|]. rewrite !countb_app in *. split; lia.
Qed.

Lemma lk_same c v v' : lk c v -> rv_topics v' = rv_topics v -> rv_trace v' = rv_trace v -> lk c v'.
Proof.
  intros K T R. apply (lk_frame c v); [exact K|]. split; [unfold rt_at; rewrite T; reflexivity|].
  exists []. split; [exact R|apply c_free_nil].
Qed.

Lemma lk_fd_lk c v : lk_fd c v -> lk c v.
Proof. intros [t [E F]]. exists t. split; [exact E|right; left; exact F]. Qed.

Lemma lk_fd_frame c v v' : lk_fd c v -> c_frame c v v' -> lk_fd c v'.
Proof.
  intros [t [E F]] [E' [ext [T Fe]]]. exists t. split; [congruence|]. rewrite T.
  apply found_ext; [exact F|exact (c_free_count c ext _ Fe (cb_c c))].
Qed.

Lemma lk_ready_frame c v v' : lk_ready c v -> c_frame c v v' -> lk_ready c v'.
Proof.
  intros [L|F] C; [left|right; exact (lk_fd_frame _ _ _ F C)].
  unfold rv_live in *. destruct C as [-> _]. exact L.
Qed.

Lemma cf_refl c v : c_frame c v v.
Proof. split; [reflexivity|exists []; split; [reflexivity|apply c_free_nil]]. Qed.

Lemma cf_trans c v1 v2 v3 : c_frame c v1 v2 -> c_frame c v2 v3 -> c_frame c v1 v3.
Proof.
  intros [E1 [e1 [T1 F1]]] [E2 [e2 [T2 F2]]]. split; [congruence|].
  exists (e2 ++ e1). split; [rewrite T2, T1, app_assoc; reflexivity|apply c_free_app; assumption].
Qed.

Lemma cf_obs c v o : obs_handle o <> Some c -> c_frame c v (r_obs o v).
Proof. intros H. split; [reflexivity|exists [o]; split; [reflexivity|apply c_free_one; exact H]]. Qed.

Lemma cf_topics c v v' : rv_topics v' = rv_topics v -> rv_trace v' = rv_trace v -> c_frame c v v'.
Proof.
  intros T R. split; [unfold rt_at; rewrite T; reflexivity|].
  exists []. split; [exact R|apply c_free_nil].
Qed.

Lemma rt_at_put v n t m :
  rt_at (r_put v n t) m =
  if Nat.eqb n m then (if Nat.ltb n (List.length (rv_topics v)) then Some t else None)
  else rt_at v m.
Proof. unfold rt_at, r_put, rv_set_topics. cbn [rv_topics]. apply nth_error_set_nth. Qed.

Lemma cf_put c v n t : n <> c -> c_frame c v (r_put v n t).
Proof.
  intros H. split; [|exists []; split; [reflexivity|apply c_free_nil]].
  rewrite rt_at_put. apply Nat.eqb_neq in H. rewrite H. reflexivity.
Qed.

Lemma cf_topic_destroy c v n : n <> c -> c_frame c v (r_topic_destroy v n).
Proof.
  intros H. unfold r_topic_destroy. destruct (rt_at v n) as [t|]; [|apply cf_refl].
  destruct (rt_destroyed t); [apply cf_refl|].
  set (T := mkRTop true (rt_domain t) (rt_announce t) (rt_listeners t)).
  apply cf_trans with (r_obs (ODestroy n) (r_put v n T)).
  - apply cf_trans with (r_put v n T); [apply cf_put; exact H|].
    apply cf_obs. cbn. intros X. injection X as X. exact (H X).
  - destruct (rt_announce t); apply cf_topics; reflexivity.
Qed.

Lemma cf_add_listener c v n r : n <> c -> c_frame c v (r_add_listener v n r).
Proof. intros H. unfold r_add_listener. destruct (rt_at v n); [apply cf_put; exact H|apply cf_refl]. Qed.

Lemma cf_remove_listener c v n r : n <> c -> c_frame c v (r_remove_listener v n r).
Proof. intros H. unfold r_remove_listener. destruct (rt_at v n); [apply cf_put; exact H|apply cf_refl]. Qed.

Lemma cf_session_done c v : c_frame c v (r_session_done v).
Proof.
  unfold r_session_done. destruct (Z.eqb _ 0).
  - apply cf_trans with (rv_set_missing v (rv_missing v - 1)); [apply cf_topics; reflexivity|].
    apply cf_obs. discriminate.
  - apply cf_topics; reflexivity.
Qed.

Lemma cf_call_sd c n e v : c_frame c v (r_call n e v reg_session_done).
Proof. apply cf_session_done. Qed.

Lemma cf_call c n e v r : n <> c -> allowed_reg n r -> c_frame c v (r_call n e v r).
Proof.
  intros Hn [ -> | [ -> | -> ] ].
  - apply cf_call_sd.
  - unfold r_call. cbn [rg_once rg_fn reg_lookup_close].
    apply cf_obs. cbn. intros X. injection X as X. exact (Hn X).
  - unfold r_call. cbn [rg_once rg_fn reg_lookup_peer].
    apply cf_trans with (r_remove_listener v n (mkReg EvPeer (LLookupPeer n) true));
      [apply cf_remove_listener; exact Hn|].
    destruct e as [p| |]; [|apply cf_refl|apply cf_refl].
    set (v1 := r_remove_listener v n _).
    apply cf_trans with (r_topic_destroy (r_remove_listener v1 n (mkReg EvClose (LLookupClose n) false)) n).
    + apply cf_trans with (r_remove_listener v1 n (mkReg EvClose (LLookupClose n) false));
        [apply cf_remove_listener; exact Hn|apply cf_topic_destroy; exact Hn].
    + apply cf_obs. cbn. intros X. injection X as X. exact (Hn X).
Qed.

Lemma only_sd_cons x L : only_sd (x :: L) -> x = reg_session_done /\ only_sd L.
Proof. intros S. split; [apply S; left; reflexivity|intros r Hr; apply S; right; exact Hr]. Qed.

Lemma only_sd_app L1 L2 : only_sd L1 -> only_sd L2 -> only_sd (L1 ++ L2).
Proof. intros S1 S2 r Hr. apply in_app_or in Hr as [Hr|Hr]; auto. Qed.

Lemma cf_fold_sd c n e L v : only_sd L -> c_frame c v (fold_left (r_call n e) L v).
Proof.
  revert v; induction L as [|r L IH]; intros v S; [apply cf_refl|]. cbn [fold_left].
  destruct (only_sd_cons _ _ S) as [-> S'].
  apply cf_trans with (r_call n e v reg_session_done); [apply cf_call_sd|apply IH; exact S'].
Qed.

Lemma cf_fold_call c n e l v :
  n <> c -> (forall r, In r l -> allowed_reg n r) -> c_frame c v (fold_left (r_call n e) l v).
Proof.
  revert v; induction l as [|r l IH]; intros v Hn A; [apply cf_refl|]. cbn [fold_left].
  apply cf_trans with (r_call n e v r); [apply cf_call; [exact Hn|apply A; left; reflexivity]|].
  apply IH; [exact Hn|intros r' Hr'; apply A; right; exact Hr'].
Qed.

Lemma cf_emit_other c v n e : n <> c ->
  (forall t r, rt_at v n = Some t -> In r (rt_listeners t) -> allowed_reg n r) ->
  c_frame c v (r_emit v n e).
Proof.
  intros Hn A. unfold r_emit. change (rt_at (r_obs (OEmit (Some n) e) v) n) with (rt_at v n).
  assert (C0 : c_frame c v (r_obs (OEmit (Some n) e) v))
    by (apply cf_obs; cbn; intros X; injection X as X; exact (Hn X)).
  destruct (rt_at v n) as [t|] eqn:E; [|exact C0].
  apply (cf_trans _ _ _ _ C0). apply cf_fold_call; [exact Hn|].
  intros r Hr. apply filter_In in Hr as [Hr _]. exact (A t r eq_refl Hr).
Qed.

Lemma filter_allowed_update n err l : (forall r, In r l -> allowed_reg n r) ->
  filter (fun r => evname_eqb (rg_event r) (ev_name (EUpdate err))) l = [].
Proof.
  induction l as [|r l IH]; intros A; [reflexivity|]. cbn [filter].
  destruct (A r (or_introl eq_refl)) as [ -> | [ -> | -> ] ];
    cbn [rg_event reg_session_done reg_lookup_close reg_lookup_peer evname_eqb ev_name];
    apply IH; intros; apply A; right; assumption.
Qed.

Lemma cf_emit_update c v n err :
  (forall t r, rt_at v n = Some t -> In r (rt_listeners t) -> allowed_reg n r) ->
  c_frame c v (r_emit v n (EUpdate err)).
Proof.
  intros A. unfold r_emit. change (rt_at (r_obs (OEmit (Some n) (EUpdate err)) v) n) with (rt_at v n).
  assert (C0 : c_frame c v (r_obs (OEmit (Some n) (EUpdate err)) v)).
  { split; [reflexivity|]. exists [OEmit (Some n) (EUpdate err)]. split; [reflexivity|].
    intros o [<-|[]]. reflexivity. }
  destruct (rt_at v n) as [t|] eqn:E; [|exact C0].
  rewrite (filter_allowed_update n err (rt_listeners t)); [exact C0|].
  intros r Hr. exact (A t r eq_refl Hr).
Qed.

Lemma rt_at_add_listener v n t r : rt_at v n = Some t ->
  rt_at (r_add_listener v n r) n = Some (rt_set_listeners t (rt_listeners t ++ [r])) /\
  rv_trace (r_add_listener v n r) = rv_trace v.
Proof.
  intros E. unfold r_add_listener. rewrite E. split; [|reflexivity].
  rewrite rt_at_put, Nat.eqb_refl. apply rt_at_lt, Nat.ltb_lt in E. rewrite E. reflexivity.
Qed.

Lemma rt_at_remove_listener v n t r : rt_at v n = Some t ->
  rt_at (r_remove_listener v n r) n =
    Some (rt_set_listeners t (rev (remove_first r (rev (rt_listeners t))))) /\
  rv_trace (r_remove_listener v n r) = rv_trace v.
Proof.
  intros E. unfold r_remove_listener. rewrite E. split; [|reflexivity].
  rewrite rt_at_put, Nat.eqb_refl. apply rt_at_lt, Nat.ltb_lt in E. rewrite E. reflexivity.
Qed.

Lemma r_topic_destroy_live v n t :
  rt_at v n = Some t -> rt_destroyed t = false ->
  rt_at (r_topic_destroy v n) n = Some (mkRTop true (rt_domain t) (rt_announce t) (rt_listeners t)) /\
  rv_trace (r_topic_destroy v n) = ODestroy n :: rv_trace v.
Proof.
  intros E D. assert (L := rt_at_lt _ _ _ E). apply Nat.ltb_lt in L.
  unfold r_topic_destroy. rewrite E, D.
  set (T := mkRTop true (rt_domain t) (rt_announce t) (rt_listeners t)).
  assert (E1 : rt_at (r_put v n T) n = Some T) by (rewrite rt_at_put, Nat.eqb_refl, L; reflexivity).
  destruct (rt_announce t); split; try reflexivity; exact E1.
Qed.

Lemma registration_eqb_refl r : registration_eqb r r = true.
Proof. destruct r as [[] [|c|c] []]; unfold registration_eqb; simpl; rewrite ?Nat.eqb_refl; reflexivity. Qed.

Lemma remove_first_skip r l1 l2 :
  (forall x, In x l1 -> registration_eqb x r = false) ->
  remove_first r (l1 ++ l2) = l1 ++ remove_first r l2.
Proof.
  induction l1 as [|x l1 IH]; intros H; [reflexivity|]. cbn [app remove_first].
  rewrite (H x (or_introl eq_refl)), IH; [reflexivity|]. intros y Hy. apply H. right. exact Hy.
Qed.

Lemma rev_only_sd_skip r L : only_sd L -> registration_eqb reg_session_done r = false ->
  forall x, In x (rev L) -> registration_eqb x r = false.
Proof. intros S N x Hx. apply in_rev in Hx. rewrite (S x Hx). exact N. Qed.

Lemma remove_peer_listeners c L : only_sd L ->
  rev (remove_first (reg_lookup_peer c) (rev (reg_lookup_close c :: reg_lookup_peer c :: L)))
  = reg_lookup_close c :: L.
Proof.
  intros S. cbn [rev]. rewrite <- app_assoc.
  rewrite remove_first_skip by (apply rev_only_sd_skip; [exact S|reflexivity]).
  cbn [app remove_first]. rewrite registration_eqb_refl.
  rewrite rev_app_distr, rev_involutive. reflexivity.
Qed.

Lemma remove_close_listeners c L : only_sd L ->
  rev (remove_first (reg_lookup_close c) (rev (reg_lookup_close c :: L))) = L.
Proof.
  intros S. cbn [rev].
  rewrite remove_first_skip by (apply rev_only_sd_skip; [exact S|reflexivity]).
  cbn [remove_first]. rewrite registration_eqb_refl, app_nil_r, rev_involutive. reflexivity.
Qed.

Lemma filter_sd_peer L : only_sd L -> filter (fun r => evname_eqb (rg_event r) EvPeer) L = [].
Proof.
  induction L as [|x L IH]; intros S; [reflexivity|]. destruct (only_sd_cons _ _ S) as [-> S'].
  exact (IH S').
Qed.

Lemma filter_sd_close L : only_sd L -> filter (fun r => evname_eqb (rg_event r) EvClose) L = L.
Proof.
  induction L as [|x L IH]; intros S; [reflexivity|]. destruct (only_sd_cons _ _ S) as [-> S'].
  change (reg_session_done :: filter (fun r => evname_eqb (rg_event r) EvClose) L
          = reg_session_done :: L). rewrite (IH S'). reflexivity.
Qed.

Lemma lk_topic_destroy c v n : lk c v -> lk c (r_topic_destroy v n).
Proof.
  intros K. destruct (Nat.eq_dec n c) as [->|Hn]; [|exact (lk_frame _ _ _ K (cf_topic_destroy c v n Hn))].
  destruct K as [t [E H]]. destruct (rt_destroyed t) eqn:D.
  - unfold r_topic_destroy. rewrite E, D. exists t. split; [exact E|exact H].
  - destruct (r_topic_destroy_live v c t E D) as [E1 T1].
    assert (Hw : lk_waiting c t (rv_trace v)).
    { destruct H as [Hw|[[D' _]|[D' _]]]; [exact Hw|congruence|congruence]. }
    eexists. split; [exact E1|]. left. rewrite T1.
    destruct Hw as [HL [H1 [H2 H3]]]. split; [exact HL|].
    rewrite !countb_cons. cbn [is_callback is_peer_emit is_topic_close]. lia.
Qed.

Lemma lk_add_sd c v n : lk c v -> lk c (r_add_listener v n reg_session_done).
Proof.
  intros K. destruct (Nat.eq_dec n c) as [->|Hn]; [|exact (lk_frame _ _ _ K (cf_add_listener c v n _ Hn))].
  destruct K as [t [E H]].
  destruct (rt_at_add_listener v c t reg_session_done E) as [E1 T1].
  eexists. split; [exact E1|]. rewrite T1.
  assert (Ssd : only_sd [reg_session_done]) by (intros r [<-|[]]; reflexivity).
  destruct H as [[[L [HL S]] Hc]|[[D [S Fr]]|[D [[L [HL S]] Fr]]]];
    cbn [rt_listeners rt_set_listeners rt_destroyed].
  - left. split; [|exact Hc]. exists (L ++ [reg_session_done]). rewrite HL.
    split; [reflexivity|apply only_sd_app; assumption].
  - right; left. split; [exact D|]. split; [apply only_sd_app; assumption|exact Fr].
  - right; right. split; [exact D|]. split; [|exact Fr]. exists (L ++ [reg_session_done]).
    rewrite HL. split; [reflexivity|apply only_sd_app; assumption].
Qed.

Lemma lk_session_destroy c v : lk c v -> lk c (r_session_destroy v).
Proof.
  intros K. unfold r_session_destroy. destruct (rv_destroyed v); [exact K|]. cbv zeta.
  assert (K0 : lk c (rv_set_missing (rv_set_destroyed v true) 1))
    by (apply (lk_same c v); [exact K|reflexivity|reflexivity]).
  revert K0. generalize (rv_set_missing (rv_set_destroyed v true) 1) as u. intros u Ku.
  generalize (members (rv_domains u)) as l. intros l.
  assert (Hf : forall l u, lk c u -> lk c (fold_left (fun v n =>
                  r_add_listener (r_topic_destroy (rv_set_missing v (rv_missing v + 1)) n) n
                    reg_session_done) l u)).
  { induction l0 as [|n l0 IH]; intros u0 K0; [exact K0|]. cbn [fold_left]. apply IH.
    apply lk_add_sd, lk_topic_destroy. apply (lk_same c u0); [exact K0|reflexivity|reflexivity]. }
  set (v1 := fold_left _ l u). apply (lk_same c v1); [exact (Hf l u Ku)|reflexivity|reflexivity].
Qed.

Lemma lk_emit_peer c v p :
  lk c v -> lk_ready c v -> lk_fd c (r_emit v c (EPeer p)).
Proof.
  intros [t [E H]] J. unfold r_emit.
  change (rt_at (r_obs (OEmit (Some c) (EPeer p)) v) c) with (rt_at v c). rewrite E.
  change (ev_name (EPeer p)) with EvPeer.
  assert (Hcase : (rt_destroyed t = false /\ lk_waiting c t (rv_trace v)) \/ lk_found c t (rv_trace v)).
  { destruct J as [J|[t' [E' F]]].
    - unfold rv_live in J. rewrite E in J. destruct (rt_destroyed t) eqn:D; [discriminate|].
      destruct H as [Hw|[[D' _]|[D' _]]]; [left; split; [reflexivity|exact Hw]|congruence|congruence].
    - rewrite E in E'. injection E' as <-. right. exact F. }
  destruct Hcase as [[D [[L [HL S]] [H1 [H2 H3]]]]|F].
  - rewrite HL.
    assert (HF : filter (fun r => evname_eqb (rg_event r) EvPeer)
                   (reg_lookup_close c :: reg_lookup_peer c :: L) = [reg_lookup_peer c]).
    { transitivity (reg_lookup_peer c :: filter (fun r => evname_eqb (rg_event r) EvPeer) L);
        [reflexivity|]. rewrite filter_sd_peer by exact S. reflexivity. }
    rewrite HF. cbn [fold_left].
    set (v0 := r_obs (OEmit (Some c) (EPeer p)) v).
    change (r_call c (EPeer p) v0 (reg_lookup_peer c)) with
      (r_obs (OCallback c (CPeer p))
         (r_topic_destroy (r_remove_listener (r_remove_listener v0 c (reg_lookup_peer c)) c
                             (reg_lookup_close c)) c)).
    assert (E0 : rt_at v0 c = Some t) by exact E.
    destruct (rt_at_remove_listener v0 c t (reg_lookup_peer c) E0) as [E1 T1].
    rewrite HL, (remove_peer_listeners c L S) in E1.
    set (v1 := r_remove_listener v0 c (reg_lookup_peer c)) in *.
    destruct (rt_at_remove_listener v1 c _ (reg_lookup_close c) E1) as [E2 T2].
    cbn [rt_listeners rt_set_listeners] in E2. rewrite (remove_close_listeners c L S) in E2.
    set (v2 := r_remove_listener v1 c (reg_lookup_close c)) in *.
    destruct (r_topic_destroy_live v2 c _ E2 D) as [E3 T3].
    exists (mkRTop true (rt_domain t) (rt_announce t) L). split; [exact E3|].
    split; [reflexivity|]. split; [exact S|]. exists p, [], (rv_trace v).
    split; [cbn [rv_trace r_obs app]; rewrite T3, T2, T1; reflexivity|].
    split; [reflexivity|]. split; assumption.
  - destruct F as [D [S Fr]]. rewrite (filter_sd_peer _ S). cbn [fold_left].
    exists t. split; [exact E|].
    apply (found_ext c t [OEmit (Some c) (EPeer p)]); [split; [exact D|split; [exact S|exact Fr]]|reflexivity].
Qed.

Lemma lk_emit_close c v :
  lk c v -> rv_destroyed_at v c = true -> countb (is_topic_close c) (rv_trace v) = 0%nat ->
  lk c (r_emit v c EClose).
Proof.
  intros [t [E H]] D Z. unfold rv_destroyed_at in D. rewrite E in D.
  unfold r_emit. change (rt_at (r_obs (OEmit (Some c) EClose) v) c) with (rt_at v c). rewrite E.
  change (ev_name EClose) with EvClose.
  destruct H as [[[L [HL S]] [H1 [H2 H3]]]|[F|[_ [_ [post [pre [Tr _]]]]]]].
  - rewrite HL.
    assert (HF : filter (fun r => evname_eqb (rg_event r) EvClose)
                   (reg_lookup_close c :: reg_lookup_peer c :: L) = reg_lookup_close c :: L).
    { transitivity (reg_lookup_close c :: filter (fun r => evname_eqb (rg_event r) EvClose) L);
        [reflexivity|]. rewrite filter_sd_close by exact S. reflexivity. }
    rewrite HF. cbn [fold_left].
    set (v1 := r_call c EClose (r_obs (OEmit (Some c) EClose) v) (reg_lookup_close c)).
    assert (E1 : v1 = r_obs (OCallback c (CErr "Lookup failed"%string)) (r_obs (OEmit (Some c) EClose) v))
      by reflexivity.
    destruct (cf_fold_sd c c EClose L v1 S) as [E2 [ext [T2 F2]]].
    exists t. split; [rewrite E2, E1; exact E|].
    right; right. split; [exact D|]. split; [exists L; split; assumption|].
    exists ext, (rv_trace v). rewrite T2, E1. split; [reflexivity|].
    pose proof (c_free_count c ext _ F2 (cb_c c)) as F1.
    pose proof (c_free_count c ext _ F2 (pe_c c)) as F3.
    rewrite !countb_app. split; lia.
  - destruct F as [D' [S Fr]]. rewrite (filter_sd_close _ S).
    destruct (cf_fold_sd c c EClose (rt_listeners t) (r_obs (OEmit (Some c) EClose) v) S)
      as [E2 [ext [T2 F2]]].
    exists t. split; [rewrite E2; exact E|]. right; left. rewrite T2.
    replace (ext ++ rv_trace (r_obs (OEmit (Some c) EClose) v))
      with ((ext ++ [OEmit (Some c) EClose]) ++ rv_trace v) by (rewrite <- app_assoc; reflexivity).
    apply found_ext; [split; [exact D'|split; [exact S|exact Fr]]|].
    rewrite countb_app. pose proof (c_free_count c ext _ F2 (cb_c c)). cbn. lia.
  - exfalso.
    assert (Hi : In (OEmit (Some c) EClose) (rv_trace v))
      by (rewrite Tr; apply in_or_app; right; right; left; reflexivity).
    pose proof (proj1 (countb_zero _ _) Z _ Hi) as X. cbn in X. rewrite Nat.eqb_refl in X. discriminate.
Qed.

Lemma lk_fold_emit {A} c (f : A -> nat) (g : A -> peer) l v :
  wf v -> lk c v -> (forall x, In x l -> (f x < List.length (rv_topics v))%nat) ->
  ((exists x, In x l /\ f x = c) -> lk_ready c v) ->
  lk c (fold_left (fun v x => r_emit v (f x) (EPeer (g x))) l v) /\
  (lk_ready c v -> lk_ready c (fold_left (fun v x => r_emit v (f x) (EPeer (g x))) l v)).
Proof.
  revert v; induction l as [|x l IH]; intros v W K L J; [split; [exact K|tauto]|]. cbn [fold_left].
  assert (L0 := L x (or_introl eq_refl)).
  assert (N0 : EPeer (g x) <> EClose) by discriminate.
  destruct (wf_emit v (f x) (EPeer (g x)) (wf_obs_emit v _ _ W L0 N0) L0)
    as [W1 [_ F1]].
  assert (L1 : forall y, In y l -> (f y < List.length (rv_topics (r_emit v (f x) (EPeer (g x)))))%nat)
    by (intros y Hy; rewrite F1; exact (L y (or_intror Hy))).
  destruct (Nat.eq_dec (f x) c) as [Ex|Nx].
  - assert (K1 : lk_fd c (r_emit v (f x) (EPeer (g x)))).
    { rewrite Ex. apply lk_emit_peer; [exact K|]. apply J. exists x. split; [left; reflexivity|exact Ex]. }
    destruct (IH _ W1 (lk_fd_lk _ _ K1) L1 (fun _ => or_intror K1)) as [K2 J2].
    split; [exact K2|intros _; apply J2; right; exact K1].
  - assert (C1 : c_frame c v (r_emit v (f x) (EPeer (g x)))).
    { apply cf_emit_other; [exact Nx|]. intros t r Et Hr. exact (wf_regs _ W _ _ _ Et Hr). }
    assert (R1 : lk_ready c v -> lk_ready c (r_emit v (f x) (EPeer (g x))))
      by (intros Rv; exact (lk_ready_frame _ _ _ Rv C1)).
    destruct (IH _ W1 (lk_frame _ _ _ K C1) L1) as [K2 J2].
    + intros [y [Hy Ey]]. apply R1, J. exists y. split; [right; exact Hy|exact Ey].
    + split; [exact K2|intros Rv; apply J2, R1, Rv].
Qed.

Lemma lk_ondhtdata c v n d : wf v -> lk c v -> lk c (r_ondhtdata v n d).
Proof.
  intros W K. unfold r_ondhtdata. destruct (rt_at v n) as [t|] eqn:E; [|exact K].
  destruct (rt_destroyed t) eqn:D; [exact K|].
  pose proof (rt_at_lt _ _ _ E) as L.
  assert (R : n = c -> lk_ready c v) by (intros <-; left; unfold rv_live; rewrite E, D; reflexivity).
  destruct (wf_fold_emit (fun _ => n) (fun hp => EPeer (mkPeer (fst hp) (snd hp) true None))
              (dd_localPeers d) v W) as [W1 [_ F1]]; [intros; split; [exact L|discriminate]|].
  destruct (lk_fold_emit c (fun _ => n) (fun hp => mkPeer (fst hp) (snd hp) true None)
              (dd_localPeers d) v W K) as [K1 J1].
  - intros; exact L.
  - intros [_ [_ Ex]]. exact (R Ex).
  - destruct (lk_fold_emit c (fun _ => n) (fun hp => mkPeer (fst hp) (snd hp) false (Some (dd_node d)))
                (dd_peers d) _ W1 K1) as [K2 _].
    + intros; rewrite F1; exact L.
    + intros [_ [_ Ex]]. exact (J1 (R Ex)).
    + exact K2.
Qed.

Lemma lk_onmdnsresponse c v res addr : wf v -> lk c v -> lk c (r_onmdnsresponse v res addr).
Proof.
  unfold r_onmdnsresponse. generalize (p_answers res) as l. intros l. revert v.
  induction l as [|a l IH]; intros v W K; [exact K|]. cbn [fold_left]. apply IH.
  - destruct a as [name target port| |]; try exact W.
    destruct (dom_get (rv_domains v) name) as [set|] eqn:E; [|exact W].
    apply (wf_fold_emit (fun n => n) (fun _ => EPeer _) set v W).
    intros m Hm. split; [|discriminate].
    destruct (wf_members _ W _ _ _ (dom_get_in _ _ _ E) Hm) as [a' [ls Ha]].
    exact (rt_at_lt _ _ _ Ha).
  - destruct a as [name target port| |]; try exact K.
    destruct (dom_get (rv_domains v) name) as [set|] eqn:E; [|exact K].
    refine (proj1 (lk_fold_emit c (fun n => n) (fun _ => mkPeer _ port true None) set v W K _ _)).
    + intros m Hm. destruct (wf_members _ W _ _ _ (dom_get_in _ _ _ E) Hm) as [a' [ls Ha]].
      exact (rt_at_lt _ _ _ Ha).
    + intros [m [Hm Em]]. cbv beta in Em. subst m. left.
      destruct (wf_members _ W _ _ _ (dom_get_in _ _ _ E) Hm) as [a' [ls Ha]].
      unfold rv_live. rewrite Ha. reflexivity.
Qed.

Lemma lk_new_topic c v name ann : lk c v -> lk c (r_new_topic v name ann).
Proof.
  intros K. apply (lk_frame c v); [exact K|].
  split; [|exists []; split; [reflexivity|apply c_free_nil]].
  destruct K as [t [E _]]. rewrite rt_at_new.
  pose proof (rt_at_lt _ _ _ E) as L. apply Nat.ltb_lt in L. rewrite L. reflexivity.
Qed.

Lemma lk_lookupOne_other c v name : lk c v -> lk c (r_lookupOne v name).
Proof.
  intros K.
  assert (L : (c < List.length (rv_topics v))%nat) by (destruct K as [t [E _]]; exact (rt_at_lt _ _ _ E)).
  assert (Hn : List.length (rv_topics v) <> c) by lia.
  unfold r_lookupOne. cbv zeta.
  apply (lk_frame c (r_add_listener (r_new_topic v name false) (List.length (rv_topics v))
                       (reg_lookup_close (List.length (rv_topics v))))).
  - apply (lk_frame c (r_new_topic v name false)); [apply lk_new_topic; exact K|].
    apply cf_add_listener; exact Hn.
  - apply cf_add_listener; exact Hn.
Qed.

Lemma lk_take_run c v v1 tk :
  wf v -> rv_topics v1 = rv_topics v -> rv_trace v1 = rv_trace v ->
  Permutation (rv_tasks v) (tk :: rv_tasks v1) -> lk c v -> lk c (r_run v1 tk).
Proof.
  intros W T R P K. assert (K1 : lk c v1) by exact (lk_same c v v1 K T R).
  assert (At : forall m, rt_at v1 m = rt_at v m) by (intros m; unfold rt_at; rewrite T; reflexivity).
  case_eq tk; [intros n Etk|intros Etk|intros n Etk|intros n Etk]; cbn [r_run].
  - destruct (Nat.eq_dec n c) as [->|Hn].
    + pose proof (wf_close _ W c) as C. rewrite (countb_perm _ _ _ P), countb_cons, Etk in C.
      cbn [is_close_task] in C. rewrite Nat.eqb_refl in C.
      destruct (rv_destroyed_at v c) eqn:D; [|lia].
      apply lk_emit_close; [exact K1| |].
      * unfold rv_destroyed_at in *. rewrite At. exact D.
      * rewrite R. lia.
    + apply (lk_frame c v1); [exact K1|]. apply cf_emit_other; [exact Hn|].
      intros t r Et Hr. rewrite At in Et. exact (wf_regs _ W _ _ _ Et Hr).
  - exact (lk_frame _ _ _ K1 (cf_session_done c v1)).
  - exact K1.
  - exact K1.
Qed.

Lemma lk_rstep c v v' : wf v -> lk c v -> rstep v v' -> lk c v'.
Proof.
  intros W K S.
  destruct S as [v|v name ann _|v name _|v n|v|v tk rest E|v l1 tk l2 E|v n d|v n err Hl|v p addr _].
  - exact K.
  - apply lk_new_topic; exact K.
  - apply lk_lookupOne_other; exact K.
  - apply lk_topic_destroy; exact K.
  - apply lk_session_destroy; exact K.
  - apply (lk_take_run c v); [exact W|reflexivity|reflexivity| |exact K].
    unfold rv_tasks. cbn [rv_set_ticks rv_ticks rv_io]. rewrite E. reflexivity.
  - apply (lk_take_run c v); [exact W|reflexivity|reflexivity| |exact K].
    unfold rv_tasks. cbn [rv_set_io rv_ticks rv_io]. rewrite E.
    rewrite !app_assoc. apply Permutation_sym, Permutation_middle.
  - apply lk_ondhtdata; assumption.
  - apply (lk_frame c v); [exact K|]. apply cf_emit_update.
    intros t r Et Hr. exact (wf_regs _ W _ _ _ Et Hr).
  - apply lk_onmdnsresponse; assumption.
Qed.

Lemma lk_rsteps c v v' : wf v -> lk c v -> rsteps v v' -> lk c v'.
Proof.
  intros W K S. revert W K. induction S as [v|v1 v2 v3 H _ IH]; intros W K; [exact K|].
  apply IH; [exact (wf_rstep _ _ W H)|exact (lk_rstep _ _ _ W K H)].
Qed.

Lemma wf_c_free v c : wf v -> c = List.length (rv_topics v) -> c_free c (rv_trace v).
Proof.
  intros W Hc o Ho. destruct (is_c_obs c o) eqn:X; [|reflexivity].
  pose proof (wf_handles _ W _ _ Ho (c_obs_handle _ _ X)). lia.
Qed.

Lemma lk_lookupOne_new v name : wf v -> lk (List.length (rv_topics v)) (r_lookupOne v name).
Proof.
  intros W. set (c := List.length (rv_topics v)).
  assert (E0 : rt_at (r_new_topic v name false) c = Some (mkRTop false name false [])).
  { rewrite rt_at_new. unfold c. rewrite Nat.ltb_irrefl, Nat.eqb_refl. reflexivity. }
  unfold r_lookupOne. cbv zeta. fold c.
  destruct (rt_at_add_listener _ c _ (reg_lookup_close c) E0) as [E1 T1].
  destruct (rt_at_add_listener _ c _ (reg_lookup_peer c) E1) as [E2 T2].
  eexists. split; [exact E2|]. left. rewrite T2, T1.
  pose proof (wf_c_free v c W eq_refl) as F.
  change (rv_trace (r_new_topic v name false)) with (rv_trace v).
  split; [exists []; split; [reflexivity|intros r []]|].
  split; [exact (c_free_count _ _ _ F (cb_c c))|].
  split; [exact (c_free_count _ _ _ F (pe_c c))|exact (c_free_count _ _ _ F (tc_c c))].
Qed.

Lemma countb_rel (f : obs -> bool) l :
  (forall o, f o = true -> is_rel_obs o = true) -> countb f (filter is_rel_obs l) = countb f l.
Proof.
  intros H. induction l as [|o l IH]; [reflexivity|]. cbn [filter].
  destruct (is_rel_obs o) eqn:R; rewrite !countb_cons, IH; [reflexivity|].
  destruct (f o) eqn:F; [rewrite (H o F) in R; discriminate|reflexivity].
Qed.

Lemma in_split_count {A} (f : A -> bool) x y post pre :
  In x (post ++ y :: pre) -> f x = true -> countb f post = 0%nat -> countb f pre = 0%nat -> x = y.
Proof.
  intros Hx F P Q. apply in_app_or in Hx. destruct Hx as [Hx|[->|Hx]]; [|reflexivity|].
  - rewrite (proj1 (countb_zero _ _) P x Hx) in F. discriminate.
  - rewrite (proj1 (countb_zero _ _) Q x Hx) in F. discriminate.
Qed.

Lemma in_rel_trace o l : In o l -> is_rel_obs o = true -> In o (filter is_rel_obs l).
Proof. intros H R. apply filter_In. split; assumption. Qed.

Lemma lk_after_lookupOne w key rid w2 :
  reachable w -> w_destroyed w = false -> steps (lookupOne w key rid) w2 ->
  lk (List.length (w_topics w)) (rproj w2).
Proof.
  intros R D S. pose proof (reachable_wf w R) as W.
  apply (lk_rsteps _ (rproj (lookupOne w key rid))).
  - rewrite rproj_lookupOne by exact D. apply wf_lookupOne. exact W.
  - rewrite rproj_lookupOne by exact D.
    replace (List.length (w_topics w)) with (List.length (rv_topics (rproj w)))
      by (cbn [rproj rv_topics]; apply length_map).
    apply lk_lookupOne_new. exact W.
  - exact (steps_rsteps _ _ S).
Qed.

(** After [lookupOne(key, cb)] on a reachable live session, in every later
    state: [cb] was called at most once, and exactly once after the Topic's
    'close'; a call with a peer came right after the Topic's first 'peer'
    event and its destruction; a call with an error came right after its
    'close', with no 'peer' event. *)
Lemma lookupOne_callback_core (w : world) (key rid : bytes) (c : nat) (w2 : world) :
  reachable w -> w_destroyed w = false -> c = List.length (w_topics w) ->
  steps (lookupOne w key rid) w2 ->
  (countb (is_callback c) (w_trace w2) <= 1)%nat /\
  (In (OEmit (Some c) EClose) (w_trace w2) -> countb (is_callback c) (w_trace w2) = 1%nat) /\
  (forall p, In (OCallback c (CPeer p)) (w_trace w2) ->
     option_map t_destroyed (get_topic w2 c) = Some true /\
     exists post pre, filter is_rel_obs (w_trace w2) =
       post ++ OCallback c (CPeer p) :: ODestroy c :: OEmit (Some c) (EPeer p) :: pre /\
       countb (is_peer_emit c) pre = 0%nat) /\
  (forall msg, In (OCallback c (CErr msg)) (w_trace w2) ->
     msg = "Lookup failed"%string /\ option_map t_destroyed (get_topic w2 c) = Some true /\
     exists post pre, filter is_rel_obs (w_trace w2) =
       post ++ OCallback c (CErr msg) :: OEmit (Some c) EClose :: pre /\
       countb (is_peer_emit c) (post ++ pre) = 0%nat).
Proof.
  intros R D Hc S. subst c.
  destruct (lk_after_lookupOne w key rid w2 R D S) as [t [E Ph]].
  set (c := List.length (w_topics w)) in *.
  rewrite rt_at_rproj in E. cbn [rproj rv_trace] in Ph.
  assert (Hd : option_map t_destroyed (get_topic w2 c) = Some (rt_destroyed t)).
  { destruct (get_topic w2 c) as [t0|]; [|discriminate]. injection E as <-. reflexivity. }
  assert (Hcb : countb (is_callback c) (w_trace w2) =
                countb (is_callback c) (filter is_rel_obs (w_trace w2))).
  { symmetry. apply countb_rel. intros [] F; try discriminate; reflexivity. }
  set (tr := filter is_rel_obs (w_trace w2)) in *.
  destruct Ph as [[_ [H1 [_ H3]]]|[[D1 [_ [p0 [post [pre [Tr [P0 [Q0 Q1]]]]]]]]|
                  [D1 [_ [post [pre [Tr [P0 Q0]]]]]]]].
  - (* waiting *)
    split; [lia|]. split.
    + intros Hi. exfalso.
      pose proof (proj1 (countb_zero _ _) H3 _ (in_rel_trace _ _ Hi eq_refl)) as X.
      cbn in X. rewrite Nat.eqb_refl in X. discriminate.
    + split.
      * intros p Hi. exfalso. pose proof (proj1 (countb_zero _ _) H1 _ (in_rel_trace _ _ Hi eq_refl)) as X.
        cbn in X. rewrite Nat.eqb_refl in X. discriminate.
      * intros msg Hi. exfalso. pose proof (proj1 (countb_zero _ _) H1 _ (in_rel_trace _ _ Hi eq_refl)) as X.
        cbn in X. rewrite Nat.eqb_refl in X. discriminate.
  - (* found *)
    assert (C1 : countb (is_callback c) tr = 1%nat).
    { rewrite Tr, countb_app, !countb_cons. cbn [is_callback]. rewrite Nat.eqb_refl.
      cbn [is_callback]. lia. }
    split; [lia|]. split; [intros _; lia|]. split.
    + intros p Hi.
      pose proof (in_split_count (is_callback c) _ _ post
                    (ODestroy c :: OEmit (Some c) (EPeer p0) :: pre)
                    ltac:(rewrite <- Tr; exact (in_rel_trace _ _ Hi eq_refl))
                    ltac:(cbn; apply Nat.eqb_refl) P0
                    ltac:(rewrite !countb_cons; cbn [is_callback]; exact Q0)) as X.
      injection X as <-. rewrite Hd, D1. split; [reflexivity|].
      exists post, pre. split; [exact Tr|exact Q1].
    + intros msg Hi. exfalso.
      pose proof (in_split_count (is_callback c) _ _ post
                    (ODestroy c :: OEmit (Some c) (EPeer p0) :: pre)
                    ltac:(rewrite <- Tr; exact (in_rel_trace _ _ Hi eq_refl))
                    ltac:(cbn; apply Nat.eqb_refl) P0
                    ltac:(rewrite !countb_cons; cbn [is_callback]; exact Q0)) as X.
      discriminate X.
  - (* failed *)
    rewrite countb_app in P0, Q0.
    assert (C1 : countb (is_callback c) tr = 1%nat).
    { rewrite Tr, countb_app, !countb_cons. cbn [is_callback]. rewrite Nat.eqb_refl. lia. }
    assert (Pre : countb (is_callback c) (OEmit (Some c) EClose :: pre) = 0%nat)
      by (rewrite countb_cons; cbn [is_callback]; lia).
    split; [lia|]. split; [intros _; lia|]. split.
    + intros p Hi. exfalso.
      pose proof (in_split_count (is_callback c) _ _ post _
                    ltac:(rewrite <- Tr; exact (in_rel_trace _ _ Hi eq_refl))
                    ltac:(cbn; apply Nat.eqb_refl) ltac:(lia) Pre) as X.
      discriminate X.
    + intros msg Hi.
      pose proof (in_split_count (is_callback c) _ _ post _
                    ltac:(rewrite <- Tr; exact (in_rel_trace _ _ Hi eq_refl))
                    ltac:(cbn; apply Nat.eqb_refl) ltac:(lia) Pre) as X.
      injection X as ->. split; [reflexivity|]. rewrite Hd, D1. split; [reflexivity|].
      exists post, pre. split; [exact Tr|rewrite countb_app; lia].
Qed.

(** C4 counterexample: after [lookupOne], the lookup stream ends. The Topic's
    DHT loop does not close the Topic: it emits 'update' and schedules the
    next lookup, the Topic stays live, and [cb] is not called. *)
Lemma C4_stream_end_no_callback :
  reachable w_lookupOne /\ step w_lookupOne (dht_done w_lookupOne 0 None) /\
  countb (is_callback 0) (w_trace (dht_done w_lookupOne 0 None)) = 0%nat /\
  In (OEmit (Some 0%nat) (EUpdate None)) (w_trace (dht_done w_lookupOne 0 None)) /\
  option_map t_destroyed (get_topic (dht_done w_lookupOne 0 None) 0) = Some false /\
  In (TDhtLoop 0) (map snd (w_io (dht_done w_lookupOne 0 None))).
Proof.
  split; [exists None; apply steps_cons with w_lookupOne; [apply st_lookupOne|apply steps_refl]|].
  split; [apply st_stream_end|].
  vm_compute. split; [reflexivity|]. split; [tauto|]. split; [reflexivity|tauto].
Qed.


(* ------------------------------------------------------------------ *)
(** ** The count of [Discovery#destroy] *)

Lemma in_ms_spec ms n : in_ms ms n = true <-> In n ms.
Proof.
  unfold in_ms. rewrite existsb_exists. split.
  - intros [x [Hx E]]. apply Nat.eqb_eq in E. subst. exact Hx.
  - intros H. exists n. split; [exact H|apply Nat.eqb_refl].
Qed.

Lemma in_ms_false ms n : ~ In n ms -> in_ms ms n = false.
Proof. intros H. destruct (in_ms ms n) eqn:E; [|reflexivity]. apply in_ms_spec in E. contradiction. Qed.

Lemma in_ms_app_one ds n m : in_ms (ds ++ [n]) m = in_ms ds m || Nat.eqb m n.
Proof. unfold in_ms. rewrite existsb_app. cbn. rewrite orb_false_r. reflexivity. Qed.

Lemma registration_eqb_eq a b : registration_eqb a b = true -> a = b.
Proof.
  destruct a as [ea fa oa], b as [eb fb ob]. unfold registration_eqb. cbn [rg_event rg_fn rg_once].
  intros H. apply andb_prop in H as [H H3]. apply andb_prop in H as [H1 H2].
  destruct ea, eb; try discriminate; destruct fa, fb; cbn in H2; try discriminate;
    try (apply Nat.eqb_eq in H2; subst); destruct oa, ob; try discriminate; reflexivity.
Qed.

Lemma close_pending ms m tk : In m ms -> is_close_task m tk = true -> is_pending ms tk = true.
Proof.
  intros Hm. destruct tk as [n| | |]; cbn; try discriminate.
  intros E. apply Nat.eqb_eq in E. subst. apply in_ms_spec. exact Hm.
Qed.

Lemma countb_mono {A} (f g : A -> bool) l :
  (forall x, f x = true -> g x = true) -> (countb f l <= countb g l)%nat.
Proof.
  intros H. induction l as [|x l IH]; [apply Nat.le_refl|]. rewrite !countb_cons.
  destruct (f x) eqn:E; [rewrite (H x E)|destruct (g x)]; lia.
Qed.

Lemma countb_in {A} (f : A -> bool) l : (0 < countb f l)%nat -> exists x, In x l /\ f x = true.
Proof.
  intros H. destruct (List.existsb f l) eqn:E.
  - apply existsb_exists in E. exact E.
  - exfalso. assert (Z : countb f l = 0%nat); [|lia].
    apply countb_zero. intros x Hx. destruct (f x) eqn:F; [|reflexivity].
    assert (existsb f l = true) by (apply existsb_exists; exists x; split; assumption). congruence.
Qed.

Lemma topic_close_eq m o : is_topic_close m o = true -> o = OEmit (Some m) EClose.
Proof.
  destruct o as [[n|] e| | | | | | | | | | |]; cbn; try discriminate.
  destruct e; try discriminate. intros E. apply Nat.eqb_eq in E. subst. reflexivity.
Qed.

Lemma count_add_free {A} (f : A -> bool) add l l' :
  (forall x, In x add -> f x = false) -> Permutation l' (add ++ l) -> countb f l' = countb f l.
Proof.
  intros H P. rewrite (countb_perm f _ _ P), countb_app.
  rewrite (proj2 (countb_zero f add) H). reflexivity.
Qed.

Lemma split_free {A} (x : A) ext tr post pre :
  (forall o, In o ext -> o <> x) -> ext ++ tr = post ++ x :: pre ->
  exists post0, tr = post0 ++ x :: pre.
Proof.
  revert post; induction ext as [|e ext IH]; intros post H E; [exists post; exact E|].
  destruct post as [|p post]; cbn in E; injection E as E1 E2.
  - exfalso. exact (H e (or_introl eq_refl) E1).
  - apply (IH post); [intros o Ho; apply H; right; exact Ho|exact E2].
Qed.

Lemma s_free_count ms ext : s_free ms ext ->
  countb is_session_close ext = 0%nat /\ forall m, In m ms -> countb (is_topic_close m) ext = 0%nat.
Proof.
  intros F. split; [apply countb_zero; intros o Ho; exact (proj1 (F o Ho))|].
  intros m Hm. apply countb_zero. intros o Ho. exact (proj2 (F o Ho) m Hm).
Qed.

Lemma sinv_frame ms k v v' : sinv ms k v -> s_frame ms v v' -> sinv ms k v'.
Proof.
  intros S [D [M [Mon [Sd [[add [P A]] [ext [T F]]]]]]].
  assert (Cf : forall f, (forall tk, f tk = true -> is_pending ms tk = true) ->
                 countb f (rv_tasks v') = countb f (rv_tasks v)).
  { intros f Hf. apply (count_add_free f add _ _); [|exact P].
    intros tk Hi. destruct (f tk) eqn:E; [|reflexivity].
    pose proof (A tk Hi) as X. rewrite (Hf _ E) in X. discriminate. }
  destruct (s_free_count ms ext F) as [F1 F2].
  constructor.
  - rewrite D. exact (si_destroyed _ _ _ S).
  - intros m Hm. apply Mon, (si_ms _ _ _ S), Hm.
  - intros n. rewrite Sd. apply (si_sd _ _ _ S).
  - intros m Hm. rewrite (Cf (is_close_task m)) by (intros tk E; exact (close_pending ms m tk Hm E)).
    rewrite T, countb_app, (F2 m Hm). exact (si_wfc _ _ _ S m Hm).
  - rewrite M, (Cf _ (fun tk E => E)). exact (si_missing _ _ _ S).
  - rewrite M, T, countb_app, F1. exact (si_close _ _ _ S).
  - intros post pre E m Hm. rewrite T in E.
    destruct (split_free (OEmit None EClose) ext (rv_trace v) post pre) as [post0 E0];
      [|exact E|exact (si_order _ _ _ S post0 pre E0 m Hm)].
    intros o Ho ->. pose proof (proj1 (F _ Ho)) as X. discriminate X.
Qed.

Lemma sfr_refl ms v : s_frame ms v v.
Proof.
  split; [reflexivity|]. split; [reflexivity|]. split; [tauto|]. split; [reflexivity|].
  split; [exists []; split; [apply Permutation_refl|intros _ []]|].
  exists []. split; [reflexivity|intros _ []].
Qed.

Lemma sfr_trans ms v1 v2 v3 : s_frame ms v1 v2 -> s_frame ms v2 v3 -> s_frame ms v1 v3.
Proof.
  intros [D1 [M1 [Mon1 [Sd1 [[a1 [P1 A1]] [e1 [T1 F1]]]]]]]
         [D2 [M2 [Mon2 [Sd2 [[a2 [P2 A2]] [e2 [T2 F2]]]]]]].
  split; [congruence|]. split; [congruence|]. split; [auto|]. split; [congruence|].
  split.
  - exists (a2 ++ a1). split.
    + rewrite <- app_assoc. apply (Permutation_trans P2). apply Permutation_app_head. exact P1.
    + intros tk Hi. apply in_app_or in Hi as [Hi|Hi]; auto.
  - exists (e2 ++ e1). split; [rewrite T2, T1, app_assoc; reflexivity|].
    intros o Ho. apply in_app_or in Ho as [Ho|Ho]; auto.
Qed.

Lemma sfr_same ms v v' :
  rv_destroyed v' = rv_destroyed v -> rv_missing v' = rv_missing v -> rv_topics v' = rv_topics v ->
  rv_tasks v' = rv_tasks v -> rv_trace v' = rv_trace v -> s_frame ms v v'.
Proof.
  intros D M T K R.
  assert (At : forall n, rt_at v' n = rt_at v n) by (intros n; unfold rt_at; rewrite T; reflexivity).
  split; [exact D|]. split; [exact M|].
  split; [intros n; unfold rv_destroyed_at; rewrite At; tauto|].
  split; [intros n; unfold sdc; rewrite At; reflexivity|].
  split; [exists []; split; [rewrite K; apply Permutation_refl|intros _ []]|].
  exists []. split; [exact R|intros _ []].
Qed.

Lemma sfr_obs ms v o :
  is_session_close o = false -> (forall m, In m ms -> is_topic_close m o = false) ->
  s_frame ms v (r_obs o v).
Proof.
  intros H1 H2. split; [reflexivity|]. split; [reflexivity|]. split; [tauto|]. split; [reflexivity|].
  split; [exists []; split; [apply Permutation_refl|intros _ []]|].
  exists [o]. split; [reflexivity|]. intros o' [<-|[]]. split; assumption.
Qed.

Lemma sfr_put ms v n t t' :
  rt_at v n = Some t -> (rt_destroyed t = true -> rt_destroyed t' = true) ->
  countb is_sd (rt_listeners t') = countb is_sd (rt_listeners t) ->
  s_frame ms v (r_put v n t').
Proof.
  intros E Dt St.
  assert (At : forall m, rt_at (r_put v n t') m = if Nat.eqb n m then Some t' else rt_at v m).
  { intros m. rewrite rt_at_put. pose proof (rt_at_lt _ _ _ E) as L. apply Nat.ltb_lt in L.
    rewrite L. reflexivity. }
  split; [reflexivity|]. split; [reflexivity|].
  split; [intros m; unfold rv_destroyed_at; rewrite At;
          destruct (Nat.eqb n m) eqn:Q; [apply Nat.eqb_eq in Q; subst; rewrite E; exact Dt|tauto]|].
  split; [intros m; unfold sdc; rewrite At;
          destruct (Nat.eqb n m) eqn:Q; [apply Nat.eqb_eq in Q; subst; rewrite E; exact St|reflexivity]|].
  split; [exists []; split; [apply Permutation_refl|intros _ []]|].
  exists []. split; [reflexivity|intros _ []].
Qed.

Lemma countb_rev {A} (f : A -> bool) l : countb f (rev l) = countb f l.
Proof.
  induction l as [|x l IH]; [reflexivity|]. cbn [rev].
  rewrite countb_app, IH, (countb_cons f x l), (countb_cons f x []), countb_nil. lia.
Qed.

Lemma countb_remove_first r l :
  is_sd r = false -> countb is_sd (remove_first r l) = countb is_sd l.
Proof.
  intros N. induction l as [|x l IH]; [reflexivity|]. cbn [remove_first].
  destruct (registration_eqb x r) eqn:E.
  - apply registration_eqb_eq in E. subst x. rewrite countb_cons, N. reflexivity.
  - rewrite !countb_cons, IH. reflexivity.
Qed.

Lemma sfr_remove_listener ms v n r : is_sd r = false -> s_frame ms v (r_remove_listener v n r).
Proof.
  intros N. unfold r_remove_listener. destruct (rt_at v n) as [t|] eqn:E; [|apply sfr_refl].
  apply (sfr_put ms v n t); [exact E|intros D; exact D|].
  cbn [rt_listeners rt_set_listeners]. rewrite countb_rev, countb_remove_first, countb_rev by exact N.
  reflexivity.
Qed.

Lemma sfr_add_io ms v tk : is_pending ms tk = false -> s_frame ms v (rv_set_io v (rv_io v ++ [tk])).
Proof.
  intros N. split; [reflexivity|]. split; [reflexivity|]. split; [tauto|]. split; [reflexivity|].
  split; [|exists []; split; [reflexivity|intros _ []]].
  exists [tk]. split; [|intros x [<-|[]]; exact N].
  unfold rv_tasks. cbn [rv_set_io rv_ticks rv_io]. rewrite app_assoc.
  apply Permutation_sym, Permutation_cons_append.
Qed.

Lemma sfr_add_ticks ms v tk : is_pending ms tk = false -> s_frame ms v (rv_set_ticks v (rv_ticks v ++ [tk])).
Proof.
  intros N. split; [reflexivity|]. split; [reflexivity|]. split; [tauto|]. split; [reflexivity|].
  split; [|exists []; split; [reflexivity|intros _ []]].
  exists [tk]. split; [|intros x [<-|[]]; exact N].
  unfold rv_tasks. cbn [rv_set_ticks rv_ticks rv_io]. rewrite <- app_assoc.
  change ([tk] ++ rv_ticks v ++ rv_io v) with (tk :: rv_ticks v ++ rv_io v).
  apply Permutation_sym. apply Permutation_middle.
Qed.

Lemma sfr_destroyed_at ms v v' n :
  s_frame ms v v' -> (In n ms -> rv_destroyed_at v n = true) -> In n ms -> rv_destroyed_at v' n = true.
Proof. intros [_ [_ [Mon _]]] H Hn. exact (Mon n (H Hn)). Qed.

Lemma sfr_topic_destroy ms v n :
  (In n ms -> rv_destroyed_at v n = true) -> s_frame ms v (r_topic_destroy v n).
Proof.
  intros H. unfold r_topic_destroy. destruct (rt_at v n) as [t|] eqn:E; [|apply sfr_refl].
  destruct (rt_destroyed t) eqn:Dt; [apply sfr_refl|].
  assert (Hn : in_ms ms n = false).
  { apply in_ms_false. intros Hi. specialize (H Hi). unfold rv_destroyed_at in H.
    rewrite E, Dt in H. discriminate. }
  assert (P : is_pending ms (TTopicClose n) = false) by exact Hn.
  set (v1 := r_put v n (mkRTop true (rt_domain t) (rt_announce t) (rt_listeners t))).
  assert (F1 : s_frame ms v (rv_set_domains (r_obs (ODestroy n) v1)
                                 (dom_remove (rv_domains (r_obs (ODestroy n) v1)) (rt_domain t) n))).
  { apply sfr_trans with v1; [apply (sfr_put ms v n t); [exact E|intros; reflexivity|reflexivity]|].
    apply sfr_trans with (r_obs (ODestroy n) v1); [apply sfr_obs; [reflexivity|intros; reflexivity]|].
    apply sfr_same; reflexivity. }
  destruct (rt_announce t); (eapply sfr_trans; [exact F1|]).
  - apply sfr_add_io. exact P.
  - apply sfr_add_ticks. exact P.
Qed.

Lemma sfr_call ms n e v r :
  (r = reg_lookup_close n \/ r = reg_lookup_peer n) -> (In n ms -> rv_destroyed_at v n = true) ->
  s_frame ms v (r_call n e v r).
Proof.
  intros [-> | ->] H.
  - apply sfr_obs; [reflexivity|intros; reflexivity].
  - unfold r_call. cbn [rg_once rg_fn reg_lookup_peer].
    assert (F1 := sfr_remove_listener ms v n (reg_lookup_peer n) eq_refl).
    destruct e as [p| |]; [|exact F1|exact F1].
    set (v1 := r_remove_listener v n (reg_lookup_peer n)) in *.
    assert (F2 := sfr_remove_listener ms v1 n (mkReg EvClose (LLookupClose n) false) eq_refl).
    set (v2 := r_remove_listener v1 n _) in *.
    assert (F12 := sfr_trans _ _ _ _ F1 F2).
    assert (F3 := sfr_topic_destroy ms v2 n (sfr_destroyed_at ms v v2 n F12 H)).
    apply (sfr_trans _ _ _ _ (sfr_trans _ _ _ _ F12 F3)).
    apply sfr_obs; [reflexivity|intros; reflexivity].
Qed.

Lemma sfr_fold_call ms n e L v :
  (forall r, In r L -> r = reg_lookup_close n \/ r = reg_lookup_peer n) ->
  (In n ms -> rv_destroyed_at v n = true) ->
  s_frame ms v (fold_left (r_call n e) L v).
Proof.
  revert v; induction L as [|r L IH]; intros v A H; [apply sfr_refl|]. cbn [fold_left].
  assert (F1 := sfr_call ms n e v r (A r (or_introl eq_refl)) H).
  apply (sfr_trans _ _ _ _ F1). apply IH; [intros x Hx; apply A; right; exact Hx|].
  exact (sfr_destroyed_at _ _ _ _ F1 H).
Qed.

Lemma sfr_emit ms v n e :
  e <> EClose ->
  (forall t r, rt_at v n = Some t -> In r (rt_listeners t) -> allowed_reg n r) ->
  (In n ms -> rv_destroyed_at v n = true) ->
  s_frame ms v (r_emit v n e).
Proof.
  intros Ne A H. unfold r_emit.
  assert (F1 : s_frame ms v (r_obs (OEmit (Some n) e) v)).
  { apply sfr_obs; [reflexivity|]. intros m _. destruct e; [reflexivity|reflexivity|congruence]. }
  change (rt_at (r_obs (OEmit (Some n) e) v) n) with (rt_at v n).
  destruct (rt_at v n) as [t|] eqn:E; [|exact F1].
  apply (sfr_trans _ _ _ _ F1). apply sfr_fold_call; [|exact (sfr_destroyed_at _ _ _ _ F1 H)].
  intros r Hr. apply filter_In in Hr as [Hr Ev].
  destruct (A t r eq_refl Hr) as [ -> | [ -> | -> ] ]; [| left; reflexivity | right; reflexivity].
  exfalso. destruct e; cbn in Ev; [discriminate|discriminate|congruence].
Qed.

Lemma si_session_done ms k v : sinv ms (S k) v -> sinv ms k (r_session_done v).
Proof.
  intros S. pose proof (si_missing _ _ _ S) as M. pose proof (si_close _ _ _ S) as C.
  assert (N0 : Z.eqb (rv_missing v) 0 = false) by (apply Z.eqb_neq; rewrite M; lia).
  rewrite N0 in C. unfold r_session_done.
  destruct (Z.eqb (rv_missing v - 1) 0) eqn:Z0.
  - apply Z.eqb_eq in Z0.
    assert (P0 : countb (is_pending ms) (rv_tasks v) = 0%nat) by lia.
    assert (K0 : k = 0%nat) by lia. subst k.
    constructor.
    + exact (si_destroyed _ _ _ S).
    + exact (si_ms _ _ _ S).
    + exact (si_sd _ _ _ S).
    + intros m Hm. cbn [r_obs rv_trace rv_tasks]. rewrite countb_cons.
      exact (si_wfc _ _ _ S m Hm).
    + cbn [r_obs rv_set_missing rv_missing]. change (rv_tasks (r_obs (OEmit None EClose)
        (rv_set_missing v (rv_missing v - 1)))) with (rv_tasks v). lia.
    + cbn [r_obs rv_set_missing rv_missing rv_trace]. rewrite countb_cons, C, Z0. reflexivity.
    + intros post pre E m Hm. cbn [r_obs rv_set_missing rv_trace] in E.
      destruct post as [|o post]; cbn in E.
      * injection E as E2. subst pre. pose proof (si_wfc _ _ _ S m Hm) as W1.
        pose proof (countb_mono (is_close_task m) (is_pending ms) (rv_tasks v)
                      (fun tk Etk => close_pending ms m tk Hm Etk)) as W2.
        destruct (countb_in (is_topic_close m) (rv_trace v)) as [x [Hx Ex]]; [lia|].
        rewrite (topic_close_eq _ _ Ex) in Hx. exact Hx.
      * injection E as E1 E2. exfalso. subst o.
        assert (Hi : In (OEmit None EClose) (rv_trace v))
          by (rewrite E2; apply in_or_app; right; left; reflexivity).
        pose proof (countb_pos is_session_close _ _ Hi eq_refl). lia.
  - constructor.
    + exact (si_destroyed _ _ _ S).
    + exact (si_ms _ _ _ S).
    + exact (si_sd _ _ _ S).
    + exact (si_wfc _ _ _ S).
    + cbn [rv_set_missing rv_missing].
      change (rv_tasks (rv_set_missing v (rv_missing v - 1))) with (rv_tasks v). lia.
    + cbn [rv_set_missing rv_missing rv_trace]. rewrite Z0. exact C.
    + exact (si_order _ _ _ S).
Qed.

Lemma si_fold_close ms n L : forall k v,
  sinv ms k v -> (forall r, In r L -> r = reg_session_done \/ r = reg_lookup_close n) ->
  countb is_sd L = k -> sinv ms 0 (fold_left (r_call n EClose) L v).
Proof.
  induction L as [|r L IH]; intros k v S A K; [cbn in K; subst k; exact S|]. cbn [fold_left].
  destruct (A r (or_introl eq_refl)) as [->| ->].
  - rewrite countb_cons in K. cbn in K. destruct k as [|k]; [discriminate|].
    apply (IH k); [exact (si_session_done _ _ _ S)|intros x Hx; apply A; right; exact Hx|lia].
  - rewrite countb_cons in K. cbn in K.
    apply (IH k); [|intros x Hx; apply A; right; exact Hx|exact K].
    apply (sinv_frame ms k v); [exact S|]. apply sfr_obs; [reflexivity|intros; reflexivity].
Qed.

Section Take.
Variables (ms : list nat) (v v1 : rview) (tk : task).
Hypothesis S : sinv ms 0 v.
Hypothesis E_destroyed : rv_destroyed v1 = rv_destroyed v.
Hypothesis E_missing : rv_missing v1 = rv_missing v.
Hypothesis E_topics : rv_topics v1 = rv_topics v.
Hypothesis E_trace : rv_trace v1 = rv_trace v.
Hypothesis P : Permutation (rv_tasks v) (tk :: rv_tasks v1).

Lemma stake_at n : rt_at v1 n = rt_at v n.
Proof. unfold rt_at. rewrite E_topics. reflexivity. Qed.

Lemma stake_cnt f : countb f (rv_tasks v) = ((if f tk then 1 else 0) + countb f (rv_tasks v1))%nat.
Proof. rewrite (countb_perm f _ _ P), countb_cons. reflexivity. Qed.

Lemma si_take :
  (forall m, In m ms -> is_close_task m tk = false) ->
  sinv ms (if is_pending ms tk then 1 else 0) v1.
Proof.
  intros N. constructor.
  - rewrite E_destroyed. exact (si_destroyed _ _ _ S).
  - intros m Hm. unfold rv_destroyed_at. rewrite stake_at. exact (si_ms _ _ _ S m Hm).
  - intros n. unfold sdc. rewrite stake_at. exact (si_sd _ _ _ S n).
  - intros m Hm. pose proof (si_wfc _ _ _ S m Hm) as W. rewrite stake_cnt, (N m Hm) in W. change (if false then 1%nat else 0%nat) with 0%nat in W.
    rewrite E_trace. lia.
  - pose proof (si_missing _ _ _ S) as M. rewrite stake_cnt in M. rewrite E_missing, M.
    destruct (is_pending ms tk); lia.
  - rewrite E_missing, E_trace. exact (si_close _ _ _ S).
  - rewrite E_trace. exact (si_order _ _ _ S).
Qed.

Lemma si_take_close n : tk = TTopicClose n ->
  sinv ms (if in_ms ms n then 1 else 0) (r_obs (OEmit (Some n) EClose) v1).
Proof.
  intros Etk. constructor.
  - cbn [r_obs rv_destroyed]. rewrite E_destroyed. exact (si_destroyed _ _ _ S).
  - intros m Hm. unfold rv_destroyed_at. change (rt_at (r_obs (OEmit (Some n) EClose) v1) m)
      with (rt_at v1 m). rewrite stake_at. exact (si_ms _ _ _ S m Hm).
  - intros m. unfold sdc. change (rt_at (r_obs (OEmit (Some n) EClose) v1) m)
      with (rt_at v1 m). rewrite stake_at. exact (si_sd _ _ _ S m).
  - intros m Hm. pose proof (si_wfc _ _ _ S m Hm) as W. rewrite stake_cnt, Etk in W.
    change (rv_tasks (r_obs (OEmit (Some n) EClose) v1)) with (rv_tasks v1).
    cbn [r_obs rv_trace]. rewrite countb_cons. rewrite E_trace. cbn [is_close_task is_topic_close] in *.
    destruct (Nat.eqb n m); lia.
  - pose proof (si_missing _ _ _ S) as M. rewrite stake_cnt, Etk in M.
    cbn [r_obs rv_missing]. rewrite E_missing, M.
    change (rv_tasks (r_obs (OEmit (Some n) EClose) v1)) with (rv_tasks v1).
    cbn [is_pending]. destruct (in_ms ms n); lia.
  - cbn [r_obs rv_missing rv_trace]. rewrite countb_cons, E_missing, E_trace. exact (si_close _ _ _ S).
  - intros post pre E m Hm. cbn [r_obs rv_trace] in E. rewrite E_trace in E.
    destruct post as [|o post]; cbn in E; injection E as E1 E2; [discriminate|].
    exact (si_order _ _ _ S post pre E2 m Hm).
Qed.
End Take.

Lemma countb_filter_sd L :
  countb is_sd (filter (fun r => evname_eqb (rg_event r) EvClose) L) = countb is_sd L.
Proof.
  induction L as [|r L IH]; [reflexivity|]. cbn [filter].
  destruct (evname_eqb (rg_event r) EvClose) eqn:Ev; rewrite !countb_cons, IH; [reflexivity|].
  destruct (is_sd r) eqn:Sd; [|reflexivity].
  apply registration_eqb_eq in Sd. subst r. discriminate.
Qed.

Lemma si_run ms v v1 tk :
  wf v -> sinv ms 0 v -> rv_destroyed v1 = rv_destroyed v -> rv_missing v1 = rv_missing v ->
  rv_topics v1 = rv_topics v -> rv_trace v1 = rv_trace v ->
  Permutation (rv_tasks v) (tk :: rv_tasks v1) -> sinv ms 0 (r_run v1 tk).
Proof.
  intros W S D M T R P.
  assert (At : forall m, rt_at v1 m = rt_at v m) by (intros m; unfold rt_at; rewrite T; reflexivity).
  case_eq tk; [intros n Etk|intros Etk|intros n Etk|intros n Etk]; cbn [r_run].
  - pose proof (si_take_close ms v v1 tk S D M T R P n Etk) as S1.
    unfold r_emit. change (rt_at (r_obs (OEmit (Some n) EClose) v1) n) with (rt_at v1 n).
    rewrite At. destruct (rt_at v n) as [t|] eqn:E.
    + apply (si_fold_close ms n _ (if in_ms ms n then 1%nat else 0%nat) _ S1).
      * intros r Hr. apply filter_In in Hr as [Hr Ev].
        destruct (wf_regs _ W _ _ _ E Hr) as [ -> | [ -> | -> ] ];
          [left; reflexivity|right; reflexivity|discriminate].
      * change (ev_name EClose) with EvClose. rewrite countb_filter_sd.
        pose proof (si_sd _ _ _ S n) as Sd. unfold sdc in Sd. rewrite E in Sd. exact Sd.
    + assert (Hn : in_ms ms n = false).
      { apply in_ms_false. intros Hi. pose proof (si_ms _ _ _ S n Hi) as X.
        unfold rv_destroyed_at in X. rewrite E in X. discriminate. }
      rewrite Hn in S1. exact S1.
  - apply si_session_done. pose proof (si_take ms v v1 tk S D M T R P) as S1.
    rewrite Etk in S1. apply S1. intros; reflexivity.
  - pose proof (si_take ms v v1 tk S D M T R P) as S1. rewrite Etk in S1. apply S1. intros; reflexivity.
  - pose proof (si_take ms v v1 tk S D M T R P) as S1. rewrite Etk in S1. apply S1. intros; reflexivity.
Qed.

Lemma si_emit ms v n e : wf v -> e <> EClose -> sinv ms 0 v -> sinv ms 0 (r_emit v n e).
Proof.
  intros W Ne S. apply (sinv_frame ms 0 v); [exact S|].
  apply sfr_emit; [exact Ne| |exact (si_ms _ _ _ S n)].
  intros t r Et Hr. exact (wf_regs _ W _ _ _ Et Hr).
Qed.

Lemma si_fold_emit {A} ms (f : A -> nat) (g : A -> peer) l v :
  wf v -> sinv ms 0 v -> (forall x, In x l -> (f x < List.length (rv_topics v))%nat) ->
  sinv ms 0 (fold_left (fun v x => r_emit v (f x) (EPeer (g x))) l v).
Proof.
  revert v; induction l as [|x l IH]; intros v W S L; [exact S|]. cbn [fold_left].
  assert (L0 := L x (or_introl eq_refl)).
  assert (N0 : EPeer (g x) <> EClose) by discriminate.
  destruct (wf_emit v (f x) (EPeer (g x)) (wf_obs_emit v _ _ W L0 N0) L0) as [W1 [_ F1]].
  apply IH; [exact W1|exact (si_emit ms v _ _ W N0 S)|].
  intros y Hy. rewrite F1. exact (L y (or_intror Hy)).
Qed.

Lemma si_ondhtdata ms v n d : wf v -> sinv ms 0 v -> sinv ms 0 (r_ondhtdata v n d).
Proof.
  intros W S. unfold r_ondhtdata. destruct (rt_at v n) as [t|] eqn:E; [|exact S].
  destruct (rt_destroyed t) eqn:D; [exact S|].
  pose proof (rt_at_lt _ _ _ E) as L.
  destruct (wf_fold_emit (fun _ => n) (fun hp => EPeer (mkPeer (fst hp) (snd hp) true None))
              (dd_localPeers d) v W) as [W1 [_ F1]]; [intros; split; [exact L|discriminate]|].
  apply (si_fold_emit ms (fun _ => n) (fun hp => mkPeer (fst hp) (snd hp) false (Some (dd_node d))));
    [exact W1| |intros; rewrite F1; exact L].
  apply (si_fold_emit ms (fun _ => n)); [exact W|exact S|intros; exact L].
Qed.

Lemma si_rstep ms v v' : wf v -> sinv ms 0 v -> rstep v v' -> sinv ms 0 v'.
Proof.
  intros W S H. pose proof (si_destroyed _ _ _ S) as D.
  destruct H as [v|v name ann Hd|v name Hd|v n|v|v tk rest E|v l1 tk l2 E|v n d|v n err Hl|v p addr Hd].
  - exact S.
  - congruence.
  - congruence.
  - apply (sinv_frame ms 0 v); [exact S|]. apply sfr_topic_destroy. exact (si_ms _ _ _ S n).
  - unfold r_session_destroy. rewrite D. exact S.
  - apply (si_run ms v); [exact W|exact S|reflexivity|reflexivity|reflexivity|reflexivity|].
    unfold rv_tasks. cbn [rv_set_ticks rv_ticks rv_io]. rewrite E. apply Permutation_refl.
  - apply (si_run ms v); [exact W|exact S|reflexivity|reflexivity|reflexivity|reflexivity|].
    unfold rv_tasks. cbn [rv_set_io rv_ticks rv_io]. rewrite E.
    rewrite !app_assoc. apply Permutation_sym, Permutation_middle.
  - apply si_ondhtdata; assumption.
  - apply si_emit; [exact W|discriminate|exact S].
  - congruence.
Qed.

Lemma si_rsteps ms v v' : wf v -> sinv ms 0 v -> rsteps v v' -> sinv ms 0 v'.
Proof.
  intros W S H. revert W S. induction H as [v|v1 v2 v3 H _ IH]; intros W S; [exact S|].
  apply IH; [exact (wf_rstep _ _ W H)|exact (si_rstep _ _ _ W S H)].
Qed.

Lemma in_members d n : In n (members d) -> exists k s, In (k, s) d /\ In n s.
Proof.
  unfold members. intros H. apply in_concat in H as [s [Hs Hn]].
  apply in_map_iff in Hs as [[k s'] [E Hk]]. cbn in E. subst s'. exists k, s. split; assumption.
Qed.

Lemma members_live v n : wf v -> In n (members (rv_domains v)) ->
  exists t, rt_at v n = Some t /\ rt_destroyed t = false.
Proof.
  intros W H. destruct (in_members _ _ H) as [k [s [Hk Hn]]].
  destruct (wf_members _ W _ _ _ Hk Hn) as [a [ls E]]. eexists. split; [exact E|reflexivity].
Qed.

Lemma r_topic_destroy_tasks v n t : rt_at v n = Some t -> rt_destroyed t = false ->
  rv_destroyed (r_topic_destroy v n) = rv_destroyed v /\
  rv_missing (r_topic_destroy v n) = rv_missing v /\
  Permutation (rv_tasks (r_topic_destroy v n)) (TTopicClose n :: rv_tasks v).
Proof.
  intros E D. unfold r_topic_destroy. rewrite E, D.
  destruct (rt_announce t); unfold rv_tasks;
    cbn [rv_set_io rv_set_ticks rv_set_domains r_obs r_put rv_set_topics rv_destroyed rv_missing
         rv_ticks rv_io]; (split; [reflexivity|split; [reflexivity|]]).
  - rewrite app_assoc. apply Permutation_sym, Permutation_cons_append.
  - rewrite <- app_assoc. apply Permutation_sym, Permutation_middle.
Qed.

Lemma r_add_listener_fields v n r :
  rv_destroyed (r_add_listener v n r) = rv_destroyed v /\
  rv_missing (r_add_listener v n r) = rv_missing v /\
  rv_tasks (r_add_listener v n r) = rv_tasks v /\ rv_trace (r_add_listener v n r) = rv_trace v.
Proof. unfold r_add_listener. destruct (rt_at v n); repeat split. Qed.

Section DestroyLoop.
Variables (v : rview) (ms : list nat).
Hypothesis Nd : NoDup ms.
Hypothesis Live : forall m, In m ms -> exists t, rt_at v m = Some t /\ rt_destroyed t = false.

Lemma sd_loop_step ds n rs u :
  ms = ds ++ n :: rs -> sd_loop v ms ds (n :: rs) u ->
  sd_loop v ms (ds ++ [n]) rs
    (r_add_listener (r_topic_destroy (rv_set_missing u (rv_missing u + 1)) n) n reg_session_done).
Proof.
  intros Ems [D [M [Dd [Rs [Sd [Pn [Wc Sc]]]]]]].
  assert (Hnm : In n ms) by (rewrite Ems; apply in_or_app; right; left; reflexivity).
  assert (Nd' : NoDup (ds ++ n :: rs)) by (rewrite <- Ems; exact Nd).
  assert (Nds : ~ In n ds) by (intros Hi; apply (NoDup_remove_2 _ _ _ Nd'); apply in_or_app; left; exact Hi).
  assert (Nrs : ~ In n rs) by (intros Hi; apply (NoDup_remove_2 _ _ _ Nd'); apply in_or_app; right; exact Hi).
  destruct (Live n Hnm) as [t [Ev Dt]].
  set (u1 := rv_set_missing u (rv_missing u + 1)).
  assert (E1 : rt_at u1 n = Some t) by (change (rt_at u n = Some t); rewrite (Rs n (or_introl eq_refl)); exact Ev).
  destruct (r_topic_destroy_live u1 n t E1 Dt) as [E2 T2].
  destruct (r_topic_destroy_tasks u1 n t E1 Dt) as [D2 [M2 P2]].
  set (u2 := r_topic_destroy u1 n) in *.
  destruct (rt_at_add_listener u2 n _ reg_session_done E2) as [E3 _].
  destruct (r_add_listener_fields u2 n reg_session_done) as [D3 [M3 [K3 T3]]].
  set (u3 := r_add_listener u2 n reg_session_done) in *.
  assert (Oth : forall m, m <> n -> rt_at u3 m = rt_at u m).
  { intros m Hm. unfold u3. rewrite (proj1 (cf_add_listener m u2 n reg_session_done (not_eq_sym Hm))).
    unfold u2. rewrite (proj1 (cf_topic_destroy m u1 n (not_eq_sym Hm))). reflexivity. }
  assert (Cnt : forall f, countb f (rv_tasks u3) = ((if f (TTopicClose n) then 1 else 0) + countb f (rv_tasks u))%nat).
  { intros f. rewrite K3, (countb_perm f _ _ P2), countb_cons. reflexivity. }
  assert (Tr : rv_trace u3 = ODestroy n :: rv_trace u) by (rewrite T3, T2; reflexivity).
  split; [rewrite D3, D2; exact D|].
  split; [rewrite M3, M2; change (rv_missing u1) with (rv_missing u + 1); rewrite M, length_app;
          cbn [List.length]; lia|].
  split.
  { intros m Hm. apply in_app_or in Hm as [Hm|[<-|[]]].
    - assert (m <> n) by (intros ->; contradiction). unfold rv_destroyed_at. rewrite Oth by assumption.
      exact (Dd m Hm).
    - unfold rv_destroyed_at. rewrite E3. reflexivity. }
  split.
  { intros m Hm. assert (m <> n) by (intros ->; contradiction). rewrite Oth by assumption.
    exact (Rs m (or_intror Hm)). }
  split.
  { intros m. rewrite in_ms_app_one. destruct (Nat.eq_dec m n) as [->|Hm].
    - unfold sdc. rewrite E3. cbn [rt_listeners rt_set_listeners]. rewrite countb_app.
      pose proof (Sd n) as S0. unfold sdc in S0. rewrite <- (Rs n (or_introl eq_refl)) in Ev.
      rewrite Ev in S0. rewrite S0, (in_ms_false _ _ Nds), Nat.eqb_refl. reflexivity.
    - unfold sdc. rewrite Oth by exact Hm. fold (sdc u m). rewrite Sd.
      apply Nat.eqb_neq in Hm. rewrite Hm, orb_false_r. reflexivity. }
  split.
  { rewrite Cnt, Pn. cbn [is_pending]. rewrite (proj2 (in_ms_spec ms n) Hnm), length_app.
    cbn [List.length]. lia. }
  split.
  { intros m Hm. rewrite Cnt, Tr, countb_cons, in_ms_app_one. cbn [is_close_task is_topic_close].
    pose proof (Wc m Hm) as X. destruct (Nat.eq_dec m n) as [->|Hmn].
    - rewrite Nat.eqb_refl, (in_ms_false _ _ Nds) in *. cbn. lia.
    - assert (Q : Nat.eqb n m = false) by (apply Nat.eqb_neq; auto).
      assert (Q' : Nat.eqb m n = false) by (apply Nat.eqb_neq; auto).
      rewrite Q, Q', orb_false_r. lia. }
  rewrite Tr, countb_cons. cbn [is_session_close]. exact Sc.
Qed.

Lemma sd_loop_fold rs : forall ds u, ms = ds ++ rs -> sd_loop v ms ds rs u ->
  sd_loop v ms ms [] (fold_left (fun v n =>
    r_add_listener (r_topic_destroy (rv_set_missing v (rv_missing v + 1)) n) n reg_session_done) rs u).
Proof.
  induction rs as [|n rs IH]; intros ds u E L.
  - rewrite app_nil_r in E. subst ds. exact L.
  - cbn [fold_left]. apply (IH (ds ++ [n])); [rewrite <- app_assoc; exact E|].
    apply sd_loop_step; assumption.
Qed.
End DestroyLoop.

Lemma si_init v : wf v -> rv_destroyed v = false ->
  sinv (members (rv_domains v)) 0 (r_session_destroy v) /\
  countb is_session_close (rv_trace (r_session_destroy v)) = 0%nat.
Proof.
  intros W D. set (ms := members (rv_domains v)).
  assert (Live : forall m, In m ms -> exists t, rt_at v m = Some t /\ rt_destroyed t = false)
    by (intros m Hm; exact (members_live v m W Hm)).
  assert (LiveD : forall m, In m ms -> rv_destroyed_at v m = false).
  { intros m Hm. destruct (Live m Hm) as [t [E Dt]]. unfold rv_destroyed_at. rewrite E. exact Dt. }
  destruct (wf_pre _ W D) as [Pre1 [Pre2 Pre3]].
  set (v0 := rv_set_missing (rv_set_destroyed v true) 1).
  assert (L0 : sd_loop v ms [] ms v0).
  { split; [reflexivity|]. split; [reflexivity|]. split; [intros _ []|].
    split; [intros; reflexivity|].
    split.
    { intros n. change (sdc v0 n) with (sdc v n). unfold sdc.
      destruct (rt_at v n) as [t|] eqn:E; [|reflexivity]. apply countb_zero. intros r Hr.
      destruct (is_sd r) eqn:X; [|reflexivity]. apply registration_eqb_eq in X. subst r.
      exfalso. exact (Pre1 n t E Hr). }
    split.
    { change (rv_tasks v0) with (rv_tasks v). apply countb_zero. intros tk Hk.
      destruct tk as [m| | |]; try reflexivity.
      - cbn [is_pending]. destruct (in_ms ms m) eqn:Hm; [|reflexivity]. apply in_ms_spec in Hm.
        pose proof (wf_close _ W m) as C. rewrite (LiveD m Hm) in C.
        assert (Z : countb (is_close_task m) (rv_tasks v) = 0%nat) by lia.
        pose proof (proj1 (countb_zero _ _) Z _ Hk) as X. cbn in X. rewrite Nat.eqb_refl in X. discriminate.
      - pose proof (proj1 (countb_zero _ _) Pre2 _ Hk) as X. discriminate X. }
    split.
    { intros m Hm. pose proof (wf_close _ W m) as C. rewrite (LiveD m Hm) in C. exact C. }
    exact Pre3. }
  assert (Nd : NoDup ms) by exact (wf_nodup _ W).
  pose proof (sd_loop_fold v ms Nd Live ms [] v0 eq_refl L0) as L1.
  unfold r_session_destroy. rewrite D. cbv zeta.
  change (members (rv_domains v0)) with ms.
  set (u := fold_left _ ms v0) in *.
  destruct L1 as [D1 [M1 [Dd1 [_ [Sd1 [Pn1 [Wc1 Sc1]]]]]]].
  assert (Cnt : forall f, countb f (rv_tasks (rv_set_ticks u (rv_ticks u ++ [TSessionDone]))) =
                          ((if f TSessionDone then 1 else 0) + countb f (rv_tasks u))%nat).
  { intros f. unfold rv_tasks. cbn [rv_set_ticks rv_ticks rv_io].
    rewrite !countb_app, (countb_cons f TSessionDone []), countb_nil. lia. }
  split; [|exact Sc1].
  constructor.
  - exact D1.
  - exact Dd1.
  - intros n. exact (Sd1 n).
  - intros m Hm. rewrite Cnt. cbn [is_close_task]. pose proof (Wc1 m Hm) as X.
    rewrite (proj2 (in_ms_spec ms m) Hm) in X. exact X.
  - transitivity (rv_missing u); [reflexivity|]. rewrite M1, Cnt, Pn1. cbn [is_pending]. lia.
  - change (countb is_session_close (rv_trace u) = if Z.eqb (rv_missing u) 0 then 1%nat else 0%nat).
    rewrite Sc1, M1.
    destruct (Z.eqb_spec (Z.of_nat (1 + List.length ms)) 0); [lia|reflexivity].
  - intros post pre E. exfalso. change (rv_trace u = post ++ OEmit None EClose :: pre) in E.
    assert (Hi : In (OEmit None EClose) (rv_trace u)) by (rewrite E; apply in_or_app; right; left; reflexivity).
    pose proof (countb_pos is_session_close _ _ Hi eq_refl). lia.
Qed.

(* ------------------------------------------------------------------ *)
(** ** Live Topics are indexed *)

Lemma dom_remove_members_keep d k n m :
  In m (members d) -> m <> n -> In m (members (dom_remove d k n)).
Proof.
  induction d as [|[k0 s0] r IH]; [simpl; tauto|]. cbn [dom_remove]. rewrite members_cons.
  intros H Hm. destruct (String.eqb k k0).
  - apply in_app_or in H as [H|H].
    + assert (F : In m (filter (fun m0 => negb (Nat.eqb m0 n)) s0)).
      { apply filter_In. split; [exact H|]. apply Nat.eqb_neq in Hm. rewrite Hm. reflexivity. }
      revert F. destruct (filter _ s0) as [|x l]; [intros []|intros F].
      rewrite members_cons. apply in_or_app. left. exact F.
    + destruct (filter _ s0); [exact H|]. rewrite members_cons. apply in_or_app. right. exact H.
  - rewrite members_cons. apply in_or_app. apply in_app_or in H as [H|H]; [left; exact H|].
    right. exact (IH H Hm).
Qed.

Lemma members_dom_add_old d k n m : In m (members d) -> In m (members (dom_add d k n)).
Proof.
  induction d as [|[k0 s0] r IH]; [simpl; tauto|]. cbn [dom_add]. rewrite members_cons.
  intros H. destruct (String.eqb k k0); rewrite members_cons; apply in_or_app;
    apply in_app_or in H as [H|H].
  - left. unfold set_add. destruct (existsb (Nat.eqb n) s0); [exact H|apply in_or_app; left; exact H].
  - right. exact H.
  - left. exact H.
  - right. exact (IH H).
Qed.

Lemma members_dom_add_new d k n : In n (members (dom_add d k n)).
Proof.
  induction d as [|[k0 s0] r IH]; [left; reflexivity|]. cbn [dom_add].
  destruct (String.eqb k k0); rewrite members_cons; apply in_or_app; [left|right; exact IH].
  unfold set_add. destruct (existsb (Nat.eqb n) s0) eqn:E.
  - apply existsb_exists in E as [x [Hx Ex]]. apply Nat.eqb_eq in Ex. subst x. exact Hx.
  - apply in_or_app. right. left. reflexivity.
Qed.

Lemma li_frame v v' : live_indexed v -> l_frame v v' -> live_indexed v'.
Proof. intros L F n H. destruct (F n H) as [H1 H2]. exact (H2 (L n H1)). Qed.

Lemma lfr_refl v : l_frame v v.
Proof. intros n H. split; [exact H|tauto]. Qed.

Lemma lfr_trans v1 v2 v3 : l_frame v1 v2 -> l_frame v2 v3 -> l_frame v1 v3.
Proof.
  intros F1 F2 n H. destruct (F2 n H) as [H2 I2]. destruct (F1 n H2) as [H1 I1].
  split; [exact H1|intros X; exact (I2 (I1 X))].
Qed.

Lemma lfr_same_r v u u' :
  rv_topics u' = rv_topics u -> rv_domains u' = rv_domains u -> l_frame v u -> l_frame v u'.
Proof.
  intros T D F. apply (lfr_trans _ _ _ F). intros n H. unfold rv_live, rt_at in *.
  rewrite T in H. rewrite D. split; [exact H|tauto].
Qed.

Lemma lfr_obs_r v u o : l_frame v u -> l_frame v (r_obs o u).
Proof. apply lfr_same_r; reflexivity. Qed.

Lemma lfr_set_ticks_r v u q : l_frame v u -> l_frame v (rv_set_ticks u q).
Proof. apply lfr_same_r; reflexivity. Qed.

Lemma lfr_set_io_r v u q : l_frame v u -> l_frame v (rv_set_io u q).
Proof. apply lfr_same_r; reflexivity. Qed.

Lemma lfr_set_missing_r v u m : l_frame v u -> l_frame v (rv_set_missing u m).
Proof. apply lfr_same_r; reflexivity. Qed.

Lemma lfr_set_destroyed_r v u b : l_frame v u -> l_frame v (rv_set_destroyed u b).
Proof. apply lfr_same_r; reflexivity. Qed.

Lemma lfr_session_done_r v u : l_frame v u -> l_frame v (r_session_done u).
Proof. unfold r_session_done. destruct (Z.eqb _ 0); apply lfr_same_r; reflexivity. Qed.

Lemma lfr_put v n t t' :
  rt_at v n = Some t -> rt_destroyed t' = rt_destroyed t -> l_frame v (r_put v n t').
Proof.
  intros E Dt m H. unfold rv_live in H. rewrite rt_at_put in H.
  pose proof (rt_at_lt _ _ _ E) as L. apply Nat.ltb_lt in L. rewrite L in H.
  split; [|intros X; exact X].
  destruct (Nat.eqb n m) eqn:Q; [|exact H].
  apply Nat.eqb_eq in Q. subst m. unfold rv_live. rewrite E. rewrite Dt in H. exact H.
Qed.

Lemma lfr_add_listener_r v u n r : l_frame v u -> l_frame v (r_add_listener u n r).
Proof.
  intros F. apply (lfr_trans _ _ _ F). unfold r_add_listener.
  destruct (rt_at u n) as [t|] eqn:E; [|apply lfr_refl].
  apply (lfr_put u n t); [exact E|reflexivity].
Qed.

Lemma lfr_remove_listener_r v u n r : l_frame v u -> l_frame v (r_remove_listener u n r).
Proof.
  intros F. apply (lfr_trans _ _ _ F). unfold r_remove_listener.
  destruct (rt_at u n) as [t|] eqn:E; [|apply lfr_refl].
  apply (lfr_put u n t); [exact E|reflexivity].
Qed.

(** [Topic#destroy] takes out of the index only the Topic it destroys. *)
Lemma lfr_topic_destroy_r v u n : l_frame v u -> l_frame v (r_topic_destroy u n).
Proof.
  intros F. apply (lfr_trans _ _ _ F). unfold r_topic_destroy.
  destruct (rt_at u n) as [t|] eqn:E; [|apply lfr_refl].
  destruct (rt_destroyed t) eqn:Dt; [apply lfr_refl|].
  set (t' := mkRTop true (rt_domain t) (rt_announce t) (rt_listeners t)).
  intros m H.
  assert (Lm : rv_live (r_put u n t') m = true) by (destruct (rt_announce t); exact H).
  unfold rv_live in Lm. rewrite rt_at_put in Lm.
  pose proof (rt_at_lt _ _ _ E) as L. apply Nat.ltb_lt in L. rewrite L in Lm.
  destruct (Nat.eqb n m) eqn:Q; [discriminate Lm|].
  split; [exact Lm|]. intros Hm. apply Nat.eqb_neq in Q.
  assert (X : In m (members (dom_remove (rv_domains u) (rt_domain t) n)))
    by (apply dom_remove_members_keep; [exact Hm|intros ->; apply Q; reflexivity]).
  destruct (rt_announce t); exact X.
Qed.

Lemma lfr_fold {A} (f : rview -> A -> rview) v l : forall u,
  (forall u' x, l_frame v u' -> l_frame v (f u' x)) -> l_frame v u -> l_frame v (fold_left f l u).
Proof.
  induction l as [|x l IH]; intros u Hf F; [exact F|]. cbn [fold_left].
  apply IH; [exact Hf|]. apply Hf. exact F.
Qed.

Lemma lfr_call_r v u n e r : l_frame v u -> l_frame v (r_call n e u r).
Proof.
  intros F. unfold r_call. cbv zeta.
  assert (F1 : l_frame v (if rg_once r then r_remove_listener u n r else u))
    by (destruct (rg_once r); [apply lfr_remove_listener_r|]; exact F).
  destruct (rg_fn r) as [| c | c].
  - apply lfr_session_done_r. exact F1.
  - apply lfr_obs_r. exact F1.
  - destruct e; [|exact F1|exact F1].
    apply lfr_obs_r, lfr_topic_destroy_r, lfr_remove_listener_r. exact F1.
Qed.

Lemma lfr_emit_r v u n e : l_frame v u -> l_frame v (r_emit u n e).
Proof.
  intros F. unfold r_emit. destruct (rt_at (r_obs (OEmit (Some n) e) u) n) as [t|].
  - apply lfr_fold; [intros u' r F'; apply lfr_call_r; exact F'|apply lfr_obs_r; exact F].
  - apply lfr_obs_r. exact F.
Qed.

Lemma lfr_ondhtdata v n d : l_frame v (r_ondhtdata v n d).
Proof.
  unfold r_ondhtdata. destruct (rt_at v n) as [t|]; [|apply lfr_refl].
  destruct (rt_destroyed t); [apply lfr_refl|].
  apply lfr_fold; [intros u' x F'; apply lfr_emit_r; exact F'|].
  apply lfr_fold; [intros u' x F'; apply lfr_emit_r; exact F'|apply lfr_refl].
Qed.

Lemma lfr_onmdnsresponse v p addr : l_frame v (r_onmdnsresponse v p addr).
Proof.
  unfold r_onmdnsresponse. apply lfr_fold; [|apply lfr_refl].
  intros u' [name target port| |] F'; [|exact F'..].
  destruct (dom_get (rv_domains u') name) as [set|]; [|exact F'].
  apply lfr_fold; [intros u'' x F''; apply lfr_emit_r; exact F''|exact F'].
Qed.

Lemma lfr_session_destroy v : l_frame v (r_session_destroy v).
Proof.
  unfold r_session_destroy. destruct (rv_destroyed v); [apply lfr_refl|].
  apply lfr_set_ticks_r. apply lfr_fold.
  - intros u' x F'. apply lfr_add_listener_r, lfr_topic_destroy_r, lfr_set_missing_r. exact F'.
  - apply lfr_set_missing_r, lfr_set_destroyed_r, lfr_refl.
Qed.

Lemma lfr_run_r v u tk : l_frame v u -> l_frame v (r_run u tk).
Proof.
  intros F. unfold r_run.
  destruct tk; try exact F; [apply lfr_emit_r|apply lfr_session_done_r]; exact F.
Qed.

(** [_topic]: the new Topic goes into the index under its domain. *)
Lemma li_new_topic v name ann : live_indexed v -> live_indexed (r_new_topic v name ann).
Proof.
  intros L m H. unfold r_new_topic in *. unfold rv_live, rt_at in H.
  cbn [rv_topics rv_set_domains rv_set_topics] in H. cbn [rv_domains rv_set_domains].
  destruct (Nat.lt_ge_cases m (List.length (rv_topics v))) as [Lt|Ge].
  - rewrite nth_error_app1 in H by exact Lt. apply members_dom_add_old. exact (L m H).
  - rewrite nth_error_app2 in H by exact Ge.
    destruct (Nat.eq_dec m (List.length (rv_topics v))) as [->|Ne]; [apply members_dom_add_new|].
    assert (Hl : (List.length [mkRTop false name ann []] <= m - List.length (rv_topics v))%nat)
      by (cbn; lia).
    apply nth_error_None in Hl. rewrite Hl in H. discriminate H.
Qed.

Lemma li_rstep v v' : live_indexed v -> rstep v v' -> live_indexed v'.
Proof.
  intros L S. destruct S.
  - exact L.
  - apply li_new_topic. exact L.
  - unfold r_lookupOne. apply (li_frame _ _ (li_new_topic _ name false L)).
    apply lfr_add_listener_r, lfr_add_listener_r, lfr_refl.
  - apply (li_frame _ _ L). apply lfr_topic_destroy_r, lfr_refl.
  - exact (li_frame _ _ L (lfr_session_destroy v)).
  - apply (li_frame _ _ L). apply lfr_run_r, lfr_set_ticks_r, lfr_refl.
  - apply (li_frame _ _ L). apply lfr_run_r, lfr_set_io_r, lfr_refl.
  - exact (li_frame _ _ L (lfr_ondhtdata v n d)).
  - apply (li_frame _ _ L). apply lfr_emit_r, lfr_refl.
  - exact (li_frame _ _ L (lfr_onmdnsresponse v p addr)).
Qed.

Lemma reachable_li w : reachable w -> live_indexed (rproj w).
Proof.
  intros [dom H]. apply steps_rsteps in H. remember (rproj (init_world dom)) as v0 eqn:E.
  assert (L0 : live_indexed v0) by (subst v0; intros [|n] X; discriminate X).
  clear E. induction H as [v|v1 v2 v3 S _ IH]; [exact L0|]. exact (IH (li_rstep _ _ L0 S)).
Qed.

(** After [destroy()] of a reachable live session [w], in every later
    state [w2]: the index lists the live Topics; [destroy()] itself emitted no
    session 'close'; 'close' was emitted at most once, after the 'close' of
    every Topic of the index; until then a [done] call is pending. *)
Lemma session_close_core (w w2 : world) :
  reachable w -> w_destroyed w = false -> steps (session_destroy w) w2 ->
  (forall m, In m (members (w_domains w)) <-> option_map t_destroyed (get_topic w m) = Some false) /\
  countb is_session_close (w_trace (session_destroy w)) = 0%nat /\
  (countb is_session_close (w_trace w2) <= 1)%nat /\
  (forall post pre, filter is_rel_obs (w_trace w2) = post ++ OEmit None EClose :: pre ->
     forall m, In m (members (w_domains w)) -> In (OEmit (Some m) EClose) pre) /\
  (countb is_session_close (w_trace w2) = 0%nat ->
     exists tk, In tk (w_ticks w2 ++ map snd (w_io w2)) /\
       is_pending (members (w_domains w)) tk = true).
Proof.
  intros R D S. pose proof (reachable_wf w R) as W.
  assert (Dv : rv_destroyed (rproj w) = false) by exact D.
  destruct (si_init (rproj w) W Dv) as [S0 C0].
  change (members (rv_domains (rproj w))) with (members (w_domains w)) in S0.
  set (ms := members (w_domains w)) in *.
  assert (W0 : wf (rproj (session_destroy w)))
    by (rewrite rproj_session_destroy; exact (wf_rstep _ _ W (rs_session_destroy _))).
  rewrite <- rproj_session_destroy in S0, C0.
  pose proof (si_rsteps _ _ _ W0 S0 (steps_rsteps _ _ S)) as S2.
  assert (Rel : forall x, countb is_session_close x = countb is_session_close (filter is_rel_obs x)).
  { intros x. symmetry. apply countb_rel. intros [] F; try discriminate; reflexivity. }
  pose proof (si_close _ _ _ S2) as C2. cbn [rproj rv_trace] in C2.
  split.
  { intros m. split.
    - intros Hm. destruct (members_live _ m W Hm) as [t [E Dt]]. rewrite rt_at_rproj in E.
      destruct (get_topic w m) as [t0|]; [|discriminate]. injection E as <-.
      cbn in Dt |- *. rewrite Dt. reflexivity.
    - intros Hm. apply (reachable_li w R). unfold rv_live. rewrite rt_at_rproj.
      destruct (get_topic w m) as [t0|]; [|discriminate]. injection Hm as Dt.
      cbn. rewrite Dt. reflexivity. }
  split; [rewrite Rel; exact C0|].
  split; [rewrite Rel, C2; destruct (Z.eqb _ 0); lia|].
  split; [exact (si_order _ _ _ S2)|].
  intros Z0. rewrite Rel, C2 in Z0.
  destruct (Z.eqb (rv_missing (rproj w2)) 0) eqn:E; [discriminate|].
  apply Z.eqb_neq in E. rewrite (si_missing _ _ _ S2) in E.
  destruct (countb_in (is_pending ms) (rv_tasks (rproj w2))) as [tk [Hk Pk]]; [lia|].
  exists tk. split; [|exact Pk]. unfold rv_tasks in Hk. cbn [rproj rv_ticks rv_io] in Hk.
  apply in_app_or in Hk as [Hk|Hk]; apply filter_In in Hk as [Hk _]; apply in_or_app;
    [left|right]; exact Hk.
Qed.

(** C1 counterexample: Topic 0 announces, is destroyed (its 'close' waits
    for the DHT [unannounce] callback), then the session is destroyed. The
    session's [process.nextTick(done)] emits the session 'close' while
    Topic 0, created under the session, has not emitted its own 'close'. *)
Lemma C1_session_closes_before_topic :
  reachable w_c1_gone /\ w_destroyed w_c1_gone = false /\
  step w_c1_gone w_c1_closing /\ step w_c1_closing w_c1_closed /\
  In (OEmit None EClose) (w_trace w_c1_closed) /\
  ~ In (OEmit (Some 0%nat) EClose) (w_trace w_c1_closed) /\
  In (TTopicClose 0) (map snd (w_io w_c1_closed)).
Proof.
  split.
  { exists None. apply steps_cons with w_c1_ann; [apply st_announce|].
    apply steps_cons with w_c1_gone; [apply st_topic_destroy|apply steps_refl]. }
  split; [vm_compute; reflexivity|].
  split; [apply st_session_destroy|].
  split; [apply (st_tick w_c1_closing TSessionDone []); vm_compute; reflexivity|].
  vm_compute. split; [tauto|]. split; [|tauto].
  intros H. repeat (destruct H as [H|H]; [discriminate H|]). exact H.
Qed.

(* ------------------------------------------------------------------ *)
(** ** Rounding of binary64 sums and products *)
Lemma digits2_pos_bound p :
  2 ^ (Zpos (digits2_pos p) - 1) <= Zpos p < 2 ^ Zpos (digits2_pos p).
Proof.
  induction p as [p IH|p IH|].
  3: { change (digits2_pos 1) with 1%positive. simpl. lia. }
  all: cbn [digits2_pos]; rewrite Pos2Z.inj_succ;
    first [rewrite (Pos2Z.inj_xI p)|rewrite (Pos2Z.inj_xO p)];
    set (d := Zpos (digits2_pos p)) in *;
    assert (Hd : 0 < d) by (unfold d; lia);
    replace (Z.succ d - 1) with d by lia;
    assert (E1 : 2 ^ d = 2 * 2 ^ (d - 1)) by (rewrite <- Z.pow_succ_r by lia; f_equal; lia);
    assert (E2 : 2 ^ Z.succ d = 2 * 2 ^ d) by (apply Z.pow_succ_r; lia);
    rewrite E2; lia.
Qed.

Lemma digits2_pos_le p n : Zpos p < 2 ^ n -> Zpos (digits2_pos p) <= n.
Proof.
  intros H. pose proof (digits2_pos_bound p) as [B _].
  destruct (Z.le_gt_cases (Zpos (digits2_pos p)) n) as [|G]; [assumption|].
  assert (2 ^ n <= 2 ^ (Zpos (digits2_pos p) - 1)) by (apply Z.pow_le_mono_r; lia). lia.
Qed.

Lemma shr_1_inv M k x : 0 <= k -> shr_inv M k x -> shr_inv M (k + 1) (shr_1 x).
Proof.
  intros Hk [Hm [rest [Hr [HM Hz]]]]. destruct x as [m r s]. cbn [shr_m shr_r shr_s] in *.
  unfold shr_inv. rewrite Z.pow_add_r by lia. change (2 ^ 1) with 2.
  assert (P : 0 < 2 ^ k) by (apply Z.pow_pos_nonneg; lia).
  set (K := 2 ^ k) in *. cbn [shr_1].
  destruct m as [|p|p]; [|destruct p as [p|p|]|lia]; cbn [shr_m shr_r shr_s];
    (split; [lia|]).
  - exists rest. split; [lia|]. split; [rewrite HM; ring|].
    rewrite Hz. destruct r, s; intuition congruence.
  - exists (K + rest). split; [lia|]. split; [rewrite HM, (Pos2Z.inj_xI p); ring|].
    split; [lia|intros [H _]; discriminate].
  - exists rest. split; [lia|]. split; [rewrite HM, (Pos2Z.inj_xO p); ring|].
    rewrite Hz. destruct r, s; intuition congruence.
  - exists (K + rest). split; [lia|]. split; [rewrite HM; ring|].
    split; [lia|intros [H _]; discriminate].
Qed.

Lemma iter_shr_inv M p : forall k x, 0 <= k -> shr_inv M k x ->
  shr_inv M (k + Zpos p) (iter_pos shr_1 p x).
Proof.
  induction p as [p IH|p IH|]; intros k x Hk H; cbn [iter_pos].
  - replace (k + Zpos p~1) with (k + 1 + Zpos p + Zpos p) by lia.
    apply IH; [lia|]. apply IH; [lia|]. apply shr_1_inv; assumption.
  - replace (k + Zpos p~0) with (k + Zpos p + Zpos p) by lia.
    apply IH; [lia|]. apply IH; assumption.
  - apply shr_1_inv; assumption.
Qed.

Lemma shr_fexp_inv m E : 0 <= m ->
  shr_inv m (snd (shr_fexp 53 1024 m E loc_Exact) - E) (fst (shr_fexp 53 1024 m E loc_Exact)) /\
  snd (shr_fexp 53 1024 m E loc_Exact) = Z.max E (fexp 53 1024 (Zdigits2 m + E)).
Proof.
  intros Hm. assert (I0 : shr_inv m 0 (shr_record_of_loc m loc_Exact)).
  { split; [exact Hm|]. exists 0. split; [lia|]. split; [cbn [shr_m shr_record_of_loc]; rewrite Z.pow_0_r; lia|cbn; tauto]. }
  unfold shr_fexp, shr. destruct (fexp 53 1024 (Zdigits2 m + E) - E) as [|p|p] eqn:D;
    cbn [fst snd].
  - rewrite Z.sub_diag. split; [exact I0|lia].
  - split; [|lia]. replace (E + Zpos p - E) with (0 + Zpos p) by lia.
    apply iter_shr_inv; [lia|exact I0].
  - rewrite Z.sub_diag. split; [exact I0|lia].
Qed.

Lemma rne_bounds M k x : 0 <= k -> shr_inv M k x ->
  0 <= round_nearest_even (shr_m x) (loc_of_shr_record x) /\
  (forall b, M <= b * 2 ^ k -> round_nearest_even (shr_m x) (loc_of_shr_record x) <= b) /\
  (forall l, l * 2 ^ k <= M -> l <= round_nearest_even (shr_m x) (loc_of_shr_record x)).
Proof.
  intros Hk [Hm [rest [Hr [HM Hz]]]].
  assert (P : 0 < 2 ^ k) by (apply Z.pow_pos_nonneg; lia).
  destruct x as [m r s]; cbn [shr_m shr_r shr_s] in *. set (K := 2 ^ k) in *.
  assert (Lo : forall l, l * K <= M -> l <= m) by (intros l Hl; nia).
  assert (Hi : forall b, M <= b * K -> m <= b) by (intros b Hb; nia).
  assert (HiS : rest <> 0 -> forall b, M <= b * K -> m + 1 <= b) by (intros Hn b Hb; nia).
  destruct r, s; cbn [loc_of_shr_record round_nearest_even].
  - assert (rest <> 0) by (intros E; apply Hz in E; destruct E; discriminate).
    split; [lia|]. split; [exact (HiS H)|intros l Hl; pose proof (Lo l Hl); lia].
  - assert (rest <> 0) by (intros E; apply Hz in E; destruct E; discriminate).
    destruct (Z.even m); (split; [lia|]); (split; [|intros l Hl; pose proof (Lo l Hl); lia]);
      [exact Hi|exact (HiS H)].
  - split; [lia|]. split; [exact Hi|exact Lo].
  - split; [lia|]. split; [exact Hi|exact Lo].
Qed.

Lemma round_aux_between M E L U :
  E <= 0 -> U < 2 ^ 20 -> L * 2 ^ (- E) <= Zpos M <= U * 2 ^ (- E) ->
  float_between L U (binary_round_aux 53 1024 false (Zpos M) E loc_Exact).
Proof.
  intros HE HU [HL HUb]. unfold binary_round_aux.
  destruct (shr_fexp_inv (Zpos M) E ltac:(lia)) as [I1 He1].
  destruct (shr_fexp 53 1024 (Zpos M) E loc_Exact) as [x e1] eqn:S1. cbn [fst snd] in I1, He1.
  assert (PE : 0 < 2 ^ (- E)) by (apply Z.pow_pos_nonneg; lia).
  assert (HD : Zdigits2 (Zpos M) <= 20 - E).
  { cbn [Zdigits2]. apply digits2_pos_le. replace (20 - E) with (20 + - E) by lia.
    rewrite Z.pow_add_r by lia. nia. }
  unfold fexp, emin in He1.
  assert (He1' : E <= e1 <= 0) by lia.
  destruct (rne_bounds (Zpos M) (e1 - E) x ltac:(lia) I1) as [Q0 [QH QL]].
  set (q := round_nearest_even (shr_m x) (loc_of_shr_record x)) in *.
  assert (PS : 2 ^ (- E) = 2 ^ (- e1) * 2 ^ (e1 - E)) by (rewrite <- Z.pow_add_r by lia; f_equal; lia).
  assert (qU : q <= U * 2 ^ (- e1)) by (apply QH; rewrite <- Z.mul_assoc, <- PS; exact HUb).
  assert (qL : L * 2 ^ (- e1) <= q) by (apply QL; rewrite <- Z.mul_assoc, <- PS; exact HL).
  destruct (shr_fexp_inv q e1 Q0) as [I2 He2].
  destruct (shr_fexp 53 1024 q e1 loc_Exact) as [x2 e2] eqn:S2. cbn [fst snd] in I2, He2.
  assert (PE1 : 0 < 2 ^ (- e1)) by (apply Z.pow_pos_nonneg; lia).
  assert (HD2 : Zdigits2 q <= 20 - e1).
  { destruct q as [|pq|pq] eqn:Eq; [change (Zdigits2 0) with 0; lia| |lia]. cbn [Zdigits2]. apply digits2_pos_le.
    replace (20 - e1) with (20 + - e1) by lia. rewrite Z.pow_add_r by lia. nia. }
  unfold fexp, emin in He2.
  assert (He2' : e1 <= e2 <= 0) by lia.
  destruct I2 as [Hm2 [rest [Hr [Hq _]]]].
  assert (PS2 : 2 ^ (- e1) = 2 ^ (- e2) * 2 ^ (e2 - e1)) by (rewrite <- Z.pow_add_r by lia; f_equal; lia).
  assert (A1 : 1 <= 2 ^ (- e2)) by (apply (Z.pow_le_mono_r 2 0); lia).
  assert (K1 : 0 < 2 ^ (e2 - e1)) by (apply Z.pow_pos_nonneg; lia).
  rewrite PS2 in qU, qL.
  set (A := 2 ^ (- e2)) in *. set (K := 2 ^ (e2 - e1)) in *. set (m2 := shr_m x2) in *.
  assert (MU : m2 <= U * A) by nia.
  assert (ML : L * A <= m2) by nia.
  cbv beta iota zeta. fold m2. destruct m2 as [|p|p] eqn:Em.
  - cbn [float_between]. nia.
  - rewrite (proj2 (Z.leb_le e2 (1024 - 53))) by lia. cbn [float_between].
    split; [lia|split; assumption].
  - lia.
Qed.


Lemma pos_iter_xO m d : Zpos (Pos.iter xO m d) = Zpos m * 2 ^ Zpos d.
Proof.
  induction d as [|d IH] using Pos.peano_ind.
  - change (Pos.iter xO m 1) with (xO m). rewrite (Pos2Z.inj_xO m), Z.pow_1_r. ring.
  - rewrite Pos.iter_succ, (Pos2Z.inj_xO (Pos.iter xO m d)), IH, Pos2Z.inj_succ, Z.pow_succ_r by lia.
    ring.
Qed.

Lemma shl_align_spec mx ex ex' :
  snd (shl_align mx ex ex') = Z.min ex ex' /\
  Zpos (fst (shl_align mx ex ex')) = Zpos mx * 2 ^ (ex - Z.min ex ex').
Proof.
  unfold shl_align. destruct (ex' - ex) as [|d|d] eqn:D; cbn [fst snd].
  - split; [lia|]. replace (ex - Z.min ex ex') with 0 by lia. rewrite Z.pow_0_r. ring.
  - split; [lia|]. replace (ex - Z.min ex ex') with 0 by lia. rewrite Z.pow_0_r. ring.
  - split; [lia|]. rewrite pos_iter_xO. f_equal. f_equal. lia.
Qed.

Lemma random_draw_cases r : random_draw r = true ->
  (exists s, r = S754_zero s) \/
  exists m e, r = S754_finite false m e /\ e <= -52 /\ Zpos m <= 2 ^ (- e).
Proof.
  unfold random_draw. intros H. apply andb_prop in H as [H H3]. apply andb_prop in H as [H1 H2].
  destruct r as [s|s| |s m e]; [left; exists s; reflexivity| | |].
  - destruct s; discriminate.
  - discriminate.
  - destruct s; [discriminate|]. right. exists m, e.
    change (SFone 53 1024) with (S754_finite false 4503599627370496 (-52)) in H3.
    unfold SFltb, SFcompare in H3.
    cbn [valid_binary bounded canonical_mantissa] in H1. apply andb_prop in H1 as [H1 _].
    apply Z.eqb_eq in H1. unfold fexp, emin in H1.
    pose proof (digits2_pos_bound m) as [_ Bm].
    assert (Hd : Zpos (digits2_pos m) <= 53) by lia.
    assert (Bm' : Zpos m < 2 ^ 53) by (apply Z.lt_le_trans with (1 := Bm); apply Z.pow_le_mono_r; lia).
    split; [reflexivity|].
    destruct (Z.compare_spec e (-52)) as [Ee|Ee|Ee].
    + rewrite Ee. cbv beta iota in H3.
      destruct (Pos.compare_cont Eq m 4503599627370496) eqn:Ec; try discriminate.
      apply Pos.compare_lt_iff, Pos2Z.pos_lt_pos in Ec.
      split; [lia|]. change (2 ^ (- -52)) with 4503599627370496. lia.
    + split; [lia|]. apply Z.le_trans with (2 ^ 53); [lia|apply Z.pow_le_mono_r; lia].
    + discriminate.
Qed.

Lemma add_wait_between w mw ew mp ep :
  0 < w -> 2 * w < 2 ^ 20 -> ew <= 0 -> Zpos mw = w * 2 ^ (- ew) ->
  ep <= 0 -> Zpos mp <= w * 2 ^ (- ep) ->
  float_between w (2 * w) (js_add (S754_finite false mw ew) (S754_finite false mp ep)).
Proof.
  intros Hw HU Hew Hmw Hep Hmp.
  set (ez := Z.min ew ep).
  destruct (shl_align_spec mw ew ez) as [_ Ha]. destruct (shl_align_spec mp ep ez) as [_ Hb].
  replace (Z.min ew ez) with ez in Ha by lia. replace (Z.min ep ez) with ez in Hb by lia.
  set (a := fst (shl_align mw ew ez)) in *. set (b := fst (shl_align mp ep ez)) in *.
  unfold js_add, SFadd. fold ez. cbn [cond_Zopp]. fold a b.
  change (Z.pos a + Z.pos b) with (Z.pos (a + b)). unfold binary_normalize, binary_round.
  set (F := fexp 53 1024 (Zpos (digits2_pos (a + b)) + ez)).
  destruct (shl_align_spec (a + b) ez F) as [Hz Hm].
  destruct (shl_align (a + b) ez F) as [mz ez2]. cbn [fst snd] in Hz, Hm.
  assert (Hez2 : ez2 <= ez) by lia.
  apply round_aux_between; [lia|lia|].
  assert (P1 : 2 ^ (- ez) = 2 ^ (- ew) * 2 ^ (ew - ez)) by (rewrite <- Z.pow_add_r by lia; f_equal; lia).
  assert (P2 : 2 ^ (- ez) = 2 ^ (- ep) * 2 ^ (ep - ez)) by (rewrite <- Z.pow_add_r by lia; f_equal; lia).
  assert (P3 : 2 ^ (- ez2) = 2 ^ (- ez) * 2 ^ (ez - ez2)) by (rewrite <- Z.pow_add_r by lia; f_equal; lia).
  assert (T0 : 0 < 2 ^ (ez - ez2)) by (apply Z.pow_pos_nonneg; lia).
  assert (Y0 : 0 < 2 ^ (ep - ez)) by (apply Z.pow_pos_nonneg; lia).
  assert (Ea : Zpos a = w * 2 ^ (- ez)) by (rewrite Ha, Hmw, P1; ring).
  assert (Eb : 0 <= Zpos b <= w * 2 ^ (- ez)) by (rewrite Hb, P2; nia).
  rewrite <- Hz in Hm. rewrite Hm, Pos2Z.inj_add, P3, Ea.
  set (T := 2 ^ (ez - ez2)) in *. set (P := 2 ^ (- ez)) in *. split.
  - replace (w * (P * T)) with ((w * P) * T) by ring. apply Z.mul_le_mono_nonneg_r; lia.
  - replace (2 * w * (P * T)) with ((2 * (w * P)) * T) by ring. apply Z.mul_le_mono_nonneg_r; lia.
Qed.

Lemma notify_between w mw ew r :
  0 < w -> 2 * w < 2 ^ 20 -> ew <= 0 -> Zpos mw = w * 2 ^ (- ew) -> random_draw r = true ->
  float_between w (2 * w) (js_add (S754_finite false mw ew) (js_mul r (S754_finite false mw ew))).
Proof.
  intros Hw HU Hew Hmw Hr.
  destruct (random_draw_cases r Hr) as [[s ->]|[mr [er [-> [Her Hmr]]]]].
  - change (js_add (S754_finite false mw ew) (js_mul (S754_zero s) (S754_finite false mw ew)))
      with (S754_finite false mw ew).
    cbn [float_between]. split; [lia|]. assert (0 < 2 ^ (- ew)) by (apply Z.pow_pos_nonneg; lia). nia.
  - assert (Hp : float_between 0 w (js_mul (S754_finite false mr er) (S754_finite false mw ew))).
    { change (js_mul (S754_finite false mr er) (S754_finite false mw ew))
        with (binary_round_aux 53 1024 false (Zpos (mr * mw)) (er + ew) loc_Exact).
      apply round_aux_between; [lia|lia|].
      assert (0 < 2 ^ (- ew)) by (apply Z.pow_pos_nonneg; lia).
      replace (- (er + ew)) with (- er + - ew) by lia. rewrite Z.pow_add_r by lia.
      rewrite Pos2Z.inj_mul, Hmw. nia. }
    destruct (js_mul (S754_finite false mr er) (S754_finite false mw ew)) as [s|s| |s mp ep];
      cbn [float_between] in Hp; try contradiction.
    + change (js_add (S754_finite false mw ew) (S754_zero s)) with (S754_finite false mw ew).
      cbn [float_between]. split; [lia|]. assert (0 < 2 ^ (- ew)) by (apply Z.pow_pos_nonneg; lia). nia.
    + destruct s; [contradiction|]. destruct Hp as [Hep [_ Hmp]].
      apply add_wait_between; assumption.
Qed.

Lemma floor_between L U v : 0 < L -> float_between L U v ->
  exists z, math_floor v = Some z /\ L <= z <= U.
Proof.
  intros HL Hv. destruct v as [s|s| |s m e]; cbn [float_between] in Hv; try contradiction; [lia|].
  destruct s; [contradiction|]. destruct Hv as [He [H1 H2]].
  exists (if Z.leb 0 e then Zpos m * 2 ^ e else Zpos m / 2 ^ (- e)). split; [reflexivity|].
  destruct (Z.leb_spec 0 e) as [E0|E0].
  - replace e with 0 in * by lia. change (2 ^ (- 0)) with 1 in H1, H2. rewrite Z.pow_0_r. lia.
  - assert (P : 0 < 2 ^ (- e)) by (apply Z.pow_pos_nonneg; lia).
    split; [apply Z.div_le_lower_bound|apply Z.div_le_upper_bound]; lia.
Qed.

(* ------------------------------------------------------------------ *)
(** ** Retry delays *)

(** C7: for every value [Math.random()] may return (a binary64 number in
    [[0, 1)]), [_notify] hands [setTimeout] an integer delay in the closed
    interval [[30000, 60000]] when eager and [[300000, 600000]] otherwise:
    [wait + Math.random() * wait] is rounded to binary64 and may round up
    to [2 * wait]. *)
Theorem C7_notify_delay_range (eager : bool) (r : spec_float) :
  random_draw r = true ->
  exists z, notify_delay eager r = Some z /\
    (if eager then 30000 <= z <= 60000 else 300000 <= z <= 600000).
Proof.
  intros Hr. destruct eager; unfold notify_delay.
  - change (js_int 30000) with (S754_finite false 8246337208320000 (-38)).
    destruct (floor_between 30000 (2 * 30000) _ ltac:(lia)
                (notify_between 30000 8246337208320000 (-38) r ltac:(lia) ltac:(reflexivity)
                   ltac:(lia) ltac:(reflexivity) Hr)) as [z [Ez Hz]].
    exists z. split; [exact Ez|lia].
  - change (js_int 300000) with (S754_finite false 5153960755200000 (-34)).
    destruct (floor_between 300000 (2 * 300000) _ ltac:(lia)
                (notify_between 300000 5153960755200000 (-34) r ltac:(lia) ltac:(reflexivity)
                   ltac:(lia) ltac:(reflexivity) Hr)) as [z [Ez Hz]].
    exists z. split; [exact Ez|lia].
Qed.

Lemma C7_notify_delay_range_witness :
  random_draw r_top = true /\
  exists z, notify_delay true r_top = Some z /\ 30000 <= z <= 60000.
Proof.
  split; [vm_compute; reflexivity|].
  apply (C7_notify_delay_range true r_top). vm_compute. reflexivity.
Defined.

(** C7: the largest value [Math.random()] may return, [1 - 2^-53], gives
    the delays [60000] and [600000]: the upper ends are reached. *)
Lemma C7_upper_end_reached :
  random_draw r_top = true /\ notify_delay true r_top = Some 60000 /\
  notify_delay false r_top = Some 600000.
Proof. split; [|split]; vm_compute; reflexivity. Qed.

(* ------------------------------------------------------------------ *)
(** ** The domain index: insertion and removal *)

Lemma filter_keep_all n s :
  ~ In n s -> filter (fun m => negb (Nat.eqb m n)) s = s.
Proof.
  induction s as [|x s IH]; intros H; [reflexivity|]. cbn [filter].
  assert (Q : Nat.eqb x n = false) by (apply Nat.eqb_neq; intros ->; apply H; left; reflexivity).
  rewrite Q. cbn [negb]. f_equal. apply IH. intros Hi. apply H. right. exact Hi.
Qed.

(** Adding a fresh Topic to the domain index ([_topic]) and removing it
    again ([Topic#destroy]: delete from the Set, drop the Set when empty)
    gives back the index as it was. *)
Theorem domain_index_add_remove d k n :
  (forall k' s, In (k', s) d -> s <> []) -> ~ In n (members d) ->
  dom_remove (dom_add d k n) k n = d.
Proof.
  induction d as [|[k0 s0] r IH]; intros Ne Nin.
  - cbn [dom_add dom_remove]. rewrite String.eqb_refl. cbn [filter]. rewrite Nat.eqb_refl.
    reflexivity.
  - rewrite members_cons in Nin.
    assert (N0 : ~ In n s0) by (intros Hi; apply Nin, in_or_app; left; exact Hi).
    assert (Nr : ~ In n (members r)) by (intros Hi; apply Nin, in_or_app; right; exact Hi).
    cbn [dom_add]. destruct (String.eqb k k0) eqn:E; cbn [dom_remove]; rewrite E.
    + unfold set_add.
      assert (X : existsb (Nat.eqb n) s0 = false).
      { apply not_true_iff_false. intros Hx. apply existsb_exists in Hx as [x [Hx Ex]].
        apply Nat.eqb_eq in Ex. subst x. contradiction. }
      rewrite X, filter_app, filter_keep_all by exact N0. cbn [filter]. rewrite Nat.eqb_refl.
      cbn [negb]. rewrite app_nil_r.
      destruct s0 as [|x s0]; [exfalso; exact (Ne k0 [] (or_introl eq_refl) eq_refl)|reflexivity].
    + f_equal. apply IH; [intros k' s Hi; apply (Ne k' s); right; exact Hi|exact Nr].
Qed.

Lemma domain_index_add_remove_witness :
  dom_remove (dom_add [("a.local"%string, [0%nat])] "b.local"%string 1) "b.local"%string 1
  = [("a.local"%string, [0%nat])] /\
  dom_remove (dom_add [("a.local"%string, [0%nat])] "a.local"%string 1) "a.local"%string 1
  = [("a.local"%string, [0%nat])].
Proof.
  assert (Ne : forall k' s, In (k', s) [("a.local"%string, [0%nat])] -> s <> []).
  { intros k' s [E|[]]. injection E as _ <-. discriminate. }
  assert (Nin : ~ In 1%nat (members [("a.local"%string, [0%nat])])).
  { cbn. intros [E|[]]. discriminate. }
  split; apply domain_index_add_remove; assumption.
Defined.


(* ------------------------------------------------------------------ *)
(** ** [_getId] *)

(** [_getId] returns the first string of the first TXT answer for [name]
    that carries one, and nothing when there is no such answer. *)
Theorem getId_first_txt answers name x :
  _getId answers name = Some x <->
  exists pre d post, answers = pre ++ ATXT name (x :: d) :: post /\
    forall a, In a pre -> txt_with_data name a = false.
Proof.
  induction answers as [|a rest IH].
  - cbn. split; [discriminate|]. intros [pre [d [post [E _]]]]. destruct pre; discriminate.
  - assert (Skip : txt_with_data name a = false -> _getId (a :: rest) name = _getId rest name ->
      (_getId (a :: rest) name = Some x <->
       exists pre d post, a :: rest = pre ++ ATXT name (x :: d) :: post /\
         forall a0, In a0 pre -> txt_with_data name a0 = false)).
    { intros Ta G. rewrite G, IH. split.
      - intros [pre [d [post [E F]]]]. exists (a :: pre), d, post. rewrite E.
        split; [reflexivity|]. intros a0 [<-|H]; [exact Ta|exact (F a0 H)].
      - intros [[|a1 pre] [d [post [E F]]]].
        + injection E as Ea _. subst a. cbn in Ta. rewrite String.eqb_refl in Ta. discriminate.
        + injection E as <- E. exists pre, d, post. split; [exact E|].
          intros a0 H. apply F. right. exact H. }
    destruct a as [n0 tg p | n0 [|d0 ds] | ty n0]; try (apply Skip; reflexivity).
    destruct (String.eqb n0 name) eqn:Q.
    + apply String.eqb_eq in Q. subst n0. cbn. rewrite String.eqb_refl. split.
      * intros H. injection H as <-. exists [], ds, rest. split; [reflexivity|intros _ []].
      * intros [[|a1 pre] [d [post [E F]]]].
        -- injection E as <- _ _. reflexivity.
        -- injection E as <- _. specialize (F _ (or_introl eq_refl)). cbn in F.
           rewrite String.eqb_refl in F. discriminate.
    + apply Skip; [exact Q|]. cbn. rewrite Q. reflexivity.
Qed.

(* ------------------------------------------------------------------ *)
(** ** Replacing a Topic *)

Lemma get_topic_put_same w n t t' :
  get_topic w n = Some t -> get_topic (put_topic w n t') n = Some t'.
Proof.
  unfold get_topic, put_topic. cbn [w_topics w_set_topics]. intros E.
  rewrite nth_error_set_nth, Nat.eqb_refl.
  assert (L : (n < List.length (w_topics w))%nat) by (apply nth_error_Some; congruence).
  apply Nat.ltb_lt in L. rewrite L. reflexivity.
Qed.

(* ------------------------------------------------------------------ *)
(** ** Peer events of the DHT and multicast handlers *)

Ltac np_list L :=
  exists L; split; [reflexivity|];
  intros o Ho; repeat (destruct Ho as [<-|Ho]; [reflexivity|]); destruct Ho.

Lemma npe_refl w : np_ext w w.
Proof. np_list (@nil obs). Qed.

Lemma npe_trans w1 w2 w3 : np_ext w1 w2 -> np_ext w2 w3 -> np_ext w1 w3.
Proof.
  intros [e1 [T1 P1]] [e2 [T2 P2]]. exists (e2 ++ e1). split; [rewrite T2, T1, app_assoc; reflexivity|].
  intros o Ho. apply in_app_or in Ho as [Ho|Ho]; auto.
Qed.

Lemma npe_same_r w u u' : w_trace u' = w_trace u -> np_ext w u -> np_ext w u'.
Proof. intros E [e [T P]]. exists e. split; [rewrite E; exact T|exact P]. Qed.

Lemma npe_remove_listener_r w u n r : np_ext w u -> np_ext w (remove_listener u n r).
Proof.
  apply npe_same_r. unfold remove_listener. destruct (get_topic u n); reflexivity.
Qed.

Lemma npe_topic_destroy_r w u n : np_ext w u -> np_ext w (topic_destroy u n).
Proof.
  intros F. apply (npe_trans _ _ _ F). unfold topic_destroy.
  destruct (get_topic u n) as [t|]; [|apply npe_refl]. destruct (t_destroyed t); [apply npe_refl|].
  destruct (t_stream t) as [s|]; destruct (t_announce t); cbn.
  - np_list [ODhtUnannounce n; OStreamDestroy s; ODestroy n].
  - np_list [OStreamDestroy s; ODestroy n].
  - np_list [ODhtUnannounce n; ODestroy n].
  - np_list [ODestroy n].
Qed.

Lemma npe_session_done_r w u : np_ext w u -> np_ext w (session_done u).
Proof.
  intros F. apply (npe_trans _ _ _ F). unfold session_done.
  destruct (Z.eqb _ 0); cbn; [np_list [OEmit None EClose; ODhtDestroy]|np_list (@nil obs)].
Qed.

Lemma npe_obs_r w u o : is_peer_obs o = false -> np_ext w u -> np_ext w (trace_obs o u).
Proof.
  intros N F. apply (npe_trans _ _ _ F). exists [o]. split; [reflexivity|].
  intros o' [<-|[]]. exact N.
Qed.

Lemma npe_call_r w u n e r : np_ext w u -> np_ext w (call_listener n e u r).
Proof.
  intros F. unfold call_listener. cbv zeta.
  assert (F1 : np_ext w (if rg_once r then remove_listener u n r else u))
    by (destruct (rg_once r); [apply npe_remove_listener_r|]; exact F).
  destruct (rg_fn r) as [| c | c].
  - apply npe_session_done_r. exact F1.
  - apply npe_obs_r; [reflexivity|exact F1].
  - destruct e; [|exact F1|exact F1].
    apply npe_obs_r; [reflexivity|]. apply npe_topic_destroy_r, npe_remove_listener_r. exact F1.
Qed.

Lemma npe_fold {A} (f : world -> A -> world) w l : forall u,
  (forall u' x, np_ext w u' -> np_ext w (f u' x)) -> np_ext w u -> np_ext w (fold_left f l u).
Proof.
  induction l as [|x l IH]; intros u Hf F; [exact F|]. cbn [fold_left].
  apply IH; [exact Hf|]. apply Hf. exact F.
Qed.

(** [emit] records the event, then its listeners run; they emit no peer
    event. *)
Lemma emit_topic_trace w n e :
  exists ext, w_trace (emit_topic w n e) = ext ++ OEmit (Some n) e :: w_trace w /\
    forall o, In o ext -> is_peer_obs o = false.
Proof.
  assert (F : np_ext (trace_obs (OEmit (Some n) e) w) (emit_topic w n e)).
  { unfold emit_topic. destruct (get_topic (trace_obs (OEmit (Some n) e) w) n); [|apply npe_refl].
    apply npe_fold; [intros u' r F'; apply npe_call_r; exact F'|apply npe_refl]. }
  exact F.
Qed.

Lemma filter_none {A} (f : A -> bool) l : (forall x, In x l -> f x = false) -> filter f l = [].
Proof.
  induction l as [|x l IH]; intros H; [reflexivity|]. cbn. rewrite (H x (or_introl eq_refl)).
  apply IH. intros y Hy. apply H. right. exact Hy.
Qed.

Lemma fold_emit_trace {A} (h : world -> A -> world) (tn : A -> nat) (tp : A -> peer) :
  (forall w x, h w x = emit_topic w (tn x) (EPeer (tp x))) ->
  forall l w, exists ext, w_trace (fold_left h l w) = ext ++ w_trace w /\
    rev (filter is_peer_obs ext) = map (fun x => OEmit (Some (tn x)) (EPeer (tp x))) l.
Proof.
  intros H. induction l as [|x l IH]; intros w; [exists []; split; reflexivity|].
  cbn [fold_left]. destruct (IH (h w x)) as [e2 [T2 P2]].
  destruct (emit_topic_trace w (tn x) (EPeer (tp x))) as [e1 [T1 P1]].
  rewrite (H w x) in T2. rewrite (H w x).
  exists (e2 ++ e1 ++ [OEmit (Some (tn x)) (EPeer (tp x))]). split.
  - rewrite T2, T1, <- !app_assoc. reflexivity.
  - rewrite !filter_app, (filter_none _ e1 P1), !rev_app_distr, P2. reflexivity.
Qed.

(** [_ondhtdata]: a destroyed Topic ignores the data; a live one emits one
    'peer' per local peer (local, no referrer), then one per peer (not
    local, the data's node as referrer), in order. *)
Theorem ondhtdata_peers w n t d :
  get_topic w n = Some t ->
  (t_destroyed t = true -> _ondhtdata w n d = w) /\
  (t_destroyed t = false -> exists ext, w_trace (_ondhtdata w n d) = ext ++ w_trace w /\
     rev (filter is_peer_obs ext) =
       map (fun hp => OEmit (Some n) (EPeer (mkPeer (fst hp) (snd hp) true None))) (dd_localPeers d) ++
       map (fun hp => OEmit (Some n) (EPeer (mkPeer (fst hp) (snd hp) false (Some (dd_node d)))))
         (dd_peers d)).
Proof.
  intros E. unfold _ondhtdata. rewrite E. split; [intros ->; reflexivity|intros ->].
  set (h1 := fun w hp => emit_topic w n (EPeer (mkPeer (fst hp) (snd hp) true None))).
  set (h2 := fun w hp => emit_topic w n (EPeer (mkPeer (fst hp) (snd hp) false (Some (dd_node d))))).
  destruct (fold_emit_trace h1 (fun _ => n) (fun hp => mkPeer (fst hp) (snd hp) true None)
              (fun _ _ => eq_refl) (dd_localPeers d) w) as [e1 [T1 P1]].
  destruct (fold_emit_trace h2 (fun _ => n) (fun hp => mkPeer (fst hp) (snd hp) false (Some (dd_node d)))
              (fun _ _ => eq_refl) (dd_peers d) (fold_left h1 (dd_localPeers d) w)) as [e2 [T2 P2]].
  exists (e2 ++ e1). split; [rewrite T2, T1, app_assoc; reflexivity|].
  rewrite filter_app, rev_app_distr, P1, P2. reflexivity.
Qed.

Lemma fold_emit_extends {A} (h : world -> A -> world) (tn : A -> nat) (te : A -> event) :
  (forall w x, h w x = emit_topic w (tn x) (te x)) ->
  forall l w, exists ext, w_trace (fold_left h l w) = ext ++ w_trace w.
Proof.
  intros H. induction l as [|x l IH]; intros w; [exists []; reflexivity|].
  cbn [fold_left]. destruct (IH (h w x)) as [e2 T2].
  destruct (emit_topic_trace w (tn x) (te x)) as [e1 [T1 _]].
  exists (e2 ++ e1 ++ [OEmit (Some (tn x)) (te x)]). rewrite T2, (H w x), T1, <- !app_assoc. reflexivity.
Qed.

Lemma onmdns_app w qs l1 l2 address :
  _onmdnsresponse w (mkPacket qs (l1 ++ l2)) address =
  _onmdnsresponse (_onmdnsresponse w (mkPacket qs l1) address) (mkPacket qs l2) address.
Proof. unfold _onmdnsresponse. cbn [p_answers]. apply fold_left_app. Qed.

Lemma onmdns_extends w p address :
  exists ext, w_trace (_onmdnsresponse w p address) = ext ++ w_trace w.
Proof.
  destruct p as [qs ans]. unfold _onmdnsresponse. cbn [p_answers]. revert w.
  induction ans as [|a ans IH]; intros w; [exists []; reflexivity|]. cbn [fold_left].
  match goal with |- context [fold_left ?f ans ?u] => destruct (IH u) as [e2 T2]; set (u' := u) in * end.
  assert (E1 : exists e1, w_trace u' = e1 ++ w_trace w).
  { subst u'. destruct a as [name target port| |]; [|exists []; reflexivity..].
    destruct (dom_get (w_domains w) name) as [set|]; [|exists []; reflexivity].
    apply (fold_emit_extends _ (fun n => n)
             (fun _ => EPeer (mkPeer (if String.eqb target "0.0.0.0"%string then address else target)
                                port true None))).
    intros; reflexivity. }
  destruct E1 as [e1 T1]. exists (e2 ++ e1). rewrite T2, T1, app_assoc. reflexivity.
Qed.

Lemma onmdns_none w p address :
  (forall a, In a (p_answers p) ->
     match a with ASRV name _ _ => dom_get (w_domains w) name = None | _ => True end) ->
  _onmdnsresponse w p address = w.
Proof.
  destruct p as [qs ans]. intros H. unfold _onmdnsresponse. cbn [p_answers] in *.
  induction ans as [|a ans IH]; [reflexivity|]. cbn [fold_left].
  replace (match a with
           | ASRV name target port =>
               match dom_get (w_domains w) name with
               | Some set => fold_left (fun w0 n => emit_topic w0 n
                    (EPeer (mkPeer (if String.eqb target "0.0.0.0"%string then address else target)
                              port true None))) set w
               | None => w end
           | _ => w end) with w.
  - apply IH. intros a0 Ha0. apply H. right. exact Ha0.
  - specialize (H a (or_introl eq_refl)). destruct a as [name target port| |]; try reflexivity.
    rewrite H. reflexivity.
Qed.

Lemma onmdns_single w address qs name target port set :
  dom_get (w_domains w) name = Some set ->
  exists ext, w_trace (_onmdnsresponse w (mkPacket qs [ASRV name target port]) address)
                = ext ++ w_trace w /\
    rev (filter is_peer_obs ext) =
      map (fun n => OEmit (Some n) (EPeer (mkPeer (if String.eqb target "0.0.0.0"%string
                                                   then address else target) port true None))) set.
Proof.
  intros E. unfold _onmdnsresponse. cbn [p_answers fold_left]. rewrite E.
  apply (fold_emit_trace _ (fun n => n) (fun _ => mkPeer (if String.eqb target "0.0.0.0"%string
                                                  then address else target) port true None)).
  intros; reflexivity.
Qed.

(** [_onmdnsresponse]: a packet with no SRV answer for a domain of the
    index changes nothing. Otherwise the first SRV answer for an indexed
    domain makes every Topic of that domain's Set emit one 'peer' (local,
    no referrer) with the answer's port, and its target as host, or the
    sender's address when the target is [0.0.0.0]: these are the first
    'peer' events of the packet, and the only ones when that answer is the
    packet's only answer. *)
Theorem onmdnsresponse_peers w address :
  (forall p, (forall a, In a (p_answers p) ->
                match a with ASRV name _ _ => dom_get (w_domains w) name = None | _ => True end) ->
     _onmdnsresponse w p address = w) /\
  (forall qs pre name target port rest set,
     (forall a, In a pre ->
        match a with ASRV name' _ _ => dom_get (w_domains w) name' = None | _ => True end) ->
     dom_get (w_domains w) name = Some set ->
     exists ext, w_trace (_onmdnsresponse w (mkPacket qs (pre ++ ASRV name target port :: rest)) address)
                   = ext ++ w_trace w /\
       exists later, rev (filter is_peer_obs ext) =
         map (fun n => OEmit (Some n) (EPeer (mkPeer (if String.eqb target "0.0.0.0"%string
                                                      then address else target) port true None))) set
         ++ later) /\
  (forall qs name target port set, dom_get (w_domains w) name = Some set ->
     exists ext, w_trace (_onmdnsresponse w (mkPacket qs [ASRV name target port]) address)
                   = ext ++ w_trace w /\
       rev (filter is_peer_obs ext) =
         map (fun n => OEmit (Some n) (EPeer (mkPeer (if String.eqb target "0.0.0.0"%string
                                                      then address else target) port true None))) set).
Proof.
  split; [intros p; exact (onmdns_none w p address)|].
  split; [|intros qs name target port set; exact (onmdns_single w address qs name target port set)].
  intros qs pre name target port rest set Hpre E.
  change (pre ++ ASRV name target port :: rest) with (pre ++ [ASRV name target port] ++ rest).
  rewrite !onmdns_app, (onmdns_none w (mkPacket qs pre) address Hpre).
  destruct (onmdns_single w address qs name target port set E) as [e1 [T1 P1]].
  destruct (onmdns_extends (_onmdnsresponse w (mkPacket qs [ASRV name target port]) address)
              (mkPacket qs rest) address) as [e2 T2].
  exists (e2 ++ e1). split; [rewrite T2, T1, app_assoc; reflexivity|].
  exists (rev (filter is_peer_obs e2)). rewrite filter_app, rev_app_distr, P1. reflexivity.
Qed.

(* ------------------------------------------------------------------ *)
(** ** Streams and the [done] of the DHT loop *)

Lemma get_topic_put w n t' m :
  get_topic (put_topic w n t') m =
  if Nat.eqb n m then (if Nat.ltb n (List.length (w_topics w)) then Some t' else None)
  else get_topic w m.
Proof. unfold get_topic, put_topic. cbn [w_topics w_set_topics]. apply nth_error_set_nth. Qed.

Lemma sf_refl w : sf w w.
Proof. split; [reflexivity|]. intros m t E. exists t. split; [exact E|reflexivity]. Qed.

Lemma sf_trans w1 w2 w3 : sf w1 w2 -> sf w2 w3 -> sf w1 w3.
Proof.
  intros [S1 T1] [S2 T2]. split; [congruence|]. intros m t E.
  destruct (T1 m t E) as [t1 [E1 P1]]. destruct (T2 m t1 E1) as [t2 [E2 P2]].
  exists t2. split; [exact E2|congruence].
Qed.

Lemma sf_same_r w u u' :
  w_streams u' = w_streams u -> w_topics u' = w_topics u -> sf w u -> sf w u'.
Proof.
  intros S T F. apply (sf_trans _ _ _ F). split; [exact S|]. intros m t E. exists t.
  split; [unfold get_topic in *; rewrite T; exact E|reflexivity].
Qed.

Lemma sf_put w n t t' : get_topic w n = Some t -> t_stream t' = t_stream t -> sf w (put_topic w n t').
Proof.
  intros E P. split; [reflexivity|]. intros m t0 E0. rewrite get_topic_put.
  assert (L : (n < List.length (w_topics w))%nat) by (apply nth_error_Some; unfold get_topic in E; congruence).
  apply Nat.ltb_lt in L. rewrite L.
  destruct (Nat.eqb n m) eqn:Q.
  - apply Nat.eqb_eq in Q. subst m. rewrite E in E0. injection E0 as <-. exists t'. split; [reflexivity|exact P].
  - exists t0. split; [exact E0|reflexivity].
Qed.

Lemma sf_remove_listener_r w u n r : sf w u -> sf w (remove_listener u n r).
Proof.
  intros F. apply (sf_trans _ _ _ F). unfold remove_listener.
  destruct (get_topic u n) as [t|] eqn:E; [|apply sf_refl]. apply (sf_put _ _ t); [exact E|reflexivity].
Qed.

Lemma sf_topic_destroy_r w u n : sf w u -> sf w (topic_destroy u n).
Proof.
  intros F. apply (sf_trans _ _ _ F). unfold topic_destroy.
  destruct (get_topic u n) as [t|] eqn:E; [|apply sf_refl]. destruct (t_destroyed t); [apply sf_refl|].
  assert (P : sf u (put_topic u n (t_set_timeoutDht (t_set_destroyed t true) None)))
    by (apply (sf_put _ _ t); [exact E|reflexivity]).
  destruct (t_stream t), (t_announce t); apply (sf_same_r _ _ _ eq_refl eq_refl P).
Qed.

Lemma sf_session_done_r w u : sf w u -> sf w (session_done u).
Proof. unfold session_done. destruct (Z.eqb _ 0); apply sf_same_r; reflexivity. Qed.

Lemma sf_obs_r w u o : sf w u -> sf w (trace_obs o u).
Proof. apply sf_same_r; reflexivity. Qed.

Lemma sf_call_r w u n e r : sf w u -> sf w (call_listener n e u r).
Proof.
  intros F. unfold call_listener. cbv zeta.
  assert (F1 : sf w (if rg_once r then remove_listener u n r else u))
    by (destruct (rg_once r); [apply sf_remove_listener_r|]; exact F).
  destruct (rg_fn r) as [| c | c].
  - apply sf_session_done_r. exact F1.
  - apply sf_obs_r. exact F1.
  - destruct e; [|exact F1|exact F1].
    apply sf_obs_r, sf_topic_destroy_r, sf_remove_listener_r. exact F1.
Qed.

Lemma sf_emit w n e : sf w (emit_topic w n e).
Proof.
  unfold emit_topic. assert (F0 : sf w (trace_obs (OEmit (Some n) e) w)) by apply sf_obs_r, sf_refl.
  destruct (get_topic (trace_obs (OEmit (Some n) e) w) n); [|exact F0].
  generalize (trace_obs (OEmit (Some n) e) w) F0. intros u.
  generalize (filter (fun r => evname_eqb (rg_event r) (ev_name e)) (t_listeners t)).
  intros l; revert u; induction l as [|r l IH]; intros u F; [exact F|]. cbn [fold_left].
  apply IH. apply sf_call_r. exact F.
Qed.

Lemma dht_done_noop w s e :
  (forall st t, nth_error (w_streams w) s = Some st -> get_topic w (s_topic st) = Some t ->
     (s_called st || t_destroyed t) = true) ->
  dht_done w s e = w.
Proof.
  intros H. unfold dht_done. destruct (nth_error (w_streams w) s) as [st|] eqn:Es; [|reflexivity].
  destruct (get_topic w (s_topic st)) as [t|] eqn:Et; [|reflexivity].
  rewrite (H st t eq_refl Et). reflexivity.
Qed.

Lemma dht_done_live w s e st t :
  nth_error (w_streams w) s = Some st -> get_topic w (s_topic st) = Some t ->
  s_called st = false -> t_destroyed t = false ->
  nth_error (w_streams (dht_done w s e)) s = Some (mkStream (s_topic st) true) /\
  In (OEmit (Some (s_topic st)) (EUpdate e)) (w_trace (dht_done w s e)) /\
  exists h t', In (h, TDhtLoop (s_topic st)) (w_io (dht_done w s e)) /\
    get_topic (dht_done w s e) (s_topic st) = Some t' /\ t_timeoutDht t' = Some h /\ t_stream t' = None.
Proof.
  intros Es Et C D. set (n := s_topic st) in *. unfold dht_done. rewrite Es. fold n. rewrite Et, C, D.
  cbn [orb].
  set (w1 := put_topic w n (t_set_stream t None)).
  set (w2 := w_set_streams w1 (set_nth (w_streams w1) s (mkStream n true))).
  assert (E1 : get_topic w1 n = Some (t_set_stream t None)) by (apply (get_topic_put_same _ _ t); exact Et).
  assert (E2 : get_topic w2 n = Some (t_set_stream t None)) by exact E1.
  destruct (sf_emit w2 n (EUpdate e)) as [S3 T3].
  destruct (T3 n _ E2) as [t3 [E3 P3]].
  destruct (emit_topic_trace w2 n (EUpdate e)) as [ext [Tr _]].
  set (w3 := emit_topic w2 n (EUpdate e)) in *.
  cbn [notify]. cbv zeta.
  assert (E4 : get_topic (w_set_next (w_set_io w3 (w_io w3 ++ [(w_next w3, TDhtLoop n)])) (S (w_next w3))) n
               = Some t3) by exact E3.
  rewrite E4.
  set (w4 := w_set_next _ _) in *.
  split.
  { change (nth_error (w_streams w3) s = Some (mkStream n true)). rewrite S3.
    cbn [w2 w_set_streams w_streams]. rewrite nth_error_set_nth, Nat.eqb_refl.
    assert (L : (s < List.length (w_streams w))%nat) by (apply nth_error_Some; congruence).
    apply Nat.ltb_lt in L. change (w_streams w1) with (w_streams w). rewrite L. reflexivity. }
  split.
  { change (In (OEmit (Some n) (EUpdate e)) (w_trace w3)). rewrite Tr. apply in_or_app. right. left. reflexivity. }
  exists (w_next w3), (t_set_timeoutDht t3 (Some (w_next w3))).
  split; [change (In (w_next w3, TDhtLoop n) (w_io w3 ++ [(w_next w3, TDhtLoop n)]));
          apply in_or_app; right; left; reflexivity|].
  split; [apply (get_topic_put_same _ _ t3); exact E4|].
  split; [reflexivity|]. cbn. exact P3.
Qed.

(** The [done] closure of the DHT loop: a stream's 'end' and 'error'
    together act once (the [called] flag), a destroyed Topic's stream does
    nothing, and the first one on a live Topic emits 'update' with the
    error and arms the retry timer, recorded as [_timeoutDht]. *)
Theorem dht_done_once w s e1 e2 :
  dht_done (dht_done w s e1) s e2 = dht_done w s e1 /\
  (forall st t, nth_error (w_streams w) s = Some st -> get_topic w (s_topic st) = Some t ->
     t_destroyed t = true -> dht_done w s e1 = w) /\
  (forall st t, nth_error (w_streams w) s = Some st -> get_topic w (s_topic st) = Some t ->
     s_called st = false -> t_destroyed t = false ->
     In (OEmit (Some (s_topic st)) (EUpdate e1)) (w_trace (dht_done w s e1)) /\
     exists h t', In (h, TDhtLoop (s_topic st)) (w_io (dht_done w s e1)) /\
       get_topic (dht_done w s e1) (s_topic st) = Some t' /\ t_timeoutDht t' = Some h /\
       t_stream t' = None).
Proof.
  split; [|split].
  - destruct (nth_error (w_streams w) s) as [st|] eqn:Es;
      [|rewrite !(dht_done_noop w s) by (intros st t E; rewrite Es in E; discriminate); reflexivity].
    destruct (get_topic w (s_topic st)) as [t|] eqn:Et;
      [|rewrite !(dht_done_noop w s) by (intros st' t E E'; rewrite Es in E; injection E as <-;
                                          rewrite Et in E'; discriminate); reflexivity].
    destruct (s_called st || t_destroyed t) eqn:B.
    + rewrite !(dht_done_noop w s); [reflexivity| |];
        intros st' t' E E'; rewrite Es in E; injection E as <-; rewrite Et in E'; injection E' as <-; exact B.
    + apply orb_false_iff in B as [C D].
      destruct (dht_done_live w s e1 st t Es Et C D) as [N _].
      set (w' := dht_done w s e1) in *. clearbody w'.
      apply dht_done_noop. intros st' t' E _. rewrite N in E. injection E as <-. reflexivity.
  - intros st t Es Et D. apply dht_done_noop. intros st' t' E E'. rewrite Es in E. injection E as <-.
    rewrite Et in E'. injection E' as <-. rewrite D. apply orb_true_r.
  - intros st t Es Et C D. destruct (dht_done_live w s e1 st t Es Et C D) as [_ [H1 H2]].
    split; [exact H1|exact H2].
Qed.

(* ------------------------------------------------------------------ *)
(** ** [Topic#destroy] twice, [Topic#update] *)

Lemma topic_destroy_marks w n t :
  get_topic w n = Some t -> t_destroyed t = false ->
  get_topic (topic_destroy w n) n = Some (t_set_timeoutDht (t_set_destroyed t true) None).
Proof.
  intros E D. unfold topic_destroy. rewrite E, D.
  pose proof (get_topic_put_same w n t (t_set_timeoutDht (t_set_destroyed t true) None) E) as G.
  destruct (t_stream t), (t_announce t); exact G.
Qed.

(** A second [destroy()] of a Topic does nothing. *)
Theorem topic_destroy_twice w n : topic_destroy (topic_destroy w n) n = topic_destroy w n.
Proof.
  destruct (get_topic w n) as [t|] eqn:E.
  - destruct (t_destroyed t) eqn:D.
    + assert (X : topic_destroy w n = w) by (unfold topic_destroy; rewrite E, D; reflexivity).
      rewrite X, X. reflexivity.
    + pose proof (topic_destroy_marks w n t E D) as M.
      set (w' := topic_destroy w n) in *. clearbody w'.
      unfold topic_destroy. rewrite M. reflexivity.
  - assert (X : topic_destroy w n = w) by (unfold topic_destroy; rewrite E; reflexivity).
    rewrite X, X. reflexivity.
Qed.

(* ------------------------------------------------------------------ *)
(** ** A destroyed session *)

Lemma rvf_r v u u' : rv_frame v u -> rv_frame u u' -> rv_frame v u'.
Proof. apply rv_frame_trans. Qed.

Lemma rvf_call_r v u n e r : rv_frame v u -> rv_frame v (r_call n e u r).
Proof.
  intros F. unfold r_call. cbv zeta.
  assert (F1 : rv_frame v (if rg_once r then r_remove_listener u n r else u))
    by (destruct (rg_once r); [apply (rvf_r _ _ _ F), rv_frame_remove_listener|exact F]).
  destruct (rg_fn r) as [| c | c].
  - exact (rvf_r _ _ _ F1 (rv_frame_session_done _)).
  - exact (rvf_r _ _ _ F1 (rv_frame_obs _ _)).
  - destruct e; [|exact F1|exact F1].
    apply (rvf_r _ _ _ F1). eapply rv_frame_trans; [apply rv_frame_remove_listener|].
    eapply rv_frame_trans; [apply rv_frame_topic_destroy|apply rv_frame_obs].
Qed.

Lemma rvf_fold {A} (f : rview -> A -> rview) v l : forall u,
  (forall u' x, rv_frame v u' -> rv_frame v (f u' x)) -> rv_frame v u -> rv_frame v (fold_left f l u).
Proof.
  induction l as [|x l IH]; intros u Hf F; [exact F|]. cbn [fold_left].
  apply IH; [exact Hf|]. apply Hf. exact F.
Qed.

Lemma rvf_emit_r v u n e : rv_frame v u -> rv_frame v (r_emit u n e).
Proof.
  intros F. unfold r_emit. assert (F0 := rvf_r _ _ _ F (rv_frame_obs u (OEmit (Some n) e))).
  destruct (rt_at (r_obs (OEmit (Some n) e) u) n) as [t|]; [|exact F0].
  apply rvf_fold; [intros u' r F'; apply rvf_call_r; exact F'|exact F0].
Qed.

Lemma rvf_ondhtdata v n d : rv_frame v (r_ondhtdata v n d).
Proof.
  unfold r_ondhtdata. destruct (rt_at v n) as [t|]; [|apply rv_frame_refl].
  destruct (rt_destroyed t); [apply rv_frame_refl|].
  apply rvf_fold; [intros u' x F'; apply rvf_emit_r; exact F'|].
  apply rvf_fold; [intros u' x F'; apply rvf_emit_r; exact F'|apply rv_frame_refl].
Qed.

Lemma rvf_onmdnsresponse v p addr : rv_frame v (r_onmdnsresponse v p addr).
Proof.
  unfold r_onmdnsresponse. apply rvf_fold; [|apply rv_frame_refl].
  intros u' [name target port| |] F'; [|exact F'..].
  destruct (dom_get (rv_domains u') name) as [set|]; [|exact F'].
  apply rvf_fold; [intros u'' x F''; apply rvf_emit_r; exact F''|exact F'].
Qed.

Lemma rvf_run_r v u tk : rv_frame v u -> rv_frame v (r_run u tk).
Proof.
  intros F. unfold r_run.
  destruct tk; try exact F; [apply rvf_emit_r|exact (rvf_r _ _ _ F (rv_frame_session_done _))]; exact F.
Qed.

Lemma rvf_rstep_destroyed v v' : rv_destroyed v = true -> rstep v v' -> rv_frame v v'.
Proof.
  intros D S. destruct S as [v|v name ann Hd|v name Hd|v n|v|v tk rest E|v l1 tk l2 E|v n d|v n err Hl|v p addr Hd].
  - apply rv_frame_refl.
  - rewrite D in Hd. discriminate.
  - rewrite D in Hd. discriminate.
  - apply rv_frame_topic_destroy.
  - unfold r_session_destroy. rewrite D. apply rv_frame_refl.
  - apply rvf_run_r. split; reflexivity.
  - apply rvf_run_r. split; reflexivity.
  - apply rvf_ondhtdata.
  - apply rvf_emit_r, rv_frame_refl.
  - apply rvf_onmdnsresponse.
Qed.

Lemma rvf_rsteps_destroyed v v' : rv_destroyed v = true -> rsteps v v' -> rv_frame v v'.
Proof.
  intros D S. induction S as [v|v1 v2 v3 H _ IH]; [apply rv_frame_refl|].
  pose proof (rvf_rstep_destroyed _ _ D H) as F. apply (rv_frame_trans _ _ _ F).
  apply IH. rewrite (proj1 F). exact D.
Qed.

(** Once [destroy()] has run, the session stays destroyed, never gets a new
    Topic, and [lookup], [announce] and [lookupOne] throw "Discovery
    instance is destroyed" and change nothing else. *)
Theorem destroyed_session_final w w' :
  w_destroyed w = true -> steps w w' ->
  w_destroyed w' = true /\ List.length (w_topics w') = List.length (w_topics w) /\
  (forall key rid, lookup w' key rid = (trace_obs (OThrow destroyed_error) w', None)) /\
  (forall key o rid, announce w' key o rid = (trace_obs (OThrow destroyed_error) w', None)) /\
  (forall key rid, lookupOne w' key rid = trace_obs (OThrow destroyed_error) w').
Proof.
  intros D S. destruct (rvf_rsteps_destroyed (rproj w) (rproj w') D (steps_rsteps _ _ S)) as [D' L].
  change (w_destroyed w' = w_destroyed w) in D'. rewrite D in D'.
  cbn [rproj rv_topics] in L. rewrite !length_map in L.
  split; [exact D'|]. split; [exact L|].
  split; [intros key rid; unfold lookup; rewrite D'; reflexivity|].
  split; [intros key o rid; unfold announce; rewrite D'; reflexivity|].
  intros key rid. unfold lookupOne, lookup. rewrite D'. reflexivity.
Qed.

(* ------------------------------------------------------------------ *)
(** ** The domain index holds the live Topics *)

Lemma dom_get_of_in d k s : NoDup (map fst d) -> In (k, s) d -> dom_get d k = Some s.
Proof.
  induction d as [|[k0 s0] r IH]; intros N H; [destruct H|].
  inversion N as [|? ? Nk Nr]; subst. cbn.
  destruct H as [E|H].
  - injection E as <- <-. rewrite String.eqb_refl. reflexivity.
  - destruct (String.eqb_spec k k0) as [->|Ne].
    + exfalso. apply Nk. apply (in_map fst) in H. exact H.
    + exact (IH Nr H).
Qed.

(** In a reachable state a Topic is live exactly when the index lists it
    under its own domain. *)
Lemma index_lists_live w n t :
  reachable w -> get_topic w n = Some t ->
  (t_destroyed t = false <-> exists s, dom_get (w_domains w) (t_domain t) = Some s /\ In n s).
Proof.
  intros R E. pose proof (reachable_wf w R) as W. pose proof (reachable_li w R) as L.
  assert (Ev : rt_at (rproj w) n = Some (rtopic t)) by (rewrite rt_at_rproj, E; reflexivity).
  split.
  - intros D. assert (Lv : rv_live (rproj w) n = true) by (unfold rv_live; rewrite Ev; cbn; rewrite D; reflexivity).
    destruct (in_members _ _ (L n Lv)) as [k [s [Hk Hn]]].
    destruct (wf_members _ W _ _ _ Hk Hn) as [a [ls Ek]]. rewrite Ev in Ek. unfold rtopic in Ek.
    assert (Dk : t_domain t = k) by congruence.
    exists s. rewrite Dk. split; [exact (dom_get_of_in _ _ _ (wf_keys _ W) Hk)|exact Hn].
  - intros [s [Hs Hn]]. apply dom_get_in in Hs.
    destruct (wf_members _ W _ _ _ Hs Hn) as [a [ls Ek]]. rewrite Ev in Ek. unfold rtopic in Ek. congruence.
Qed.

(* ------------------------------------------------------------------ *)
(** ** What [Discovery#destroy] leaves *)

Lemma sd_no_live v : wf v -> rv_destroyed v = false -> live_indexed v ->
  forall n, rv_live (r_session_destroy v) n = false.
Proof.
  intros W D L n. destruct (rv_live (r_session_destroy v) n) eqn:Lv; [|reflexivity]. exfalso.
  destruct (lfr_session_destroy v n Lv) as [L0 _].
  destruct (si_init v W D) as [S _]. pose proof (si_ms _ _ _ S n (L n L0)) as X.
  unfold rv_live, rv_destroyed_at in *. destruct (rt_at (r_session_destroy v) n) as [t|]; [|discriminate].
  rewrite X in Lv. discriminate.
Qed.

(** After [destroy()] of a live session every Topic is destroyed and the
    domain index is empty. *)
Theorem session_destroy_all w :
  reachable w -> w_destroyed w = false ->
  (forall n t, get_topic (session_destroy w) n = Some t -> t_destroyed t = true) /\
  w_domains (session_destroy w) = [].
Proof.
  intros R D. pose proof (reachable_wf w R) as W. pose proof (reachable_li w R) as L.
  assert (Dv : rv_destroyed (rproj w) = false) by exact D.
  pose proof (sd_no_live _ W Dv L) as N.
  assert (W' : wf (r_session_destroy (rproj w))) by exact (wf_rstep _ _ W (rs_session_destroy _)).
  assert (T : forall n t, rt_at (r_session_destroy (rproj w)) n = Some t -> rt_destroyed t = true).
  { intros n t E. specialize (N n). unfold rv_live in N. rewrite E in N.
    destruct (rt_destroyed t); [reflexivity|discriminate]. }
  split.
  - intros n t E. apply (T n (rtopic t)). rewrite <- rproj_session_destroy, rt_at_rproj, E. reflexivity.
  - change (w_domains (session_destroy w)) with (rv_domains (rproj (session_destroy w))).
    rewrite rproj_session_destroy.
    destruct (rv_domains (r_session_destroy (rproj w))) as [|[k s] r] eqn:Ed; [reflexivity|exfalso].
    assert (Hk : In (k, s) (rv_domains (r_session_destroy (rproj w)))) by (rewrite Ed; left; reflexivity).
    destruct s as [|m s]; [exact (wf_nonempty _ W' _ _ Hk eq_refl)|].
    destruct (wf_members _ W' _ _ m Hk (or_introl eq_refl)) as [a [ls Em]].
    pose proof (T m _ Em) as X. discriminate X.
Qed.

(* ------------------------------------------------------------------ *)
(** ** A destroyed session has an empty domain index *)

Lemma de_topic_destroy v n : rv_domains v = [] -> rv_domains (r_topic_destroy v n) = [].
Proof.
  intros H. unfold r_topic_destroy. destruct (rt_at v n) as [t|]; [|exact H].
  destruct (rt_destroyed t); [exact H|].
  destruct (rt_announce t); cbn; rewrite H; reflexivity.
Qed.

Lemma de_add_listener v n r : rv_domains v = [] -> rv_domains (r_add_listener v n r) = [].
Proof. intros H. unfold r_add_listener. destruct (rt_at v n); exact H. Qed.

Lemma de_remove_listener v n r : rv_domains v = [] -> rv_domains (r_remove_listener v n r) = [].
Proof. intros H. unfold r_remove_listener. destruct (rt_at v n); exact H. Qed.

Lemma de_session_done v : rv_domains v = [] -> rv_domains (r_session_done v) = [].
Proof. intros H. unfold r_session_done. cbv zeta. destruct (Z.eqb _ 0); exact H. Qed.

Lemma de_call u n e r : rv_domains u = [] -> rv_domains (r_call n e u r) = [].
Proof.
  intros H. unfold r_call. cbv zeta.
  assert (H1 : rv_domains (if rg_once r then r_remove_listener u n r else u) = [])
    by (destruct (rg_once r); [apply de_remove_listener|]; exact H).
  destruct (rg_fn r) as [| c | c].
  - apply de_session_done. exact H1.
  - exact H1.
  - destruct e; [|exact H1|exact H1]. cbn [rv_domains r_obs].
    apply de_topic_destroy, de_remove_listener. exact H1.
Qed.

Lemma de_fold {A} (f : rview -> A -> rview) l : forall u,
  (forall u' x, rv_domains u' = [] -> rv_domains (f u' x) = []) ->
  rv_domains u = [] -> rv_domains (fold_left f l u) = [].
Proof.
  induction l as [|x l IH]; intros u Hf H; [exact H|]. cbn [fold_left].
  apply IH; [exact Hf|]. apply Hf. exact H.
Qed.

Lemma de_emit u n e : rv_domains u = [] -> rv_domains (r_emit u n e) = [].
Proof.
  intros H. unfold r_emit. destruct (rt_at (r_obs (OEmit (Some n) e) u) n) as [t|]; [|exact H].
  apply de_fold; [intros u' r H'; apply de_call; exact H'|exact H].
Qed.

Lemma de_ondhtdata v n d : rv_domains v = [] -> rv_domains (r_ondhtdata v n d) = [].
Proof.
  intros H. unfold r_ondhtdata. destruct (rt_at v n) as [t|]; [|exact H].
  destruct (rt_destroyed t); [exact H|].
  apply de_fold; [intros u' x H'; apply de_emit; exact H'|].
  apply de_fold; [intros u' x H'; apply de_emit; exact H'|exact H].
Qed.

Lemma de_run u tk : rv_domains u = [] -> rv_domains (r_run u tk) = [].
Proof.
  intros H. unfold r_run. destruct tk; try exact H; [apply de_emit|apply de_session_done]; exact H.
Qed.

Lemma de_rstep_destroyed v v' : rv_destroyed v = true -> rv_domains v = [] -> rstep v v' ->
  rv_domains v' = [].
Proof.
  intros D H S. destruct S as [v|v name ann Hd|v name Hd|v n|v|v tk rest E|v l1 tk l2 E|v n d|v n err Hl|v p addr Hd].
  - exact H.
  - rewrite D in Hd. discriminate.
  - rewrite D in Hd. discriminate.
  - apply de_topic_destroy. exact H.
  - unfold r_session_destroy. rewrite D. exact H.
  - apply de_run. exact H.
  - apply de_run. exact H.
  - apply de_ondhtdata. exact H.
  - apply de_emit. exact H.
  - rewrite D in Hd. discriminate.
Qed.

(** Only [Discovery#destroy] sets the session's flag. *)
Lemma rstep_destroyed_cases v v' : rstep v v' ->
  rv_destroyed v' = rv_destroyed v \/ v' = r_session_destroy v.
Proof.
  intros S. destruct S as [v|v name ann Hd|v name Hd|v n|v|v tk rest E|v l1 tk l2 E|v n d|v n err Hl|v p addr Hd].
  - left. reflexivity.
  - left. reflexivity.
  - left. unfold r_lookupOne. rewrite (proj1 (rv_frame_add_listener _ _ _)), (proj1 (rv_frame_add_listener _ _ _)).
    reflexivity.
  - left. exact (proj1 (rv_frame_topic_destroy v n)).
  - right. reflexivity.
  - left. exact (proj1 (rvf_run_r v (rv_set_ticks v rest) tk (conj eq_refl eq_refl))).
  - left. exact (proj1 (rvf_run_r v (rv_set_io v (l1 ++ l2)) tk (conj eq_refl eq_refl))).
  - left. exact (proj1 (rvf_ondhtdata v n d)).
  - left. exact (proj1 (rvf_emit_r v v n (EUpdate err) (rv_frame_refl v))).
  - left. exact (proj1 (rvf_onmdnsresponse v p addr)).
Qed.

Lemma sd_domains_empty v : wf v -> rv_destroyed v = false -> live_indexed v ->
  rv_domains (r_session_destroy v) = [].
Proof.
  intros W D L. pose proof (sd_no_live _ W D L) as N.
  pose proof (wf_rstep _ _ W (rs_session_destroy _)) as W'.
  destruct (rv_domains (r_session_destroy v)) as [|[k s] r] eqn:Ed; [reflexivity|exfalso].
  assert (Hk : In (k, s) (rv_domains (r_session_destroy v))) by (rewrite Ed; left; reflexivity).
  destruct s as [|m s]; [exact (wf_nonempty _ W' _ _ Hk eq_refl)|].
  destruct (wf_members _ W' _ _ m Hk (or_introl eq_refl)) as [a [ls Em]].
  specialize (N m). unfold rv_live in N. rewrite Em in N. cbn in N. discriminate N.
Qed.

Lemma destroyed_empty_rsteps v v' : wf v -> live_indexed v ->
  (rv_destroyed v = true -> rv_domains v = []) -> rsteps v v' ->
  rv_destroyed v' = true -> rv_domains v' = [].
Proof.
  intros W L Q S. revert W L Q.
  induction S as [v|v1 v2 v3 H _ IH]; intros W L Q; [exact Q|].
  apply IH; [exact (wf_rstep _ _ W H)|exact (li_rstep _ _ L H)|].
  destruct (rv_destroyed v1) eqn:D1.
  - intros _. exact (de_rstep_destroyed _ _ D1 (Q eq_refl) H).
  - destruct (rstep_destroyed_cases _ _ H) as [E|E].
    + rewrite E, D1. intros X. discriminate X.
    + intros _. rewrite E. exact (sd_domains_empty _ W D1 L).
Qed.

(** In every reachable state a Topic is live exactly when the index lists
    it under its own domain, the entry [_onmdnsquery] and [_onmdnsresponse]
    look up; and once the session is destroyed, the index is empty and
    every Topic is destroyed. *)
Theorem domain_index_live w n t :
  reachable w -> get_topic w n = Some t ->
  (t_destroyed t = false <-> exists s, dom_get (w_domains w) (t_domain t) = Some s /\ In n s) /\
  (w_destroyed w = true -> w_domains w = [] /\ t_destroyed t = true).
Proof.
  intros R E. split; [exact (index_lists_live w n t R E)|].
  intros Dw.
  assert (Em : w_domains w = []).
  { destruct R as [dom S].
    apply (destroyed_empty_rsteps (rproj (init_world dom)) (rproj w)); [apply wf_init| | |exact (steps_rsteps _ _ S)|exact Dw].
    - intros [|m] X; discriminate X.
    - intros X. discriminate X. }
  split; [exact Em|].
  destruct (t_destroyed t) eqn:Dt; [reflexivity|exfalso].
  assert (Lv : rv_live (rproj w) n = true) by (unfold rv_live; rewrite rt_at_rproj, E; cbn; rewrite Dt; reflexivity).
  pose proof (reachable_li w R n Lv) as X. change (rv_domains (rproj w)) with (w_domains w) in X.
  rewrite Em in X. exact X.
Qed.

(* ------------------------------------------------------------------ *)
(** ** Instances *)

Lemma ondhtdata_peers_witness :
  option_map t_destroyed (get_topic w_lookupOne 0) = Some false /\
  exists ext, w_trace (_ondhtdata w_lookupOne 0 two_peers) = ext ++ w_trace w_lookupOne /\
    rev (filter is_peer_obs ext) = [OEmit (Some 0%nat) (EPeer peer_1); OEmit (Some 0%nat) (EPeer peer_2)].
Proof.
  assert (D : option_map t_destroyed (get_topic w_lookupOne 0) = Some false) by (vm_compute; reflexivity).
  split; [exact D|].
  destruct (get_topic w_lookupOne 0) as [t|] eqn:E; [|discriminate D].
  injection D as D.
  destruct (proj2 (ondhtdata_peers w_lookupOne 0 t two_peers E) D) as [ext [T P]].
  exists ext. split; [exact T|]. rewrite P. reflexivity.
Defined.

Lemma onmdnsresponse_peers_witness :
  _onmdnsresponse w_c1_ann foreign_query "192.168.1.7"%string = w_c1_ann /\
  (exists ext, w_trace (_onmdnsresponse w_c1_ann
                 (mkPacket [] [ATXT dom20 [[Byte.x03]]; ASRV dom20 "0.0.0.0"%string 4000;
                               ASRV dom20 "192.168.1.8"%string 4001]) "192.168.1.7"%string)
                = ext ++ w_trace w_c1_ann /\
    exists later, rev (filter is_peer_obs ext) = [OEmit (Some 0%nat) (EPeer local_peer)] ++ later) /\
  exists ext, w_trace (_onmdnsresponse w_c1_ann (mkPacket [] [ASRV dom20 "0.0.0.0"%string 4000]) "192.168.1.7"%string)
                = ext ++ w_trace w_c1_ann /\
    rev (filter is_peer_obs ext) = [OEmit (Some 0%nat) (EPeer local_peer)].
Proof.
  assert (Hd : dom_get (w_domains w_c1_ann) dom20 = Some [0%nat]) by (vm_compute; reflexivity).
  split; [|split].
  - apply (proj1 (onmdnsresponse_peers w_c1_ann "192.168.1.7"%string)).
    intros a [<-|[]]. exact I.
  - destruct (proj1 (proj2 (onmdnsresponse_peers w_c1_ann "192.168.1.7"%string)) []
                [ATXT dom20 [[Byte.x03]]] dom20 "0.0.0.0"%string 4000
                [ASRV dom20 "192.168.1.8"%string 4001] [0%nat]) as [ext [T [later P]]].
    + intros a [<-|[]]. exact I.
    + exact Hd.
    + exists ext. split; [exact T|]. exists later. rewrite P. reflexivity.
  - destruct (proj2 (proj2 (onmdnsresponse_peers w_c1_ann "192.168.1.7"%string)) [] dom20 "0.0.0.0"%string 4000
                [0%nat] Hd) as [ext [T P]].
    exists ext. split; [exact T|]. rewrite P. reflexivity.
Defined.

Lemma dht_done_once_witness :
  dht_done (dht_done w_lookupOne 0 None) 0 (Some "timeout"%string) = dht_done w_lookupOne 0 None /\
  In (OEmit (Some 0%nat) (EUpdate None)) (w_trace (dht_done w_lookupOne 0 None)).
Proof.
  destruct (dht_done_once w_lookupOne 0 None (Some "timeout"%string)) as [O [_ L]].
  split; [exact O|].
  destruct (nth_error (w_streams w_lookupOne) 0) as [st|] eqn:Es; [|vm_compute in Es; discriminate Es].
  assert (Ts : s_topic st = 0%nat /\ s_called st = false) by (vm_compute in Es; injection Es as <-; split; reflexivity).
  destruct Ts as [Ts Cs].
  destruct (get_topic w_lookupOne (s_topic st)) as [t|] eqn:Et; [|rewrite Ts in Et; vm_compute in Et; discriminate Et].
  assert (D : t_destroyed t = false) by (rewrite Ts in Et; vm_compute in Et; injection Et as <-; reflexivity).
  pose proof (proj1 (L st t eq_refl Et Cs D)) as X. rewrite Ts in X. exact X.
Defined.

Lemma destroyed_session_final_witness :
  w_destroyed (session_destroy w_c1_ann) = true /\
  lookupOne (session_destroy w_c1_ann) key20 rid_b
    = trace_obs (OThrow destroyed_error) (session_destroy w_c1_ann).
Proof.
  assert (D : w_destroyed (session_destroy w_c1_ann) = true) by (vm_compute; reflexivity).
  split; [exact D|].
  exact (proj2 (proj2 (proj2 (proj2 (destroyed_session_final _ _ D (steps_refl _))))) key20 rid_b).
Defined.

Lemma domain_index_live_witness :
  (exists s, dom_get (w_domains w_c1_ann) dom20 = Some s /\ In 0%nat s) /\
  w_domains (session_destroy w_c1_ann) = [].
Proof.
  assert (R : reachable w_c1_ann) by (exists None; apply steps_cons with w_c1_ann; [apply st_announce|apply steps_refl]).
  split.
  - destruct (get_topic w_c1_ann 0) as [t|] eqn:E; [|vm_compute in E; discriminate E].
    assert (P : t_destroyed t = false /\ t_domain t = dom20) by (vm_compute in E; injection E as <-; split; reflexivity).
    destruct P as [D Dn]. rewrite <- Dn. exact (proj1 (proj1 (domain_index_live w_c1_ann 0 t R E)) D).
  - assert (R2 : reachable (session_destroy w_c1_ann)).
    { exists None. apply steps_cons with w_c1_ann; [apply st_announce|].
      apply steps_cons with (session_destroy w_c1_ann); [apply st_session_destroy|apply steps_refl]. }
    destruct (get_topic (session_destroy w_c1_ann) 0) as [t|] eqn:E; [|vm_compute in E; discriminate E].
    exact (proj1 (proj2 (domain_index_live _ 0 t R2 E) ltac:(vm_compute; reflexivity))).
Defined.

Lemma session_destroy_all_witness :
  w_domains (session_destroy w_c1_ann) = [] /\
  option_map t_destroyed (get_topic (session_destroy w_c1_ann) 0) = Some true.
Proof.
  assert (R : reachable w_c1_ann) by (exists None; apply steps_cons with w_c1_ann; [apply st_announce|apply steps_refl]).
  assert (D : w_destroyed w_c1_ann = false) by (vm_compute; reflexivity).
  destruct (session_destroy_all w_c1_ann R D) as [A B]. split; [exact B|].
  destruct (get_topic (session_destroy w_c1_ann) 0) as [t|] eqn:E; [|vm_compute in E; discriminate E].
  cbn [option_map]. rewrite (A 0%nat t E). reflexivity.
Defined.

(* ------------------------------------------------------------------ *)
(** ** [missing] never grows once the session is destroyed *)

Lemma mis_topic_destroy v n : rv_missing (r_topic_destroy v n) = rv_missing v.
Proof.
  unfold r_topic_destroy. destruct (rt_at v n) as [t|]; [|reflexivity].
  destruct (rt_destroyed t); [reflexivity|]. destruct (rt_announce t); reflexivity.
Qed.

Lemma mis_add_listener v n r : rv_missing (r_add_listener v n r) = rv_missing v.
Proof. unfold r_add_listener. destruct (rt_at v n); reflexivity. Qed.

Lemma mis_remove_listener v n r : rv_missing (r_remove_listener v n r) = rv_missing v.
Proof. unfold r_remove_listener. destruct (rt_at v n); reflexivity. Qed.

Lemma mis_session_done v : rv_missing (r_session_done v) = (rv_missing v - 1)%Z.
Proof. unfold r_session_done. cbv zeta. destruct (Z.eqb _ 0); reflexivity. Qed.

Lemma mis_call_r v u n e r :
  (rv_missing u <= rv_missing v)%Z -> (rv_missing (r_call n e u r) <= rv_missing v)%Z.
Proof.
  intros F. unfold r_call. cbv zeta.
  assert (F1 : (rv_missing (if rg_once r then r_remove_listener u n r else u) <= rv_missing v)%Z)
    by (destruct (rg_once r); [rewrite mis_remove_listener|]; exact F).
  destruct (rg_fn r) as [| c | c].
  - rewrite mis_session_done. lia.
  - exact F1.
  - destruct e; [|exact F1|exact F1]. cbn [rv_missing r_obs].
    rewrite mis_topic_destroy, mis_remove_listener. exact F1.
Qed.

Lemma mis_fold {A} (f : rview -> A -> rview) v l : forall u,
  (forall u' x, (rv_missing u' <= rv_missing v)%Z -> (rv_missing (f u' x) <= rv_missing v)%Z) ->
  (rv_missing u <= rv_missing v)%Z -> (rv_missing (fold_left f l u) <= rv_missing v)%Z.
Proof.
  induction l as [|x l IH]; intros u Hf F; [exact F|]. cbn [fold_left].
  apply IH; [exact Hf|]. apply Hf. exact F.
Qed.

Lemma mis_emit_r v u n e :
  (rv_missing u <= rv_missing v)%Z -> (rv_missing (r_emit u n e) <= rv_missing v)%Z.
Proof.
  intros F. unfold r_emit. destruct (rt_at (r_obs (OEmit (Some n) e) u) n) as [t|]; [|exact F].
  apply mis_fold; [intros u' r F'; apply mis_call_r; exact F'|exact F].
Qed.

Lemma mis_ondhtdata v n d : (rv_missing (r_ondhtdata v n d) <= rv_missing v)%Z.
Proof.
  unfold r_ondhtdata. destruct (rt_at v n) as [t|]; [|lia].
  destruct (rt_destroyed t); [lia|].
  apply mis_fold; [intros u' x F'; apply mis_emit_r; exact F'|].
  apply mis_fold; [intros u' x F'; apply mis_emit_r; exact F'|lia].
Qed.

Lemma mis_run_r v u tk :
  (rv_missing u <= rv_missing v)%Z -> (rv_missing (r_run u tk) <= rv_missing v)%Z.
Proof.
  intros F. unfold r_run. destruct tk; try exact F; [apply mis_emit_r; exact F|].
  rewrite mis_session_done. lia.
Qed.

Lemma mis_rstep_destroyed v v' : rv_destroyed v = true -> rstep v v' ->
  (rv_missing v' <= rv_missing v)%Z.
Proof.
  intros D S. destruct S as [v|v name ann Hd|v name Hd|v n|v|v tk rest E|v l1 tk l2 E|v n d|v n err Hl|v p addr Hd].
  - lia.
  - rewrite D in Hd. discriminate.
  - rewrite D in Hd. discriminate.
  - rewrite mis_topic_destroy. lia.
  - unfold r_session_destroy. rewrite D. lia.
  - apply mis_run_r. cbn. lia.
  - apply mis_run_r. cbn. lia.
  - apply mis_ondhtdata.
  - apply mis_emit_r. lia.
  - rewrite D in Hd. discriminate.
Qed.

Lemma mis_rsteps_destroyed v v' : rv_destroyed v = true -> rsteps v v' ->
  (rv_missing v' <= rv_missing v)%Z.
Proof.
  intros D S. induction S as [v|v1 v2 v3 H _ IH]; [lia|].
  pose proof (mis_rstep_destroyed _ _ D H) as M.
  assert (D2 : rv_destroyed v2 = true) by (rewrite (proj1 (rvf_rstep_destroyed _ _ D H)); exact D).
  specialize (IH D2). lia.
Qed.

Lemma session_destroy_missing_empty w :
  w_destroyed w = false -> members (w_domains w) = [] -> w_missing (session_destroy w) = 1%Z.
Proof.
  intros D M. change (w_missing (session_destroy w)) with (rv_missing (rproj (session_destroy w))).
  rewrite rproj_session_destroy. unfold r_session_destroy.
  change (rv_destroyed (rproj w)) with (w_destroyed w). rewrite D.
  cbn [rv_domains rv_set_missing rv_set_destroyed rproj]. rewrite M. reflexivity.
Qed.

(** C1: let [destroy()] be called on a reachable live session [w]; the
    Topics in its domain index, [members (w_domains w)], are exactly its
    live Topics. [destroy()] itself emits no session 'close': that waits at
    least for its [process.nextTick]. In every later state [w2] the session
    has emitted 'close' at most once; wherever it has, every Topic that was
    in the index emitted its own 'close' before it. It has emitted 'close'
    exactly when no [done] call is pending any more: neither the session's
    tick nor the 'close' of one of those Topics. When the index was empty,
    running the session's tick emits 'close'. *)
Theorem C1_session_close (w w2 : world) :
  reachable w -> w_destroyed w = false -> steps (session_destroy w) w2 ->
  (forall m, In m (members (w_domains w)) <-> option_map t_destroyed (get_topic w m) = Some false) /\
  countb is_session_close (w_trace (session_destroy w)) = 0%nat /\
  (countb is_session_close (w_trace w2) <= 1)%nat /\
  (forall post pre, filter is_rel_obs (w_trace w2) = post ++ OEmit None EClose :: pre ->
     forall m, In m (members (w_domains w)) -> In (OEmit (Some m) EClose) pre) /\
  (countb is_session_close (w_trace w2) = 0%nat <->
     exists tk, In tk (w_ticks w2 ++ map snd (w_io w2)) /\
       is_pending (members (w_domains w)) tk = true) /\
  (members (w_domains w) = [] -> forall rest, w_ticks w2 = TSessionDone :: rest ->
     In (OEmit None EClose) (w_trace (run_task (w_set_ticks w2 rest) TSessionDone))).
Proof.
  intros R D S.
  destruct (session_close_core w w2 R D S) as [A [B [C [O P]]]].
  pose proof (reachable_wf w R) as W.
  assert (Dv : rv_destroyed (rproj w) = false) by exact D.
  destruct (si_init (rproj w) W Dv) as [S0 _].
  change (members (rv_domains (rproj w))) with (members (w_domains w)) in S0.
  assert (W0 : wf (rproj (session_destroy w)))
    by (rewrite rproj_session_destroy; exact (wf_rstep _ _ W (rs_session_destroy _))).
  rewrite <- rproj_session_destroy in S0.
  pose proof (si_rsteps _ _ _ W0 S0 (steps_rsteps _ _ S)) as S2.
  pose proof (si_missing _ _ _ S2) as M2. rewrite Nat.add_0_r in M2.
  assert (Pend : forall tk, In tk (w_ticks w2 ++ map snd (w_io w2)) ->
                   is_pending (members (w_domains w)) tk = true ->
                   (0 < countb (is_pending (members (w_domains w))) (rv_tasks (rproj w2)))%nat).
  { intros tk Hk Pk. apply (countb_pos _ _ tk); [|exact Pk].
    assert (Rk : is_rel_task tk = true) by (destruct tk; try discriminate; reflexivity).
    unfold rv_tasks. cbn [rproj rv_ticks rv_io].
    apply in_app_or in Hk as [Hk|Hk]; apply in_or_app; [left|right]; apply filter_In; split; assumption. }
  split; [exact A|]. split; [exact B|]. split; [exact C|]. split; [exact O|]. split.
  - split; [exact P|]. intros [tk [Hk Pk]].
    pose proof (Pend tk Hk Pk) as Q.
    assert (Rel : countb is_session_close (w_trace w2)
                  = countb is_session_close (filter is_rel_obs (w_trace w2))).
    { symmetry. apply countb_rel. intros [] F; try discriminate; reflexivity. }
    rewrite Rel. pose proof (si_close _ _ _ S2) as C2. cbn [rproj rv_trace] in C2. rewrite C2.
    destruct (Z.eqb_spec (rv_missing (rproj w2)) 0) as [E|E]; [|reflexivity]. lia.
  - intros Hm rest Ht.
    pose proof (Pend TSessionDone ltac:(rewrite Ht; left; reflexivity) eq_refl) as Q.
    pose proof (mis_rsteps_destroyed _ _ (si_destroyed _ _ _ S0) (steps_rsteps _ _ S)) as Le.
    change (rv_missing (rproj (session_destroy w))) with (w_missing (session_destroy w)) in Le.
    rewrite (session_destroy_missing_empty w D Hm) in Le.
    change (rv_missing (rproj w2)) with (w_missing w2) in M2, Le.
    assert (M1 : w_missing w2 = 1%Z) by lia.
    cbn [run_task]. unfold session_done. cbn [w_missing w_set_ticks]. rewrite M1. cbn.
    left. reflexivity.
Qed.

Lemma c_free_callback c ext : c_free c ext -> countb (is_callback c) ext = 0%nat.
Proof.
  intros F. apply countb_zero. intros o Ho. specialize (F o Ho). unfold is_c_obs in F.
  apply orb_false_iff in F as [F _]. apply orb_false_iff in F as [F _]. exact F.
Qed.

Lemma dht_done_no_callback w s e c :
  wf (rproj w) ->
  countb (is_callback c) (w_trace (dht_done w s e)) = countb (is_callback c) (w_trace w).
Proof.
  intros W.
  assert (Rel : forall x, countb (is_callback c) (w_trace x)
                          = countb (is_callback c) (rv_trace (rproj x))).
  { intros x. cbn [rproj rv_trace]. symmetry. apply countb_rel. intros [] F; try discriminate; reflexivity. }
  rewrite !Rel. destruct (rproj_dht_done w s e) as [E|[n [_ E]]]; rewrite E; [reflexivity|].
  destruct (cf_emit_update c (rproj w) n e) as [_ [ext [T F]]].
  - intros t r Et Hr. exact (wf_regs _ W n t r Et Hr).
  - rewrite T, countb_app, (c_free_callback _ _ F). reflexivity.
Qed.

(** C4: let [lookupOne(key, cb)] be called on a reachable live session [w];
    the lookup Topic it creates gets handle [c]. In every later state [w2]:
    [cb] has been called at most once. If [cb] got a peer [p], the Topic is
    destroyed, the Topic was destroyed just before the call, and the call
    came right after the Topic's first 'peer' event, which carried [p]; and
    if the Topic emitted any 'peer' event, [cb] got a peer. If [cb] got an
    error, the message is "Lookup failed", the Topic is destroyed, the call
    came right after the Topic's 'close' event, and no 'peer' event of the
    Topic was ever emitted. The Topic is destroyed once it has emitted
    'close', and then [cb] has been called exactly once. The end or an
    error of a DHT stream never calls [cb]; on the live Topic's open stream
    it emits 'update' and arms the timer of the next lookup. *)
Theorem C4_lookupOne_callback (w : world) (key rid : bytes) (c : nat) (w2 : world) :
  reachable w -> w_destroyed w = false -> c = List.length (w_topics w) ->
  steps (lookupOne w key rid) w2 ->
  (countb (is_callback c) (w_trace w2) <= 1)%nat /\
  (In (OEmit (Some c) EClose) (w_trace w2) -> countb (is_callback c) (w_trace w2) = 1%nat) /\
  (forall p, In (OCallback c (CPeer p)) (w_trace w2) ->
     option_map t_destroyed (get_topic w2 c) = Some true /\
     exists post pre, filter is_rel_obs (w_trace w2) =
       post ++ OCallback c (CPeer p) :: ODestroy c :: OEmit (Some c) (EPeer p) :: pre /\
       countb (is_peer_emit c) pre = 0%nat) /\
  (forall msg, In (OCallback c (CErr msg)) (w_trace w2) ->
     msg = "Lookup failed"%string /\ option_map t_destroyed (get_topic w2 c) = Some true /\
     exists post pre, filter is_rel_obs (w_trace w2) =
       post ++ OCallback c (CErr msg) :: OEmit (Some c) EClose :: pre /\
       countb (is_peer_emit c) (post ++ pre) = 0%nat) /\
  (forall p, In (OEmit (Some c) (EPeer p)) (w_trace w2) ->
     exists p0, In (OCallback c (CPeer p0)) (w_trace w2)) /\
  (In (OEmit (Some c) EClose) (w_trace w2) -> option_map t_destroyed (get_topic w2 c) = Some true) /\
  (forall s e, countb (is_callback c) (w_trace (dht_done w2 s e)) = countb (is_callback c) (w_trace w2)) /\
  (forall s e st, nth_error (w_streams w2) s = Some st -> s_topic st = c -> s_called st = false ->
     option_map t_destroyed (get_topic w2 c) = Some false ->
     In (OEmit (Some c) (EUpdate e)) (w_trace (dht_done w2 s e)) /\
     exists h, In (h, TDhtLoop c) (w_io (dht_done w2 s e))).
Proof.
  intros R D Hc S.
  destruct (lookupOne_callback_core w key rid c w2 R D Hc S) as [A [B [C E]]].
  split; [exact A|]. split; [exact B|]. split; [exact C|]. split; [exact E|].
  pose proof (reachable_wf w R) as W.
  assert (W2 : wf (rproj w2)).
  { apply (wf_rsteps (rproj (lookupOne w key rid))); [|exact (steps_rsteps _ _ S)].
    rewrite rproj_lookupOne by exact D. apply wf_lookupOne. exact W. }
  subst c. destruct (lk_after_lookupOne w key rid w2 R D S) as [t [Et Ph]].
  set (c := List.length (w_topics w)) in *.
  rewrite rt_at_rproj in Et. cbn [rproj rv_trace] in Ph.
  assert (Hd : option_map t_destroyed (get_topic w2 c) = Some (rt_destroyed t)).
  { destruct (get_topic w2 c) as [t0|]; [|discriminate]. injection Et as <-. reflexivity. }
  set (tr := filter is_rel_obs (w_trace w2)) in *.
  assert (Peer : forall p, In (OEmit (Some c) (EPeer p)) (w_trace w2) -> (0 < countb (is_peer_emit c) tr)%nat).
  { intros p Hp. apply (countb_pos _ _ _ (in_rel_trace _ _ Hp eq_refl)). cbn. apply Nat.eqb_refl. }
  assert (Close : In (OEmit (Some c) EClose) (w_trace w2) -> (0 < countb (is_topic_close c) tr)%nat).
  { intros Hp. apply (countb_pos _ _ _ (in_rel_trace _ _ Hp eq_refl)). cbn. apply Nat.eqb_refl. }
  split; [|split; [|split]].
  - intros p Hp. specialize (Peer p Hp).
    destruct Ph as [[_ [_ [H2 _]]]|[[_ [_ [p0 [post [pre [Tr _]]]]]]|[_ [_ [post [pre [Tr [_ Q0]]]]]]]].
    + lia.
    + exists p0. assert (X : In (OCallback c (CPeer p0)) tr) by (rewrite Tr; apply in_or_app; right; left; reflexivity).
      apply filter_In in X as [X _]. exact X.
    + exfalso. rewrite Tr, countb_app, !countb_cons in Peer. rewrite countb_app in Q0.
      cbn [is_peer_emit] in Peer. lia.
  - intros Hc. specialize (Close Hc). rewrite Hd.
    destruct Ph as [[_ [_ [_ H3]]]|[[D1 _]|[D1 _]]]; [lia|rewrite D1; reflexivity|rewrite D1; reflexivity].
  - intros s e. exact (dht_done_no_callback w2 s e c W2).
  - intros s e st Es Ts Cs Ds.
    destruct (get_topic w2 c) as [t0|] eqn:E0; [|discriminate Ds]. injection Ds as Ds.
    rewrite <- Ts in E0.
    destruct (dht_done_live w2 s e st t0 Es E0 Cs Ds) as [_ [U [h [t' [Io _]]]]].
    rewrite Ts in U, Io. split; [exact U|exists h; exact Io].
Qed.

(** The C1 statement at a session with one live announcing Topic, right
    after the [process.nextTick] of [destroy()]: the session has not closed,
    since the Topic's 'close' is still pending; and at a session with no
    Topic, whose 'close' comes with that tick. *)
Lemma C1_session_close_witness :
  reachable w_c1_ann /\ w_destroyed w_c1_ann = false /\
  steps (session_destroy w_c1_ann) w_c1_live_tick /\
  countb is_session_close (w_trace w_c1_live_tick) = 0%nat /\
  (exists tk, In tk (w_ticks w_c1_live_tick ++ map snd (w_io w_c1_live_tick)) /\
     is_pending (members (w_domains w_c1_ann)) tk = true) /\
  In (OEmit None EClose)
    (w_trace (run_task (w_set_ticks (session_destroy (init_world None)) []) TSessionDone)).
Proof.
  assert (R : reachable w_c1_ann).
  { exists None. apply steps_cons with w_c1_ann; [apply st_announce|apply steps_refl]. }
  assert (S : steps (session_destroy w_c1_ann) w_c1_live_tick).
  { apply steps_cons with w_c1_live_tick; [|apply steps_refl].
    apply (st_tick (session_destroy w_c1_ann) TSessionDone []). vm_compute. reflexivity. }
  assert (Z0 : countb is_session_close (w_trace w_c1_live_tick) = 0%nat) by (vm_compute; reflexivity).
  split; [exact R|]. split; [reflexivity|]. split; [exact S|]. split; [exact Z0|]. split.
  - exact (proj1 (proj1 (proj2 (proj2 (proj2 (proj2 (C1_session_close w_c1_ann w_c1_live_tick R eq_refl S)))))) Z0).
  - assert (R0 : reachable (init_world None)) by (exists None; apply steps_refl).
    exact (proj2 (proj2 (proj2 (proj2 (proj2 (C1_session_close (init_world None) _ R0 eq_refl (steps_refl _))))))
             ltac:(vm_compute; reflexivity) [] ltac:(vm_compute; reflexivity)).
Defined.

(** The C4 statement at a session where [lookupOne] was called first and the
    lookup stream then delivered two peers, and where instead the lookup
    stream ended. *)
Lemma C4_lookupOne_callback_witness :
  (countb (is_callback 0) (w_trace w_lookupOne_found) <= 1)%nat /\
  (exists p0, In (OCallback 0 (CPeer p0)) (w_trace w_lookupOne_found)) /\
  countb (is_callback 0) (w_trace (dht_done w_lookupOne 0 None)) = countb (is_callback 0) (w_trace w_lookupOne) /\
  In (OEmit (Some 0%nat) (EUpdate None)) (w_trace (dht_done w_lookupOne 0 None)).
Proof.
  assert (S : steps (lookupOne (init_world None) key20 rid_a) w_lookupOne_found).
  { apply steps_cons with w_lookupOne_found; [|apply steps_refl].
    exact (st_stream_data (lookupOne (init_world None) key20 rid_a) 0 (mkStream 0 false) two_peers
             ltac:(vm_compute; reflexivity)). }
  assert (R : reachable (init_world None)) by (exists None; apply steps_refl).
  destruct (C4_lookupOne_callback (init_world None) key20 rid_a 0 w_lookupOne_found R eq_refl eq_refl S)
    as [A [_ [_ [_ [F _]]]]].
  split; [exact A|]. split; [apply (F peer_1); vm_compute; tauto|].
  destruct (C4_lookupOne_callback (init_world None) key20 rid_a 0 w_lookupOne R eq_refl eq_refl (steps_refl _))
    as [_ [_ [_ [_ [_ [_ [N U]]]]]]].
  split; [exact (N 0%nat None)|].
  destruct (nth_error (w_streams w_lookupOne) 0) as [st|] eqn:Es; [|vm_compute in Es; discriminate Es].
  assert (P : s_topic st = 0%nat /\ s_called st = false) by (vm_compute in Es; injection Es as <-; split; reflexivity).
  destruct P as [Ts Cs].
  exact (proj1 (U 0%nat None st Es Ts Cs ltac:(vm_compute; reflexivity))).
Defined.
